(** * Atomic swap core: offers, message codec, relayer validation and the
      XMR-maker swap state, embedded from the Go sources.

    Go packages are rendered as modules carrying the package name.  Byte
    slices and fixed byte arrays are [list byte]; Go strings are [string];
    [big.Int] values and machine integers are [Z] or [N]; a Go function
    returning [(T, error)] returns either a pair [(T * option error)] or a
    [result T], and an [error] alone is an [option error]. *)

From Stdlib Require Import ZArith NArith List String Ascii Lia Bool.
From Stdlib Require Import Strings.Byte DecimalString DecimalN.
Import ListNotations.
Open Scope string_scope.

(** ** Errors *)

(** Go errors are values of one interface; the constructors below are the
    error values the embedded functions create.  [Wrap] is
    [fmt.Errorf("...: %w", err)]; [ErrJSON], [ErrCoins] and [ErrRPC] carry
    the message of an error produced by a collaborator outside the embedded
    code, [ErrFieldValidation] is the validator's report on a struct tag, and
    [Panic] is a Go run-time panic, which aborts the call. *)
Inductive error : Type :=
  (* encoding/hex *)
  | InvalidByteError (b : byte)
  | ErrLength
  (* common/types *)
  | ErrInvalidHashLen (n : nat)
  | errOfferVersionMissing
  | errOfferIDNotSet
  | errExchangeRateNil
  | errMinGreaterThanMax
  | ErrOfferVersionUnsupported
  | ErrOfferHashMismatch
  (* net/message *)
  | ErrInvalidMessageBytes
  | ErrInvalidMessageType (t : byte)
  (* relayer *)
  | ErrAssetNotSupported
  | ErrSwapValueTooLow
  (* protocol/xmrmaker *)
  | ethereum_NotFound
  | errRelayedTransactionTimeout
  | errClaimedLogInvalidContractAddr
  | errClaimedLogWrongTopicLength
  | errClaimedLogWrongEvent
  | errClaimedLogWrongSwapID
  | errClaimedLogWrongSecret
  | ErrClaimTxNoLogs
  | errInvalidStageForRecovery
  | errUnexpectedMessageType
  (* shared *)
  | Wrap (msg : string) (e : error)
  | ErrJSON (msg : string)
  | ErrCoins (msg : string)
  | ErrRPC (msg : string)
  | ErrFieldValidation (field tag : string)
  | Panic (msg : string).

Inductive result (A : Type) : Type :=
  | Ok (a : A)
  | Err (e : error).
Arguments Ok {A} a.
Arguments Err {A} e.

Definition bind {A B : Type} (r : result A) (k : A -> result B) : result B :=
  match r with
  | Ok a => k a
  | Err e => Err e
  end.

(** [check e] continues when a Go call returned a nil error. *)
Definition check {B : Type} (e : option error) (k : result B) : result B :=
  match e with
  | None => k
  | Some err => Err err
  end.

Declare Scope go_scope.
Delimit Scope go_scope with go.
Notation "x <- r ;; k" := (bind r (fun x => k))
  (at level 61, r at next level, right associativity) : go_scope.
Notation "'ensure' e ;; k" := (check e k)
  (at level 61, e at next level, right associativity) : go_scope.

Definition is_ok {A : Type} (r : result A) : bool :=
  match r with Ok _ => true | Err _ => false end.

(** A Go pointer is an [option]; [None] is nil. *)
Definition not_nil {A : Type} (p : option A) : bool :=
  match p with Some _ => true | None => false end.

(** ** Bytes *)

Definition byte_of_N (n : N) : byte :=
  match Byte.of_N (n mod 256) with
  | Some b => b
  | None => x00
  end.

Definition bytes_eqb (a b : list byte) : bool :=
  (List.length a =? List.length b)%nat && forallb (fun p => Byte.eqb (fst p) (snd p)) (combine a b).

(** Go's builtin [copy(dst, src)]: the first [min (len dst) (len src)]
    elements of [dst] are overwritten. *)
Definition copy (dst src : list byte) : list byte :=
  firstn (List.length dst) src ++ skipn (List.length src) dst.

(** ** encoding/hex and strings (Go standard library) *)

Module strings.

Definition HasPrefix (s p : string) : bool := String.prefix p s.

Definition TrimPrefix (s p : string) : string :=
  if HasPrefix s p
  then String.substring (String.length p) (String.length s - String.length p) s
  else s.

End strings.

Module hex.

(** [reverseHexTable]: the value of a hex digit, [None] for the table's
    0xff entries. *)
Definition fromHexChar (c : byte) : option N :=
  let n := Byte.to_N c in
  if ((48 <=? n) && (n <=? 57))%N then Some (n - 48)%N
  else if ((97 <=? n) && (n <=? 102))%N then Some (n - 87)%N
  else if ((65 <=? n) && (n <=? 70))%N then Some (n - 55)%N
  else None.

(** [hex.Decode]: the loop consumes two characters per step; with one
    character left it reports an invalid character before the odd
    length.  The bytes decoded before an error are returned with it. *)
Fixpoint Decode (src : list byte) : list byte * option error :=
  match src with
  | [] => ([], None)
  | [p] =>
      match fromHexChar p with
      | None => ([], Some (InvalidByteError p))
      | Some _ => ([], Some ErrLength)
      end
  | p :: q :: rest =>
      match fromHexChar p with
      | None => ([], Some (InvalidByteError p))
      | Some a =>
          match fromHexChar q with
          | None => ([], Some (InvalidByteError q))
          | Some b =>
              let '(out, e) := Decode rest in
              (byte_of_N (N.lor (N.shiftl a 4) b) :: out, e)
          end
      end
  end.

Definition DecodeString (s : string) : list byte * option error :=
  Decode (list_byte_of_string s).

(** Reading of "valid hex" used to state properties: a digit is one of
    the 22 characters below and its value is its position in the
    alphabet of its case. *)
Definition digits_lower : list byte := list_byte_of_string "0123456789abcdef".
Definition digits_upper : list byte := list_byte_of_string "0123456789ABCDEF".

Fixpoint index_of (c : byte) (l : list byte) : option N :=
  match l with
  | [] => None
  | d :: l' => if Byte.eqb c d then Some 0%N else option_map N.succ (index_of c l')
  end.

Definition digit_value (c : byte) : option N :=
  match index_of c digits_lower with
  | Some v => Some v
  | None => index_of c digits_upper
  end.

Definition is_digit (c : byte) : bool :=
  match digit_value c with Some _ => true | None => false end.

Definition digit_or_zero (c : byte) : N :=
  match digit_value c with Some v => v | None => 0%N end.


End hex.

(** ** golang.org/x/crypto/sha3: SHA3-256 (FIPS 202)

    The sponge over Keccak-f[1600] with rate 136 bytes and domain byte
    0x06.  The state is 25 lanes of 64 bits, lane [(x, y)] at index
    [x + 5 * y]. *)

Module sha3.

Definition w64 : N := 18446744073709551616%N.

Definition rotl64 (x n : N) : N :=
  (N.lor (N.shiftl x n mod w64) (N.shiftr x (64 - n)))%N.

Definition lane (st : list N) (x y : nat) : N :=
  nth ((x mod 5) + 5 * (y mod 5)) st 0%N.

Definition round_constants : list N :=
  [ 0x0000000000000001; 0x0000000000008082; 0x800000000000808A;
    0x8000000080008000; 0x000000000000808B; 0x0000000080000001;
    0x8000000080008081; 0x8000000000008009; 0x000000000000008A;
    0x0000000000000088; 0x0000000080008009; 0x000000008000000A;
    0x000000008000808B; 0x800000000000008B; 0x8000000000008089;
    0x8000000000008003; 0x8000000000008002; 0x8000000000000080;
    0x000000000000800A; 0x800000008000000A; 0x8000000080008081;
    0x8000000000008080; 0x0000000080000001; 0x8000000080008008 ]%N.

(** Rotation offsets, indexed [x + 5 * y]. *)
Definition rotation_offsets : list N :=
  [  0;  1; 62; 28; 27;
    36; 44;  6; 55; 20;
     3; 10; 43; 25; 39;
    41; 45; 15; 21;  8;
    18;  2; 61; 56; 14 ]%N.

Definition positions : list nat := seq 0 25.

Definition theta (st : list N) : list N :=
  let C x := N.lxor (lane st x 0) (N.lxor (lane st x 1)
               (N.lxor (lane st x 2) (N.lxor (lane st x 3) (lane st x 4)))) in
  let D x := N.lxor (C (x + 4)%nat) (rotl64 (C (x + 1)%nat) 1) in
  map (fun i => N.lxor (nth i st 0%N) (D (i mod 5)%nat)) positions.

(** rho and pi together: [B[y, 2x+3y] = rot (A[x, y]) r[x, y]], read
    from the destination [(X, Y)]: the source is [((X + 3Y) mod 5, X)]. *)
Definition rho_pi (st : list N) : list N :=
  map (fun i =>
         let X := (i mod 5)%nat in
         let Y := (i / 5)%nat in
         let x := ((X + 3 * Y) mod 5)%nat in
         rotl64 (lane st x X) (nth (x + 5 * X) rotation_offsets 0%N))
      positions.

Definition chi (st : list N) : list N :=
  map (fun i =>
         let x := (i mod 5)%nat in
         let y := (i / 5)%nat in
         N.lxor (lane st x y) (N.ldiff (lane st (x + 2) y) (lane st (x + 1) y)))
      positions.

Definition iota (rc : N) (st : list N) : list N :=
  match st with
  | [] => []
  | a :: st' => N.lxor a rc :: st'
  end.

Definition round (st : list N) (rc : N) : list N :=
  iota rc (chi (rho_pi (theta st))).

Definition keccak_f (st : list N) : list N :=
  fold_left round round_constants st.

(** Little-endian lanes. *)
Fixpoint lane_of_bytes (bs : list byte) : N :=
  match bs with
  | [] => 0%N
  | b :: bs' => (Byte.to_N b + 256 * lane_of_bytes bs')%N
  end.

Fixpoint bytes_of_lane (n : nat) (v : N) : list byte :=
  match n with
  | O => []
  | S n' => byte_of_N v :: bytes_of_lane n' (v / 256)%N
  end.

Fixpoint lanes_of_bytes (n : nat) (bs : list byte) : list N :=
  match n with
  | O => []
  | S n' => lane_of_bytes (firstn 8 bs) :: lanes_of_bytes n' (skipn 8 bs)
  end.

Definition rate : nat := 136.

Definition pad (msg : list byte) : list byte :=
  let q := (rate - (List.length msg mod rate))%nat in
  match q with
  | 1%nat => msg ++ [x86]
  | _ => msg ++ [x06] ++ repeat x00 (q - 2) ++ [x80]
  end.

Fixpoint xor_lanes (st blk : list N) : list N :=
  match st, blk with
  | a :: st', b :: blk' => N.lxor a b :: xor_lanes st' blk'
  | _, _ => st
  end.

Fixpoint absorb (blocks : nat) (st : list N) (bs : list byte) : list N :=
  match blocks with
  | O => st
  | S k =>
      let blk := lanes_of_bytes 17 (firstn rate bs) in
      absorb k (keccak_f (xor_lanes st blk)) (skipn rate bs)
  end.

Definition Sum256 (msg : list byte) : list byte :=
  let p := pad msg in
  let st := absorb (List.length p / rate) (repeat 0%N 25) p in
  flat_map (bytes_of_lane 8) (firstn 4 st).

End sha3.

(** ** github.com/cockroachdb/apd: arbitrary-precision decimals

    A finite decimal is [(-1)^Negative * Coeff * 10^Exponent].  Only the
    finite form is embedded; amounts and rates are never NaN or infinite. *)

Module apd.

Record Decimal : Type := mkDecimal {
  Negative : bool;
  Coeff : N;
  Exponent : Z
}.

(** [apd.New(coeff, exponent)] for a non-negative coefficient. *)
Definition New (coeff : N) (exponent : Z) : Decimal :=
  mkDecimal false coeff exponent.

Definition digits (c : N) : string := NilZero.string_of_uint (N.to_uint c).

Fixpoint zeros (n : nat) : string :=
  match n with
  | O => ""
  | S n' => String "0" (zeros n')
  end.

(** [Decimal.fmtF]: plain fixed-point notation of the coefficient's
    digits, no exponent part and no rounding. *)
Definition fmtF (d : Decimal) : string :=
  let ds := digits (Coeff d) in
  if (Exponent d <? 0)%Z then
    let left := (- Exponent d - Z.of_nat (String.length ds))%Z in
    if (0 <=? left)%Z then "0." ++ zeros (Z.to_nat left) ++ ds
    else
      let offset := Z.to_nat (- left) in
      String.substring 0 offset ds ++ "."
        ++ String.substring offset (String.length ds - offset) ds
  else ds ++ zeros (Z.to_nat (Exponent d)).

(** [d.Text('f')]. *)
Definition Text_f (d : Decimal) : string :=
  (if Negative d then "-" else "") ++ fmtF d.

Definition scaled (d : Decimal) (m : Z) : Z :=
  ((if Negative d then -1 else 1) * Z.of_N (Coeff d) * 10 ^ (Exponent d - m))%Z.

(** [x.Cmp(y)]: -1, 0 or 1 by numeric value. *)
Definition Cmp (x y : Decimal) : Z :=
  let m := Z.min (Exponent x) (Exponent y) in
  match (scaled x m ?= scaled y m)%Z with
  | Lt => (-1)%Z
  | Eq => 0%Z
  | Gt => 1%Z
  end.

Fixpoint strip_zeros (fuel : nat) (c : N) (e : Z) : N * Z :=
  match fuel with
  | O => (c, e)
  | S fuel' =>
      if (c mod 10 =? 0)%N then strip_zeros fuel' (c / 10)%N (e + 1)%Z
      else (c, e)
  end.

(** [d.Reduce(d)]: trailing zeros of the coefficient move into the
    exponent; zero becomes [0E0]. *)
Definition Reduce (x : Decimal) : Decimal :=
  if (Coeff x =? 0)%N then mkDecimal false 0 0
  else
    let '(c, e) := strip_zeros (S (N.to_nat (N.log2 (Coeff x)))) (Coeff x) (Exponent x) in
    mkDecimal (Negative x) c e.


End apd.

(** ** github.com/Masterminds/semver/v3 *)

Module semver.

Record Version : Type := mkVersion {
  Major : N;
  Minor : N;
  Patch : N;
  Pre : string;
  Metadata : string
}.

Definition String (v : Version) : string :=
  apd.digits (Major v) ++ "." ++ apd.digits (Minor v) ++ "." ++ apd.digits (Patch v)
    ++ (if String.eqb (Pre v) "" then "" else "-" ++ Pre v)
    ++ (if String.eqb (Metadata v) "" then "" else "+" ++ Metadata v).

Definition compareSegment (a b : N) : Z :=
  if (a <? b)%N then (-1)%Z else if (b <? a)%N then 1%Z else 0%Z.

Section Compare.

(** Precedence of two non-empty pre-release strings. *)
Variable comparePrerelease : string -> string -> Z.

Definition Compare (v o : Version) : Z :=
  let d := compareSegment (Major v) (Major o) in
  if negb (d =? 0)%Z then d else
  let d := compareSegment (Minor v) (Minor o) in
  if negb (d =? 0)%Z then d else
  let d := compareSegment (Patch v) (Patch o) in
  if negb (d =? 0)%Z then d else
  if String.eqb (Pre v) "" && String.eqb (Pre o) "" then 0%Z
  else if String.eqb (Pre v) "" then 1%Z
  else if String.eqb (Pre o) "" then (-1)%Z
  else comparePrerelease (Pre v) (Pre o).

Definition GreaterThan (v o : Version) : bool := (Compare v o >? 0)%Z.

End Compare.

End semver.

(** ** common/vjson *)

Module vjson.

(** Outcome of an [encoding/json] call: the library's error message or
    the value. *)
Definition decoded (A : Type) : Type := (string + A)%type.

Definition lift {A : Type} (r : decoded A) : result A :=
  match r with
  | inl msg => Err (ErrJSON msg)
  | inr a => Ok a
  end.

Section Struct.

Context {A : Type}.

(** The fields of a struct value that violate their [validate:"..."]
    tag, in declaration order, as pairs of field and tag. *)
Variable violations : A -> list (string * string).

(** [validate.Struct(v)] of go-playground/validator. *)
Definition validate_Struct (v : A) : option error :=
  match violations v with
  | [] => None
  | (f, t) :: _ => Some (ErrFieldValidation f t)
  end.

(** Modelled from the spec: [vjson.MarshalStruct] is not among the
    sources; JSON marshalling with field validation, the validation
    first. *)
Definition MarshalStruct (json_Marshal : A -> result (list byte)) (v : A)
  : result (list byte) :=
  (ensure validate_Struct v ;; json_Marshal v)%go.

(** Modelled from the spec: [vjson.UnmarshalStruct] is not among the
    sources; "JSON-unmarshal into it with field-validation
    (required/length constraints)". *)
Definition UnmarshalStruct (json_Unmarshal : list byte -> result A)
           (jsonData : list byte) : result A :=
  (v <- json_Unmarshal jsonData ;;
   ensure validate_Struct v ;;
   Ok v)%go.

End Struct.

(** The validator's [required] tag on each kind of field. *)
Definition required_bytes (name : string) (zero v : list byte) : list (string * string) :=
  if bytes_eqb v zero then [(name, "required")] else [].
Definition required_slice (name : string) (v : list byte) : list (string * string) :=
  match v with [] => [(name, "required")] | _ => [] end.
Definition required_string (name : string) (v : string) : list (string * string) :=
  if String.eqb v "" then [(name, "required")] else [].
Definition required_ptr {T : Type} (name : string) (v : option T) : list (string * string) :=
  match v with None => [(name, "required")] | Some _ => [] end.
Definition required_uint (name : string) (v : N) : list (string * string) :=
  if (v =? 0)%N then [(name, "required")] else [].
(** [required,len=n] on a byte slice. *)
Definition required_len (name : string) (n : nat) (v : list byte) : list (string * string) :=
  match v with
  | [] => [(name, "required")]
  | _ => if (List.length v =? n)%nat then [] else [(name, "len")]
  end.

End vjson.

(** ** common/types: hashes and offers (hash.go) *)

Module types.

(** [Hash = ethcommon.Hash], a [[32]byte]. *)
Definition Hash : Type := list byte.

Definition EmptyHash : Hash := repeat x00 32.

Definition IsHashZero (h : Hash) : bool := bytes_eqb h EmptyHash.

Definition HexToHash (s : string) : Hash * option error :=
  if String.eqb s "" then (EmptyHash, None)
  else
    let '(h, err) := hex.DecodeString (strings.TrimPrefix s "0x") in
    match err with
    | Some e => (EmptyHash, Some e)
    | None =>
        if negb (List.length h =? List.length EmptyHash)%nat
        then (EmptyHash, Some (ErrInvalidHashLen (List.length h)))
        else (copy EmptyHash h, None)
    end.

(** Modelled from the spec: [EthAsset] is declared outside the sources;
    "tagged {ETH | ERC20(address)}", a 20-byte address whose zero value
    is native ETH. *)
Definition EthAsset : Type := list byte.
Definition EthAssetETH : EthAsset := repeat x00 20.
Definition EthAsset_eqb (a b : EthAsset) : bool := bytes_eqb a b.

(** [coins.ExchangeRate] is a named [apd.Decimal]. *)
Definition ExchangeRate : Type := apd.Decimal.

Record Offer : Type := mkOffer {
  Version : semver.Version;
  ID : Hash;                            (* validate:"required" *)
  Provides : string;                    (* validate:"required" *)
  MinAmount : option apd.Decimal;       (* validate:"required" *)
  MaxAmount : option apd.Decimal;       (* validate:"required" *)
  ExchangeRate_ : option ExchangeRate;  (* validate:"required" *)
  EthAsset_ : EthAsset;
  Nonce : N                             (* validate:"required" *)
}.

Definition with_ID (o : Offer) (id : Hash) : Offer :=
  mkOffer (Version o) id (Provides o) (MinAmount o) (MaxAmount o)
          (ExchangeRate_ o) (EthAsset_ o) (Nonce o).

(** [CurOfferVersion], "1.0.0". *)
Definition CurOfferVersion : semver.Version := semver.mkVersion 1 0 0 "" "".

(** What the offer code calls in packages that are not among the
    sources: [encoding/json] on the three struct types involved, the
    [coins] package and the pre-release ordering of [semver]. *)
Class Externals : Type := {
  (** [json.Unmarshal] into [struct{ Version *semver.Version }];
      [None] is a nil pointer: the key is absent or null. *)
  json_Unmarshal_version : list byte -> vjson.decoded (option semver.Version);
  (** [json.Unmarshal] into [*_Offer], the offer without its methods. *)
  json_Unmarshal__Offer : list byte -> vjson.decoded Offer;
  (** [json.Marshal] of [*_Offer]. *)
  json_Marshal__Offer : Offer -> vjson.decoded (list byte);
  (** [coins.ValidatePositive(fieldName, maxDecimals, value)]. *)
  coins_ValidatePositive : string -> N -> option apd.Decimal -> option string;
  coins_NumMoneroDecimals : N;
  (** [ExchangeRate.String()] and [EthAsset.String()]. *)
  ExchangeRate_String : ExchangeRate -> string;
  EthAsset_String : EthAsset -> string;
  semver_comparePrerelease : string -> string -> Z
}.

Section Offers.

Context {ext : Externals}.

Definition ValidatePositive (fieldName : string) (value : option apd.Decimal)
  : option error :=
  option_map ErrCoins (coins_ValidatePositive fieldName coins_NumMoneroDecimals value).

Definition bytes_of (s : string) : list byte := list_byte_of_string s.

(** [append(b, []byte(s)...)]. *)
Definition append (b : list byte) (s : string) : list byte :=
  (b ++ bytes_of s)%list.

(** [Offer.hash].  The decimals are behind pointers; dereferencing a
    nil one panics. *)
Definition hash (o : Offer) : result Hash :=
  match MinAmount o, MaxAmount o, ExchangeRate_ o with
  | Some minAmount, Some maxAmount, Some exchangeRate =>
      let b := append (bytes_of (semver.String (Version o))) (Provides o) in
      let b := append b "," in
      let b := append b (apd.Text_f minAmount) in
      let b := append b "," in
      let b := append b (apd.Text_f maxAmount) in
      let b := append b "," in
      let b := append b (ExchangeRate_String exchangeRate) in
      let b := append b "," in
      let b := append b (EthAsset_String (EthAsset_ o)) in
      let b := append b "," in
      let b := append b (apd.digits (Nonce o)) in
      Ok (sha3.Sum256 b)
  | _, _, _ => Err (Panic "nil pointer dereference")
  end.

(** [Offer.setID]. *)
Definition setID (o : Offer) : result Offer :=
  if negb (IsHashZero (ID o)) then Err (Panic "offer ID is already set")
  else (h <- hash o ;; Ok (with_ID o h))%go.

(** [NewOffer]; [nonce] is the value read from [crypto/rand]. *)
Definition NewOffer (coin : string) (minAmount maxAmount : apd.Decimal)
           (exRate : ExchangeRate) (ethAsset : EthAsset) (nonce : N)
  : result Offer :=
  let minAmount := apd.Reduce minAmount in
  let maxAmount := apd.Reduce maxAmount in
  let exRate := apd.Reduce exRate in
  let offer :=
    mkOffer CurOfferVersion EmptyHash coin (Some minAmount) (Some maxAmount)
            (Some exRate) ethAsset nonce in
  setID offer.

(** [Offer.IsSet]. *)
Definition IsSet (o : Offer) : bool :=
  negb (IsHashZero (ID o))
  && negb (String.eqb (Provides o) "")
  && not_nil (MinAmount o)
  && not_nil (MaxAmount o)
  && not_nil (ExchangeRate_ o).

(** [Offer.validate]. *)
Definition validate (o : Offer) : option error :=
  if IsHashZero (ID o) then Some errOfferIDNotSet else
  match ValidatePositive "minAmount" (MinAmount o) with
  | Some err => Some err
  | None =>
  match ValidatePositive "maxAmount" (MaxAmount o) with
  | Some err => Some err
  | None =>
  match MinAmount o, MaxAmount o with
  | Some minAmount, Some maxAmount =>
      if (apd.Cmp minAmount maxAmount >? 0)%Z then Some errMinGreaterThanMax else
      match ExchangeRate_ o with
      | None => Some errExchangeRateNil
      | Some _ =>
          match hash o with
          | Err e => Some e
          | Ok h =>
              if negb (bytes_eqb (ID o) h) then Some ErrOfferHashMismatch
              else None
          end
      end
  | _, _ => Some (Panic "nil pointer dereference")
  end end end.

(** The [validate:"required"] tags of the [Offer] struct. *)
Definition Offer_violations (o : Offer) : list (string * string) :=
  (vjson.required_bytes "ID" EmptyHash (ID o)
   ++ vjson.required_string "Provides" (Provides o)
   ++ vjson.required_ptr "MinAmount" (MinAmount o)
   ++ vjson.required_ptr "MaxAmount" (MaxAmount o)
   ++ vjson.required_ptr "ExchangeRate" (ExchangeRate_ o)
   ++ vjson.required_uint "Nonce" (Nonce o))%list.


(** [Offer.UnmarshalJSON]; the decoded offer is the receiver after
    the call. *)
Definition UnmarshalJSON (data : list byte) : result Offer :=
  (o <- vjson.UnmarshalStruct Offer_violations
          (fun d => vjson.lift (json_Unmarshal__Offer d)) data ;;
   ensure validate o ;;
   Ok o)%go.

(** [UnmarshalOffer].  [json.Unmarshal] into an [*Offer] runs
    [Offer.UnmarshalJSON], the type's own decoder. *)
Definition UnmarshalOffer (jsonData : list byte) : result Offer :=
  (ov <- vjson.lift (json_Unmarshal_version jsonData) ;;
   match ov with
   | None => Err errOfferVersionMissing
   | Some version =>
       if semver.GreaterThan semver_comparePrerelease version CurOfferVersion
       then Err ErrOfferVersionUnsupported
       else
         o <- vjson.UnmarshalStruct Offer_violations UnmarshalJSON jsonData ;;
         Ok o
   end)%go.

Definition required_fields : list string :=
  ["ID"; "Provides"; "MinAmount"; "MaxAmount"; "ExchangeRate"; "Nonce"].

(** A valid offer: every required field is set and [Offer.validate]
    accepts it (amounts positive, minAmount at most maxAmount, ID equal
    to the hash of the fields). *)
Definition valid (o : Offer) : Prop :=
  Offer_violations o = [] /\ validate o = None.




End Offers.

End types.

(** ** ethereum (contract bindings) *)

Module contracts.

Definition Address : Type := list byte.

(** Modelled from the spec: [SwapFactorySwap] is declared outside the
    sources; "ContractSwap: {owner, claimer, pubKeyClaim (32B),
    pubKeyRefund (32B), timeout0, timeout1, asset, value, nonce}". *)
Record SwapFactorySwap : Type := mkSwap {
  Owner : Address;
  Claimer : Address;
  PubKeyClaim : list byte;
  PubKeyRefund : list byte;
  Timeout0 : Z;
  Timeout1 : Z;
  Asset : Address;
  Value : Z;
  SwapNonce : Z
}.

End contracts.

(** ** net/message *)

Module message.

(** Identifiers of the p2p message types ([iota] constants). *)
Definition Unknown : byte := x00.
Definition QueryResponseType : byte := x01.
Definition RelayClaimRequestType : byte := x02.
Definition RelayClaimResponseType : byte := x03.
Definition SendKeysType : byte := x04.
Definition NotifyETHLockedType : byte := x05.

Record QueryResponse : Type := {
  Offers : list (option types.Offer)               (* validate:"dive,required" *)
}.

Record SendKeysMessage : Type := {
  OfferID : types.Hash;
  ProvidedAmount : option apd.Decimal;             (* validate:"required" *)
  PublicSpendKey : option (list byte);             (* validate:"required" *)
  PrivateViewKey : option (list byte);             (* validate:"required" *)
  DLEqProof : list byte;                           (* validate:"required" *)
  Secp256k1PublicKey : option (list byte);         (* validate:"required" *)
  EthAddress : contracts.Address
}.

Record NotifyETHLocked : Type := {
  Address : contracts.Address;                     (* validate:"required" *)
  TxHash : types.Hash;                             (* validate:"required" *)
  ContractSwapID : types.Hash;                     (* validate:"required" *)
  ContractSwap : option contracts.SwapFactorySwap  (* validate:"required" *)
}.

Record RelayClaimRequest : Type := {
  SwapFactoryAddress : contracts.Address;          (* validate:"required" *)
  Swap : option contracts.SwapFactorySwap;         (* validate:"required" *)
  Secret : list byte;                              (* validate:"required,len=32" *)
  Signature : list byte                            (* validate:"required,len=65" *)
}.

Record RelayClaimResponse : Type := {
  RespTxHash : types.Hash                          (* validate:"required" *)
}.

(** [common.Message]: the five implementations of the interface. *)
Inductive Message : Type :=
  | MsgQueryResponse (m : QueryResponse)
  | MsgRelayClaimRequest (m : RelayClaimRequest)
  | MsgRelayClaimResponse (m : RelayClaimResponse)
  | MsgSendKeys (m : SendKeysMessage)
  | MsgNotifyETHLocked (m : NotifyETHLocked).

(** [Message.Type]. *)
Definition Type_ (m : Message) : byte :=
  match m with
  | MsgQueryResponse _ => QueryResponseType
  | MsgRelayClaimRequest _ => RelayClaimRequestType
  | MsgRelayClaimResponse _ => RelayClaimResponseType
  | MsgSendKeys _ => SendKeysType
  | MsgNotifyETHLocked _ => NotifyETHLockedType
  end.

Definition TypeToString (t : byte) : string :=
  if Byte.eqb t QueryResponseType then "QueryResponse"
  else if Byte.eqb t SendKeysType then "SendKeysMessage"
  else if Byte.eqb t NotifyETHLockedType then "NotifyETHLocked"
  else if Byte.eqb t RelayClaimRequestType then "RelayClaimRequestType"
  else if Byte.eqb t RelayClaimResponseType then "RelayClaimResponse"
  else "Unknown(" ++ apd.digits (Byte.to_N t) ++ ")".

(** The struct tags of each message. *)
Definition zero_address : contracts.Address := repeat x00 20.

(** [dive,required]: every offer is non-nil, and the validator descends
    into its tags. *)
Definition QueryResponse_violations (m : QueryResponse) : list (string * string) :=
  flat_map (fun o => match o with
                     | None => [("Offers", "required")]
                     | Some offer => types.Offer_violations offer
                     end)
           (Offers m).

Definition SendKeys_violations (m : SendKeysMessage) : list (string * string) :=
  (vjson.required_ptr "ProvidedAmount" (ProvidedAmount m)
   ++ vjson.required_ptr "PublicSpendKey" (PublicSpendKey m)
   ++ vjson.required_ptr "PrivateViewKey" (PrivateViewKey m)
   ++ vjson.required_slice "DLEqProof" (DLEqProof m)
   ++ vjson.required_ptr "Secp256k1PublicKey" (Secp256k1PublicKey m))%list.

Definition NotifyETHLocked_violations (m : NotifyETHLocked) : list (string * string) :=
  (vjson.required_bytes "Address" zero_address (Address m)
   ++ vjson.required_bytes "TxHash" types.EmptyHash (TxHash m)
   ++ vjson.required_bytes "ContractSwapID" types.EmptyHash (ContractSwapID m)
   ++ vjson.required_ptr "ContractSwap" (ContractSwap m))%list.

Definition RelayClaimRequest_violations (m : RelayClaimRequest) : list (string * string) :=
  (vjson.required_bytes "SwapFactoryAddress" zero_address (SwapFactoryAddress m)
   ++ vjson.required_ptr "Swap" (Swap m)
   ++ vjson.required_len "Secret" 32 (Secret m)
   ++ vjson.required_len "Signature" 65 (Signature m))%list.

Definition RelayClaimResponse_violations (m : RelayClaimResponse) : list (string * string) :=
  vjson.required_bytes "TxHash" types.EmptyHash (RespTxHash m).

(** [encoding/json] on the five message structs. *)
Class Decoders : Type := {
  json_Unmarshal_QueryResponse : list byte -> vjson.decoded QueryResponse;
  json_Unmarshal_RelayClaimRequest : list byte -> vjson.decoded RelayClaimRequest;
  json_Unmarshal_RelayClaimResponse : list byte -> vjson.decoded RelayClaimResponse;
  json_Unmarshal_SendKeysMessage : list byte -> vjson.decoded SendKeysMessage;
  json_Unmarshal_NotifyETHLocked : list byte -> vjson.decoded NotifyETHLocked
}.

Section Decode.

Context {dec : Decoders}.

(** [vjson.UnmarshalStruct(msgJSON, msg)] for a message allocated as
    the struct of type code [t]. *)
Definition unmarshal_as {A : Type} (violations : A -> list (string * string))
           (json_Unmarshal : list byte -> vjson.decoded A)
           (wrap : A -> Message) (msgJSON : list byte) : result Message :=
  (m <- vjson.UnmarshalStruct violations (fun d => vjson.lift (json_Unmarshal d)) msgJSON ;;
   Ok (wrap m))%go.

Definition decode_QueryResponse :=
  unmarshal_as QueryResponse_violations json_Unmarshal_QueryResponse MsgQueryResponse.
Definition decode_RelayClaimRequest :=
  unmarshal_as RelayClaimRequest_violations json_Unmarshal_RelayClaimRequest MsgRelayClaimRequest.
Definition decode_RelayClaimResponse :=
  unmarshal_as RelayClaimResponse_violations json_Unmarshal_RelayClaimResponse MsgRelayClaimResponse.
Definition decode_SendKeysMessage :=
  unmarshal_as SendKeys_violations json_Unmarshal_SendKeysMessage MsgSendKeys.
Definition decode_NotifyETHLocked :=
  unmarshal_as NotifyETHLocked_violations json_Unmarshal_NotifyETHLocked MsgNotifyETHLocked.

(** [fmt.Errorf("failed to decode %s message: %w", TypeToString(msg.Type()), err)]. *)
Definition decode_failure (t : byte) (r : result Message) : result Message :=
  match r with
  | Ok m => Ok m
  | Err e => Err (Wrap ("failed to decode " ++ TypeToString t ++ " message") e)
  end.

(** [DecodeMessage]. *)
Definition DecodeMessage (b : list byte) : result Message :=
  if (List.length b <? 3)%nat then Err ErrInvalidMessageBytes else
  match b with
  | [] => Err (Panic "index out of range")
  | msgType :: msgJSON =>
      if Byte.eqb msgType QueryResponseType then
        decode_failure QueryResponseType (decode_QueryResponse msgJSON)
      else if Byte.eqb msgType RelayClaimRequestType then
        decode_failure RelayClaimRequestType (decode_RelayClaimRequest msgJSON)
      else if Byte.eqb msgType RelayClaimResponseType then
        decode_failure RelayClaimResponseType (decode_RelayClaimResponse msgJSON)
      else if Byte.eqb msgType SendKeysType then
        decode_failure SendKeysType (decode_SendKeysMessage msgJSON)
      else if Byte.eqb msgType NotifyETHLockedType then
        decode_failure NotifyETHLockedType (decode_NotifyETHLocked msgJSON)
      else Err (ErrInvalidMessageType msgType)
  end.

End Decode.

End message.

(** ** relayer (validate.go) *)

Module relayer.

Section Validate.

(** [FeeWei], the relayer's fee, a package constant declared outside
    the sources. *)
Variable FeeWei : Z.

(** [contracts.CheckSwapFactoryContractCode(ctx, ec, addr)]: the
    outcome of comparing the deployed bytecode, [None] when it is the
    expected one. *)
Variable CheckSwapFactoryContractCode : contracts.Address -> option string.

(** [validateClaimValues]. *)
Definition validateClaimValues (req : message.RelayClaimRequest)
           (ourSwapFactoryAddr : contracts.Address) : option error :=
  let code_err :=
    if negb (bytes_eqb (message.SwapFactoryAddress req) ourSwapFactoryAddr)
    then option_map ErrRPC (CheckSwapFactoryContractCode (message.SwapFactoryAddress req))
    else None in
  match code_err with
  | Some err => Some err
  | None =>
      match message.Swap req with
      | None => Some (Panic "nil pointer dereference")
      | Some swap =>
          let asset : types.EthAsset := contracts.Asset swap in
          if negb (types.EthAsset_eqb asset types.EthAssetETH)
          then Some ErrAssetNotSupported
          else
            (* FeeWei.Cmp(req.Swap.Value) >= 0 *)
            if (FeeWei >=? contracts.Value swap)%Z then Some ErrSwapValueTooLow
            else None
      end
  end.

(** The bytecode check passes: the request names our own factory, or
    the deployed code is the expected one. *)
Definition code_check_passes (req : message.RelayClaimRequest)
           (ourSwapFactoryAddr : contracts.Address) : Prop :=
  message.SwapFactoryAddress req = ourSwapFactoryAddr \/
  CheckSwapFactoryContractCode (message.SwapFactoryAddress req) = None.

End Validate.

End relayer.

(** ** protocol/xmrmaker (swap_state.go, claim.go) *)

Module xmrmaker.

(** Modelled from the spec: [types.Status] is declared outside the
    sources; "Status ∈ {Ongoing, KeysExchanged, ETHLocked, XMRLocked,
    ContractReady, CompletedSuccess, CompletedRefund, CompletedAbort}",
    in protocol order. *)
Inductive Status : Type :=
  | Ongoing
  | KeysExchanged
  | ETHLocked
  | XMRLocked
  | ContractReady
  | CompletedSuccess
  | CompletedRefund
  | CompletedAbort.

Definition Status_eqb (a b : Status) : bool :=
  match a, b with
  | Ongoing, Ongoing | KeysExchanged, KeysExchanged | ETHLocked, ETHLocked
  | XMRLocked, XMRLocked | ContractReady, ContractReady
  | CompletedSuccess, CompletedSuccess | CompletedRefund, CompletedRefund
  | CompletedAbort, CompletedAbort => true
  | _, _ => false
  end.

(** Position of a status in the protocol, and the terminal ones. *)
Definition stage (s : Status) : nat :=
  match s with
  | Ongoing => 0 | KeysExchanged => 1 | ETHLocked => 2 | XMRLocked => 3
  | ContractReady => 4 | CompletedSuccess => 5 | CompletedRefund => 6
  | CompletedAbort => 7
  end.

Definition terminal (s : Status) : bool :=
  match s with
  | CompletedSuccess | CompletedRefund | CompletedAbort => true
  | _ => false
  end.

(** Modelled from the spec: [EventType] is declared outside the sources;
    the input alphabet "EventKeysReceived, EventETHLocked,
    EventContractReady, EventETHRefunded, EventShouldRefund, EventExit"
    and the terminal "None". *)
Inductive EventType : Type :=
  | EventKeysReceivedType
  | EventETHLockedType
  | EventContractReadyType
  | EventETHRefundedType
  | EventShouldRefundType
  | EventExitType
  | EventNoneType.

(** The events a swap receives on its channel; [EventETHRefunded]
    carries the counterparty's revealed spend key. *)
Inductive Event : Type :=
  | EventETHLocked (m : message.NotifyETHLocked)
  | EventContractReady
  | EventETHRefunded (sk : list byte)
  | EventExit.

(** [pswap.Info], the persisted record of a swap. *)
Record Info : Type := mkInfo {
  ID : types.Hash;
  ProvidedAmount : apd.Decimal;
  ExpectedAmount : apd.Decimal;
  InfoExchangeRate : types.ExchangeRate;
  InfoEthAsset : types.EthAsset;
  Status_ : Status;
  MoneroStartHeight : N
}.

Definition SetStatus (st : Status) (i : Info) : Info :=
  mkInfo (ID i) (ProvidedAmount i) (ExpectedAmount i) (InfoExchangeRate i)
         (InfoEthAsset i) st (MoneroStartHeight i).

(** [types.OfferExtra]; a channel is the list of values sent on it. *)
Record OfferExtra : Type := mkOfferExtra {
  StatusCh : option (list Status);
  UseRelayer : bool
}.

(** [db.EthereumSwapInfo]. *)
Record EthereumSwapInfo : Type := mkEthereumSwapInfo {
  StartNumber : Z;                                  (* validate:"required" *)
  SwapID : types.Hash;                              (* validate:"required" *)
  Swap : option contracts.SwapFactorySwap;          (* validate:"required" *)
  ContractAddress : contracts.Address               (* validate:"required" *)
}.

(** [dleq.Proof]: the secret scalar and its proof bytes. *)
Record Proof : Type := mkProof {
  secret : list byte;
  proof : list byte
}.
Definition Proof_Secret (p : Proof) : list byte := secret p.

(** [mcrypto.PrivateKeyPair]: the spend and view scalars, 32 bytes each,
    little-endian. *)
Record PrivateKeyPair : Type := mkPrivateKeyPair {
  SpendKeyBytes : list byte;
  ViewKeyBytes : list byte
}.

Record PublicKeyPair : Type := mkPublicKeyPair {
  PublicSpendKey : list byte;
  PublicViewKey : list byte
}.

(** A contract binding is the address it is bound to. *)
Definition SwapFactory : Type := contracts.Address.

(** [txsender.Sender]: the contract it sends to and the token, if any. *)
Record Sender : Type := mkSender {
  senderToken : option contracts.Address;
  senderContractAddr : contracts.Address;
  senderContract : option SwapFactory
}.

(** [backend.Backend] and the packages behind it, by the outcome of
    each call the swap state makes on them. *)
Record Backend : Type := mkBackend {
  NewIERC20 : contracts.Address -> vjson.decoded contracts.Address;
  NewTxSender : contracts.Address -> option contracts.Address -> vjson.decoded Sender;
  ContractAddr : contracts.Address;
  (** [watcher.NewEventFilter(...).Start()] for a topic. *)
  EventFilter_Start : types.Hash -> option string;
  NewSwapFactory : contracts.Address -> vjson.decoded SwapFactory
}.

Definition rpc {A : Type} (r : vjson.decoded A) : result A :=
  match r with
  | inl msg => Err (ErrRPC msg)
  | inr a => Ok a
  end.

Record swapState : Type := mkSwapState {
  backend : Backend;  (* backend.Backend, embedded *)
  sender : Sender;
  cancelled : bool;  (* ctx: set once cancel() ran *)
  info : Info;  (* *pswap.Info *)
  offer : types.Offer;
  offerExtra : OfferExtra;
  dleqProof : option Proof;  (* our keys for this session *)
  secp256k1Pub : option (list byte);
  privkeys : option PrivateKeyPair;
  pubkeys : option PublicKeyPair;
  contract : option SwapFactory;  (* swap contract and timeouts in it *)
  contractAddr : contracts.Address;
  contractSwapID : types.Hash;
  contractSwap : option contracts.SwapFactorySwap;
  t0 : Z;
  t1 : Z;
  xmrtakerPublicSpendKey : option (list byte);  (* XMRTaker's keys for this session *)
  xmrtakerPrivateViewKey : option (list byte);
  xmrtakerSecp256K1PublicKey : option (list byte);
  moneroStartHeight : N;
  nextExpectedEvent : EventType;  (* tracks the state of the swap *)
  fundsLocked : bool;  (* set to true once funds are locked *)
  eventCh : list Event;  (* channel for swap events, oldest first *)
  done : bool  (* set once the done channel is closed *)
}.

(** Assignments to one field of the state. *)
Definition set_sender (v : Sender) (s : swapState) : swapState :=
  mkSwapState (backend s) v (cancelled s) (info s) (offer s) (offerExtra
    s) (dleqProof s) (secp256k1Pub s) (privkeys s) (pubkeys s) (contract
    s) (contractAddr s) (contractSwapID s) (contractSwap s) (t0 s) (t1 s)
    (xmrtakerPublicSpendKey s) (xmrtakerPrivateViewKey s)
    (xmrtakerSecp256K1PublicKey s) (moneroStartHeight s)
    (nextExpectedEvent s) (fundsLocked s) (eventCh s) (done s).
Definition set_cancelled (v : bool) (s : swapState) : swapState :=
  mkSwapState (backend s) (sender s) v (info s) (offer s) (offerExtra s)
    (dleqProof s) (secp256k1Pub s) (privkeys s) (pubkeys s) (contract s)
    (contractAddr s) (contractSwapID s) (contractSwap s) (t0 s) (t1 s)
    (xmrtakerPublicSpendKey s) (xmrtakerPrivateViewKey s)
    (xmrtakerSecp256K1PublicKey s) (moneroStartHeight s)
    (nextExpectedEvent s) (fundsLocked s) (eventCh s) (done s).
Definition set_info (v : Info) (s : swapState) : swapState :=
  mkSwapState (backend s) (sender s) (cancelled s) v (offer s) (offerExtra
    s) (dleqProof s) (secp256k1Pub s) (privkeys s) (pubkeys s) (contract
    s) (contractAddr s) (contractSwapID s) (contractSwap s) (t0 s) (t1 s)
    (xmrtakerPublicSpendKey s) (xmrtakerPrivateViewKey s)
    (xmrtakerSecp256K1PublicKey s) (moneroStartHeight s)
    (nextExpectedEvent s) (fundsLocked s) (eventCh s) (done s).
Definition set_offerExtra (v : OfferExtra) (s : swapState) : swapState :=
  mkSwapState (backend s) (sender s) (cancelled s) (info s) (offer s) v
    (dleqProof s) (secp256k1Pub s) (privkeys s) (pubkeys s) (contract s)
    (contractAddr s) (contractSwapID s) (contractSwap s) (t0 s) (t1 s)
    (xmrtakerPublicSpendKey s) (xmrtakerPrivateViewKey s)
    (xmrtakerSecp256K1PublicKey s) (moneroStartHeight s)
    (nextExpectedEvent s) (fundsLocked s) (eventCh s) (done s).
Definition set_privkeys (v : option PrivateKeyPair) (s : swapState) : swapState :=
  mkSwapState (backend s) (sender s) (cancelled s) (info s) (offer s)
    (offerExtra s) (dleqProof s) (secp256k1Pub s) v (pubkeys s) (contract
    s) (contractAddr s) (contractSwapID s) (contractSwap s) (t0 s) (t1 s)
    (xmrtakerPublicSpendKey s) (xmrtakerPrivateViewKey s)
    (xmrtakerSecp256K1PublicKey s) (moneroStartHeight s)
    (nextExpectedEvent s) (fundsLocked s) (eventCh s) (done s).
Definition set_pubkeys (v : option PublicKeyPair) (s : swapState) : swapState :=
  mkSwapState (backend s) (sender s) (cancelled s) (info s) (offer s)
    (offerExtra s) (dleqProof s) (secp256k1Pub s) (privkeys s) v (contract
    s) (contractAddr s) (contractSwapID s) (contractSwap s) (t0 s) (t1 s)
    (xmrtakerPublicSpendKey s) (xmrtakerPrivateViewKey s)
    (xmrtakerSecp256K1PublicKey s) (moneroStartHeight s)
    (nextExpectedEvent s) (fundsLocked s) (eventCh s) (done s).
Definition set_contract (v : option SwapFactory) (s : swapState) : swapState :=
  mkSwapState (backend s) (sender s) (cancelled s) (info s) (offer s)
    (offerExtra s) (dleqProof s) (secp256k1Pub s) (privkeys s) (pubkeys s)
    v (contractAddr s) (contractSwapID s) (contractSwap s) (t0 s) (t1 s)
    (xmrtakerPublicSpendKey s) (xmrtakerPrivateViewKey s)
    (xmrtakerSecp256K1PublicKey s) (moneroStartHeight s)
    (nextExpectedEvent s) (fundsLocked s) (eventCh s) (done s).
Definition set_contractAddr (v : contracts.Address) (s : swapState) : swapState :=
  mkSwapState (backend s) (sender s) (cancelled s) (info s) (offer s)
    (offerExtra s) (dleqProof s) (secp256k1Pub s) (privkeys s) (pubkeys s)
    (contract s) v (contractSwapID s) (contractSwap s) (t0 s) (t1 s)
    (xmrtakerPublicSpendKey s) (xmrtakerPrivateViewKey s)
    (xmrtakerSecp256K1PublicKey s) (moneroStartHeight s)
    (nextExpectedEvent s) (fundsLocked s) (eventCh s) (done s).
Definition set_contractSwapID (v : types.Hash) (s : swapState) : swapState :=
  mkSwapState (backend s) (sender s) (cancelled s) (info s) (offer s)
    (offerExtra s) (dleqProof s) (secp256k1Pub s) (privkeys s) (pubkeys s)
    (contract s) (contractAddr s) v (contractSwap s) (t0 s) (t1 s)
    (xmrtakerPublicSpendKey s) (xmrtakerPrivateViewKey s)
    (xmrtakerSecp256K1PublicKey s) (moneroStartHeight s)
    (nextExpectedEvent s) (fundsLocked s) (eventCh s) (done s).
Definition set_contractSwap (v : option contracts.SwapFactorySwap) (s : swapState) : swapState :=
  mkSwapState (backend s) (sender s) (cancelled s) (info s) (offer s)
    (offerExtra s) (dleqProof s) (secp256k1Pub s) (privkeys s) (pubkeys s)
    (contract s) (contractAddr s) (contractSwapID s) v (t0 s) (t1 s)
    (xmrtakerPublicSpendKey s) (xmrtakerPrivateViewKey s)
    (xmrtakerSecp256K1PublicKey s) (moneroStartHeight s)
    (nextExpectedEvent s) (fundsLocked s) (eventCh s) (done s).
Definition set_t0 (v : Z) (s : swapState) : swapState :=
  mkSwapState (backend s) (sender s) (cancelled s) (info s) (offer s)
    (offerExtra s) (dleqProof s) (secp256k1Pub s) (privkeys s) (pubkeys s)
    (contract s) (contractAddr s) (contractSwapID s) (contractSwap s) v
    (t1 s) (xmrtakerPublicSpendKey s) (xmrtakerPrivateViewKey s)
    (xmrtakerSecp256K1PublicKey s) (moneroStartHeight s)
    (nextExpectedEvent s) (fundsLocked s) (eventCh s) (done s).
Definition set_t1 (v : Z) (s : swapState) : swapState :=
  mkSwapState (backend s) (sender s) (cancelled s) (info s) (offer s)
    (offerExtra s) (dleqProof s) (secp256k1Pub s) (privkeys s) (pubkeys s)
    (contract s) (contractAddr s) (contractSwapID s) (contractSwap s) (t0
    s) v (xmrtakerPublicSpendKey s) (xmrtakerPrivateViewKey s)
    (xmrtakerSecp256K1PublicKey s) (moneroStartHeight s)
    (nextExpectedEvent s) (fundsLocked s) (eventCh s) (done s).
Definition set_nextExpectedEvent (v : EventType) (s : swapState) : swapState :=
  mkSwapState (backend s) (sender s) (cancelled s) (info s) (offer s)
    (offerExtra s) (dleqProof s) (secp256k1Pub s) (privkeys s) (pubkeys s)
    (contract s) (contractAddr s) (contractSwapID s) (contractSwap s) (t0
    s) (t1 s) (xmrtakerPublicSpendKey s) (xmrtakerPrivateViewKey s)
    (xmrtakerSecp256K1PublicKey s) (moneroStartHeight s) v (fundsLocked s)
    (eventCh s) (done s).
Definition set_eventCh (v : list Event) (s : swapState) : swapState :=
  mkSwapState (backend s) (sender s) (cancelled s) (info s) (offer s)
    (offerExtra s) (dleqProof s) (secp256k1Pub s) (privkeys s) (pubkeys s)
    (contract s) (contractAddr s) (contractSwapID s) (contractSwap s) (t0
    s) (t1 s) (xmrtakerPublicSpendKey s) (xmrtakerPrivateViewKey s)
    (xmrtakerSecp256K1PublicKey s) (moneroStartHeight s)
    (nextExpectedEvent s) (fundsLocked s) v (done s).
Definition set_done (v : bool) (s : swapState) : swapState :=
  mkSwapState (backend s) (sender s) (cancelled s) (info s) (offer s)
    (offerExtra s) (dleqProof s) (secp256k1Pub s) (privkeys s) (pubkeys s)
    (contract s) (contractAddr s) (contractSwapID s) (contractSwap s) (t0
    s) (t1 s) (xmrtakerPublicSpendKey s) (xmrtakerPrivateViewKey s)
    (xmrtakerSecp256K1PublicKey s) (moneroStartHeight s)
    (nextExpectedEvent s) (fundsLocked s) (eventCh s) v.

(** Modelled from the spec: [common.Reverse] is not among the sources
    (its test is: the slice [0xa, 0xb, 0xc] becomes [0xc, 0xb, 0xa] and
    the input stays as it was); the "byte-reversal" of a slice, as a new
    slice. *)
Definition Reverse (s : list byte) : list byte := rev s.

(** [swapState.getSecret]. *)
Definition getSecret (s : swapState) : result (list byte) :=
  match dleqProof s with
  | Some p => Ok (Proof_Secret p)
  | None =>
      match privkeys s with
      | None => Err (Panic "nil pointer dereference")
      | Some keys =>
          let secret := repeat x00 32 in
          Ok (copy secret (Reverse (SpendKeyBytes keys)))
      end
  end.

(** *** Construction of a swap state *)

Section Constructors.

(** Package values computed outside the sources: the log topics,
    the map from a status to the event expected next, and the
    public half of a private key pair. *)
Variables readyTopic refundedTopic : types.Hash.
Variable nextExpectedEventFromStatus : Status -> EventType.
Variable PublicKeyPair_of : PrivateKeyPair -> PublicKeyPair.

(** [newSwapState].  The two goroutines it starts (the event loop and
    the contract watcher) only read the channels and are not part of
    the returned value. *)
Definition newSwapState (b : Backend) (offer : types.Offer)
           (offerExtra : OfferExtra) (ethStartNumber : Z)
           (moneroStartNumber : N) (info : Info) : result swapState :=
  (sender <-
     (if negb (types.EthAsset_eqb (types.EthAsset_ offer) types.EthAssetETH)
      then
        erc20Contract <- rpc (NewIERC20 b (types.EthAsset_ offer)) ;;
        rpc (NewTxSender b (types.EthAsset_ offer) (Some erc20Contract))
      else rpc (NewTxSender b (types.EthAsset_ offer) None)) ;;
   ensure option_map ErrRPC (EventFilter_Start b readyTopic) ;;
   ensure option_map ErrRPC (EventFilter_Start b refundedTopic) ;;
   Ok (mkSwapState b sender false info offer offerExtra
                   None None None None
                   None message.zero_address types.EmptyHash None 0%Z 0%Z
                   None None None
                   moneroStartNumber
                   (nextExpectedEventFromStatus (Status_ info))
                   false [] false))%go.

(** [swapState.setContract]. *)
Definition setContract (address : contracts.Address) (s : swapState)
  : result swapState :=
  let s := set_contractAddr address s in
  (c <- rpc (NewSwapFactory (backend s) address) ;;
   let s := set_contract (Some c) s in
   Ok (set_sender (mkSender (senderToken (sender s)) address (Some c)) s))%go.

(** Modelled from the spec: [swapState.setTimeouts] is not among the
    sources; it records the contract's two timeouts, "t0 / t1 derived
    from contract timestamps". *)
Definition setTimeouts (timeout0 timeout1 : Z) (s : swapState) : swapState :=
  set_t1 timeout1 (set_t0 timeout0 s).

(** [newSwapStateFromOngoing]. *)
Definition newSwapStateFromOngoing (b : Backend) (offer : types.Offer)
           (offerExtra : OfferExtra) (ethSwapInfo : EthereumSwapInfo)
           (info : Info) (sk : PrivateKeyPair) : result swapState :=
  if negb (Status_eqb (Status_ info) XMRLocked)
  then Err errInvalidStageForRecovery
  else
    (s <- newSwapState b offer offerExtra (StartNumber ethSwapInfo)
            (MoneroStartHeight info) info ;;
     s <- setContract (ContractAddress ethSwapInfo) s ;;
     match Swap ethSwapInfo with
     | None => Err (Panic "nil pointer dereference")
     | Some swap =>
         let s := setTimeouts (contracts.Timeout0 swap) (contracts.Timeout1 swap) s in
         let s := set_privkeys (Some sk) s in
         let s := set_pubkeys (Some (PublicKeyPair_of sk)) s in
         let s := set_contractSwapID (SwapID ethSwapInfo) s in
         let s := set_contractSwap (Swap ethSwapInfo) s in
         Ok s
     end)%go.

End Constructors.

(** *** Leaving a swap *)

(** The collaborators of [exit] that live outside the sources, acting
    on a world [W]: the swap manager, the offer manager, the recovery
    database and the two event handlers.  Each returns the world after
    the call and the error of the call, if any. *)
Class Collaborators (W : Type) : Type := {
  CompleteOngoingSwap : Info -> W -> W * option string;
  AddOffer : types.Offer -> bool -> W -> W * option string;
  DeleteOffer : types.Hash -> W -> W * option string;
  RecoveryDB_DeleteSwap : types.Hash -> W -> W * option string;
  handleEventETHRefunded : list byte -> swapState -> W -> option error * swapState * W;
  handleEventContractReady : swapState -> W -> option error * swapState * W
}.

(** Modelled from the spec: [swapState.clearNextExpectedEvent] is not
    among the sources; "abort; status CompletedAbort": no event is
    expected any more, the swap takes the given status and the status is
    pushed "onto the swap's status channel". *)
Definition clearNextExpectedEvent (status : Status) (s : swapState) : swapState :=
  let s := set_nextExpectedEvent EventNoneType s in
  let s := set_info (SetStatus status (info s)) s in
  match StatusCh (offerExtra s) with
  | None => s
  | Some ch =>
      set_offerExtra (mkOfferExtra (Some (ch ++ [status])%list) (UseRelayer (offerExtra s))) s
  end.

(** The cleanup of [exit] leaves the state as it is or marks it
    cancelled and done; the other fields, the protocol state of the swap,
    are untouched. *)
Definition same_protocol_state (s s' : swapState) : Prop :=
  s' = s \/ s' = set_done true (set_cancelled true s).

Section Exit.

Context {W : Type} {col : Collaborators W}.

(** The deferred function of [exit]; failures of the collaborators
    are logged only. *)
Definition exit_deferred (s : swapState) (w : W) : swapState * W :=
  let '(w, err) := CompleteOngoingSwap (info s) w in
  match err with
  | Some _ => (s, w)
  | None =>
      let w :=
        if negb (Status_eqb (Status_ (info s)) CompletedSuccess) && types.IsSet (offer s)
        then fst (AddOffer (offer s) (UseRelayer (offerExtra s)) w)
        else if Status_eqb (Status_ (info s)) CompletedSuccess
             then fst (DeleteOffer (types.ID (offer s)) w)
             else w in
      let w := fst (RecoveryDB_DeleteSwap (types.ID (offer s)) w) in
      (* Stop all per-swap goroutines *)
      (set_done true (set_cancelled true s), w)
  end.

Definition returning (r : option error * swapState * W)
  : option error * swapState * W :=
  let '(err, s, w) := r in
  let '(s, w) := exit_deferred s w in
  (err, s, w).

(** [swapState.exit].  [None] is a call that never returns: it waits
    on an event channel on which nothing arrives. *)
Definition exit (s : swapState) (w : W) : option (option error * swapState * W) :=
  match nextExpectedEvent s with
  | EventETHLockedType =>
      Some (returning (None, clearNextExpectedEvent CompletedAbort s, w))
  | EventContractReadyType =>
      match eventCh s with
      | [] => None
      | event :: rest =>
          let s := set_eventCh rest s in
          Some (returning
                  match event with
                  | EventETHRefunded sk => handleEventETHRefunded sk s w
                  | EventContractReady => handleEventContractReady s w
                  | _ => (None, s, w)
                  end)
      end
  | EventNoneType => Some (returning (None, s, w))
  | _ =>
      Some (returning (Some errUnexpectedMessageType,
                       clearNextExpectedEvent CompletedAbort s, w))
  end.

End Exit.

(** *** Waiting for a relayed claim (claim.go) *)

(** [ethtypes.Log] and [ethtypes.Receipt]. *)
Record Log : Type := mkLog {
  LogAddress : contracts.Address;
  Topics : list types.Hash
}.

Record Receipt : Type := mkReceipt {
  ReceiptStatus : N;
  Logs : list Log;
  GasUsed : N;
  BlockNumber : Z
}.

Definition ReceiptStatusSuccessful : N := 1.

(** One round of the polling loop as the node answers it: the error of
    [common.SleepWithContext] if the context ended, the answer of
    [TransactionByHash] ([isPending] or an error) and [time.Since(start)]
    in nanoseconds when it is read. *)
Record Poll : Type := mkPoll {
  sleep : option error;
  TransactionByHash : result bool;
  since : Z
}.

(** [*ethclient.Client] for one transaction: its answers in order, the
    answer of [TransactionReceipt] and the error [block.ErrorFromBlock]
    extracts from a failed transaction. *)
Record Client : Type := mkClient {
  polls : list Poll;
  TransactionReceipt : result Receipt;
  ErrorFromBlock : error
}.

(** [errors.Is(err, ethereum.NotFound)]. *)
Fixpoint is_NotFound (err : error) : bool :=
  match err with
  | ethereum_NotFound => true
  | Wrap _ e => is_NotFound e
  | _ => false
  end.

Definition checkInterval : Z := 1000000000.   (* time.Second *)
Definition maxWait : Z := 60000000000.        (* time.Minute *)
Definition maxNotFound : Z := 10.

Inductive Inclusion : Type :=
  | Included                  (* break *)
  | Returned (err : error)    (* return err *)
  | Unanswered.               (* the node's answers ended first *)

(** The [for] loop of [waitForClaimReceipt]. *)
Fixpoint wait_for_inclusion (answers : list Poll) (notFoundCount : Z) : Inclusion :=
  match answers with
  | [] => Unanswered
  | p :: rest =>
      match sleep p with
      | Some err => Returned err
      | None =>
          match TransactionByHash p with
          | Err err =>
              if is_NotFound err && (notFoundCount >=? maxNotFound)%Z
              then wait_for_inclusion rest (notFoundCount + 1)%Z
              else Returned err
          | Ok isPending =>
              if (since p >? maxWait)%Z then Returned errRelayedTransactionTimeout
              else if negb isPending then Included
              else wait_for_inclusion rest notFoundCount
          end
      end
  end.

Section Claim.

Variable claimedTopic : types.Hash.

(** [checkClaimedLog]. *)
Definition checkClaimedLog (log : Log) (contractAddr : contracts.Address)
           (contractSwapID secret : list byte) : option error :=
  if negb (bytes_eqb (LogAddress log) contractAddr)
  then Some errClaimedLogInvalidContractAddr
  else if negb (List.length (Topics log) =? 3)%nat
  then Some errClaimedLogWrongTopicLength
  else if negb (bytes_eqb (nth 0 (Topics log) []) claimedTopic)
  then Some errClaimedLogWrongEvent
  else if negb (bytes_eqb (nth 1 (Topics log) []) contractSwapID)
  then Some errClaimedLogWrongSwapID
  else if negb (bytes_eqb (nth 2 (Topics log) []) secret)
  then Some errClaimedLogWrongSecret
  else None.

(** [waitForClaimReceipt]; [None] when the node's answers end before
    the loop does. *)
Definition waitForClaimReceipt (ec : Client) (contractAddr : contracts.Address)
           (contractSwapID secret : list byte) : option (option error) :=
  match wait_for_inclusion (polls ec) 0 with
  | Unanswered => None
  | Returned err => Some (Some err)
  | Included =>
      Some
        match TransactionReceipt ec with
        | Err err => Some err
        | Ok receipt =>
            if negb (ReceiptStatus receipt =? ReceiptStatusSuccessful)%N
            then Some (Wrap "relayer's claim transaction failed" (ErrorFromBlock ec))
            else
              match Logs receipt with
              | [] => Some ErrClaimTxNoLogs
              | log0 :: _ =>
                  match checkClaimedLog log0 contractAddr contractSwapID secret with
                  | Some err => Some (Wrap "relayer's claim had logs error" err)
                  | None => None
                  end
              end
        end
  end.

End Claim.

End xmrmaker.


(** * Further embedded code *)

(** ** encoding/hex, the encoder *)

Module hexenc.

(** [hextable]. *)
Definition hextable : list byte := list_byte_of_string "0123456789abcdef".

(** [hex.Encode]: two characters per byte, the high nibble first. *)
Fixpoint Encode (src : list byte) : list byte :=
  match src with
  | [] => []
  | v :: src' =>
      nth (N.to_nat (N.shiftr (Byte.to_N v) 4)) hextable x00
        :: nth (N.to_nat (N.land (Byte.to_N v) 15)) hextable x00
        :: Encode src'
  end.

Definition EncodeToString (src : list byte) : string :=
  string_of_list_byte (Encode src).

(** The first character of a string that is not a hex digit. *)
Definition first_invalid (t : list byte) : option byte :=
  find (fun c => negb (hex.is_digit c)) t.

End hexenc.

(** ** protocol/xmrmaker: readings of the polling loop *)

Module polling.

(** An answer that keeps [waitForClaimReceipt] polling: the sleep was not
    interrupted, the transaction is known and pending, and the minute has
    not passed. *)
Definition still_pending (p : xmrmaker.Poll) : bool :=
  match xmrmaker.sleep p, xmrmaker.TransactionByHash p with
  | None, Ok true => (xmrmaker.since p <=? xmrmaker.maxWait)%Z
  | _, _ => false
  end.

End polling.

(** ** protocol/xmrmaker: the rest of swap_state.go *)

Module swap.

(** Assignments to the remaining fields of the swap state. *)
Definition set_dleqProof (v : option xmrmaker.Proof) (s : xmrmaker.swapState) : xmrmaker.swapState :=
  xmrmaker.mkSwapState (xmrmaker.backend s) (xmrmaker.sender s)
    (xmrmaker.cancelled s) (xmrmaker.info s) (xmrmaker.offer s)
    (xmrmaker.offerExtra s) v (xmrmaker.secp256k1Pub s) (xmrmaker.privkeys
    s) (xmrmaker.pubkeys s) (xmrmaker.contract s) (xmrmaker.contractAddr s)
    (xmrmaker.contractSwapID s) (xmrmaker.contractSwap s) (xmrmaker.t0 s)
    (xmrmaker.t1 s) (xmrmaker.xmrtakerPublicSpendKey s)
    (xmrmaker.xmrtakerPrivateViewKey s) (xmrmaker.xmrtakerSecp256K1PublicKey
    s) (xmrmaker.moneroStartHeight s) (xmrmaker.nextExpectedEvent s)
    (xmrmaker.fundsLocked s) (xmrmaker.eventCh s) (xmrmaker.done s).
Definition set_secp256k1Pub (v : option (list byte)) (s : xmrmaker.swapState) : xmrmaker.swapState :=
  xmrmaker.mkSwapState (xmrmaker.backend s) (xmrmaker.sender s)
    (xmrmaker.cancelled s) (xmrmaker.info s) (xmrmaker.offer s)
    (xmrmaker.offerExtra s) (xmrmaker.dleqProof s) v (xmrmaker.privkeys s)
    (xmrmaker.pubkeys s) (xmrmaker.contract s) (xmrmaker.contractAddr s)
    (xmrmaker.contractSwapID s) (xmrmaker.contractSwap s) (xmrmaker.t0 s)
    (xmrmaker.t1 s) (xmrmaker.xmrtakerPublicSpendKey s)
    (xmrmaker.xmrtakerPrivateViewKey s) (xmrmaker.xmrtakerSecp256K1PublicKey
    s) (xmrmaker.moneroStartHeight s) (xmrmaker.nextExpectedEvent s)
    (xmrmaker.fundsLocked s) (xmrmaker.eventCh s) (xmrmaker.done s).
Definition set_xmrtakerPublicSpendKey (v : option (list byte)) (s : xmrmaker.swapState) : xmrmaker.swapState :=
  xmrmaker.mkSwapState (xmrmaker.backend s) (xmrmaker.sender s)
    (xmrmaker.cancelled s) (xmrmaker.info s) (xmrmaker.offer s)
    (xmrmaker.offerExtra s) (xmrmaker.dleqProof s) (xmrmaker.secp256k1Pub s)
    (xmrmaker.privkeys s) (xmrmaker.pubkeys s) (xmrmaker.contract s)
    (xmrmaker.contractAddr s) (xmrmaker.contractSwapID s)
    (xmrmaker.contractSwap s) (xmrmaker.t0 s) (xmrmaker.t1 s) v
    (xmrmaker.xmrtakerPrivateViewKey s) (xmrmaker.xmrtakerSecp256K1PublicKey
    s) (xmrmaker.moneroStartHeight s) (xmrmaker.nextExpectedEvent s)
    (xmrmaker.fundsLocked s) (xmrmaker.eventCh s) (xmrmaker.done s).
Definition set_xmrtakerPrivateViewKey (v : option (list byte)) (s : xmrmaker.swapState) : xmrmaker.swapState :=
  xmrmaker.mkSwapState (xmrmaker.backend s) (xmrmaker.sender s)
    (xmrmaker.cancelled s) (xmrmaker.info s) (xmrmaker.offer s)
    (xmrmaker.offerExtra s) (xmrmaker.dleqProof s) (xmrmaker.secp256k1Pub s)
    (xmrmaker.privkeys s) (xmrmaker.pubkeys s) (xmrmaker.contract s)
    (xmrmaker.contractAddr s) (xmrmaker.contractSwapID s)
    (xmrmaker.contractSwap s) (xmrmaker.t0 s) (xmrmaker.t1 s)
    (xmrmaker.xmrtakerPublicSpendKey s) v
    (xmrmaker.xmrtakerSecp256K1PublicKey s) (xmrmaker.moneroStartHeight s)
    (xmrmaker.nextExpectedEvent s) (xmrmaker.fundsLocked s)
    (xmrmaker.eventCh s) (xmrmaker.done s).
Definition set_xmrtakerSecp256K1PublicKey (v : option (list byte)) (s : xmrmaker.swapState) : xmrmaker.swapState :=
  xmrmaker.mkSwapState (xmrmaker.backend s) (xmrmaker.sender s)
    (xmrmaker.cancelled s) (xmrmaker.info s) (xmrmaker.offer s)
    (xmrmaker.offerExtra s) (xmrmaker.dleqProof s) (xmrmaker.secp256k1Pub s)
    (xmrmaker.privkeys s) (xmrmaker.pubkeys s) (xmrmaker.contract s)
    (xmrmaker.contractAddr s) (xmrmaker.contractSwapID s)
    (xmrmaker.contractSwap s) (xmrmaker.t0 s) (xmrmaker.t1 s)
    (xmrmaker.xmrtakerPublicSpendKey s) (xmrmaker.xmrtakerPrivateViewKey s)
    v (xmrmaker.moneroStartHeight s) (xmrmaker.nextExpectedEvent s)
    (xmrmaker.fundsLocked s) (xmrmaker.eventCh s) (xmrmaker.done s).
Definition set_fundsLocked (v : bool) (s : xmrmaker.swapState) : xmrmaker.swapState :=
  xmrmaker.mkSwapState (xmrmaker.backend s) (xmrmaker.sender s)
    (xmrmaker.cancelled s) (xmrmaker.info s) (xmrmaker.offer s)
    (xmrmaker.offerExtra s) (xmrmaker.dleqProof s) (xmrmaker.secp256k1Pub s)
    (xmrmaker.privkeys s) (xmrmaker.pubkeys s) (xmrmaker.contract s)
    (xmrmaker.contractAddr s) (xmrmaker.contractSwapID s)
    (xmrmaker.contractSwap s) (xmrmaker.t0 s) (xmrmaker.t1 s)
    (xmrmaker.xmrtakerPublicSpendKey s) (xmrmaker.xmrtakerPrivateViewKey s)
    (xmrmaker.xmrtakerSecp256K1PublicKey s) (xmrmaker.moneroStartHeight s)
    (xmrmaker.nextExpectedEvent s) v (xmrmaker.eventCh s) (xmrmaker.done s).

(** [pcommon.KeysAndProof], as [generateAndSetKeys] reads it. *)
Record KeysAndProof : Type := mkKeysAndProof {
  DLEqProof : xmrmaker.Proof;
  Secp256k1PublicKey : list byte;
  PrivateKeyPair : xmrmaker.PrivateKeyPair;
  PublicKeyPair : xmrmaker.PublicKeyPair
}.

(** A method that assigns to its receiver returns the receiver after the
    call beside its error: the assignments made before an error stay. *)
Definition method : Type := xmrmaker.swapState * option error.

(** [swapState.generateAndSetKeys]; [generated] is the outcome of
    [generateKeys()] and [PutSwapPrivateKey] that of the recovery
    database's method. *)
Definition generateAndSetKeys (generated : vjson.decoded KeysAndProof)
           (PutSwapPrivateKey : types.Hash -> list byte -> option string)
           (s : xmrmaker.swapState) : method :=
  if not_nil (xmrmaker.privkeys s)
  then (s, Some (Panic "generateAndSetKeys should only be called once"))
  else
    match generated with
    | inl msg => (s, Some (ErrRPC msg))
    | inr keysAndProof =>
        let s := set_dleqProof (Some (DLEqProof keysAndProof)) s in
        let s := set_secp256k1Pub (Some (Secp256k1PublicKey keysAndProof)) s in
        let s := xmrmaker.set_privkeys (Some (PrivateKeyPair keysAndProof)) s in
        let s := xmrmaker.set_pubkeys (Some (PublicKeyPair keysAndProof)) s in
        (s, option_map ErrRPC
              (PutSwapPrivateKey (xmrmaker.ID (xmrmaker.info s))
                 (xmrmaker.SpendKeyBytes (PrivateKeyPair keysAndProof))))
    end.

(** [swapState.setXMRTakerKeys]. *)
Definition setXMRTakerKeys
           (PutCounterpartySwapKeys : types.Hash -> option (list byte) ->
                                      option (list byte) -> option string)
           (sk vk secp256k1Pub : option (list byte)) (s : xmrmaker.swapState) : method :=
  let s := set_xmrtakerPublicSpendKey sk s in
  let s := set_xmrtakerPrivateViewKey vk s in
  let s := set_xmrtakerSecp256K1PublicKey secp256k1Pub s in
  (s, option_map ErrRPC (PutCounterpartySwapKeys (xmrmaker.ID (xmrmaker.info s)) sk vk)).

(** The Monero wallet client, by the outcome of its calls:
    [GetBalance(account)] and
    [Transfer(ctx, dest, account, amount, confirmations)]. *)
Record XMRClient : Type := mkXMRClient {
  GetBalance : N -> vjson.decoded (N * N);
  Transfer : string -> N -> N -> N -> vjson.decoded (string * N)
}.

(** [swapState.lockFunds].  [swapDestAddr] is the address of the sum of
    the two parties' public keys, computed outside the sources;
    dereferencing keys that are not set panics. *)
Definition lockFunds (xmr : XMRClient) (MinSpendConfirmations : N)
           (swapDestAddr : list byte -> list byte -> xmrmaker.PublicKeyPair -> string)
           (amount : N) (s : xmrmaker.swapState) : method :=
  match xmrmaker.xmrtakerPublicSpendKey s, xmrmaker.xmrtakerPrivateViewKey s,
        xmrmaker.pubkeys s with
  | Some takerSpend, Some takerView, Some pubkeys =>
      let dest := swapDestAddr takerSpend takerView pubkeys in
      match GetBalance xmr 0 with
      | inl msg => (s, Some (ErrRPC msg))
      | inr _ =>
          match Transfer xmr dest 0 amount MinSpendConfirmations with
          | inl msg => (s, Some (ErrRPC msg))
          | inr _ => (set_fundsLocked true s, None)
          end
      end
  | _, _, _ => (s, Some (Panic "nil pointer dereference"))
  end.

(** What [newSwapStateFromStart] asks of the backend beyond
    [xmrmaker.Backend], by outcome; [NewInfo] is [pswap.NewInfo] applied
    to the offer ID, the two amounts, the offer's rate and asset, the
    status, the Monero height and the status channel. *)
Record StartBackend : Type := mkStartBackend {
  base : xmrmaker.Backend;
  PutSwapRelayerInfo : types.Hash -> xmrmaker.OfferExtra -> option string;
  GetHeight : vjson.decoded N;
  HeaderByNumber : vjson.decoded Z;
  AddSwap : xmrmaker.Info -> option string;
  generateKeys : vjson.decoded KeysAndProof;
  PutSwapPrivateKey : types.Hash -> list byte -> option string;
  NewInfo : types.Hash -> apd.Decimal -> apd.Decimal -> option types.ExchangeRate ->
            types.EthAsset -> xmrmaker.Status -> N -> xmrmaker.Info
}.

(** A send on the status channel, which has room: [newSwapStateFromStart]
    makes it with a buffer of 7 when the caller gave none. *)
Definition send (st : xmrmaker.Status) (e : xmrmaker.OfferExtra) : xmrmaker.OfferExtra :=
  match xmrmaker.StatusCh e with
  | None => e
  | Some ch => xmrmaker.mkOfferExtra (Some (ch ++ [st])%list) (xmrmaker.UseRelayer e)
  end.

Section Start.

Variables readyTopic refundedTopic : types.Hash.
Variable nextExpectedEventFromStatus : xmrmaker.Status -> xmrmaker.EventType.
(** [monero.MinSpendConfirmations]. *)
Variable MinSpendConfirmations : N.

(** [newSwapStateFromStart]; the amounts are given as the decimals that
    [AsMonero()] and [AsStandard()] return. *)
Definition newSwapStateFromStart (b : StartBackend) (offer : types.Offer)
           (offerExtra : xmrmaker.OfferExtra)
           (providesAmount desiredAmount : apd.Decimal) : result xmrmaker.swapState :=
  let stage := xmrmaker.KeysExchanged in
  let offerExtra :=
    match xmrmaker.StatusCh offerExtra with
    | None => xmrmaker.mkOfferExtra (Some []) (xmrmaker.UseRelayer offerExtra)
    | Some _ => offerExtra
    end in
  (ensure (if xmrmaker.UseRelayer offerExtra
           then option_map ErrRPC (PutSwapRelayerInfo b (types.ID offer) offerExtra)
           else None) ;;
   moneroStartHeight <- xmrmaker.rpc (GetHeight b) ;;
   (* reduce the scan height a little in case there is a block reorg *)
   let moneroStartHeight :=
     if (MinSpendConfirmations <=? moneroStartHeight)%N
     then (moneroStartHeight - MinSpendConfirmations)%N
     else moneroStartHeight in
   ethHeaderNumber <- xmrmaker.rpc (HeaderByNumber b) ;;
   let info := NewInfo b (types.ID offer) providesAmount desiredAmount
                 (types.ExchangeRate_ offer) (types.EthAsset_ offer) stage
                 moneroStartHeight in
   ensure option_map ErrRPC (AddSwap b info) ;;
   s <- xmrmaker.newSwapState readyTopic refundedTopic nextExpectedEventFromStatus
          (base b) offer offerExtra ethHeaderNumber moneroStartHeight info ;;
   let '(s, err) := generateAndSetKeys (generateKeys b) (PutSwapPrivateKey b) s in
   ensure err ;;
   Ok (xmrmaker.set_offerExtra (send stage (xmrmaker.offerExtra s)) s))%go.

End Start.

End swap.

(** ** Errors made on the spot *)

Module errors.

(** An error of the code below: one of the errors above, or a new one
    made by [errors.New] or [fmt.Errorf] without a wrapped error. *)
Inductive failure : Type :=
  | Failure (e : error)
  | New (msg : string).

End errors.

(** ** protocol/xmrmaker: claiming (claim.go) *)

Module claim.

(** What claiming asks of the backend, by outcome: relayer discovery,
    the contract's trusted forwarder, [relayer.CreateRelayClaimRequest]
    for a contract, forwarder, swap and secret, the submission of a
    request to a relayer, the node's answers about a transaction, the
    token's symbol and decimals, the balances before and after the claim,
    and [sender.Claim]. *)
Record Backend : Type := mkBackend {
  DiscoverRelayers : vjson.decoded (list string);
  TrustedForwarder : vjson.decoded contracts.Address;
  CreateRelayClaimRequest :
    contracts.Address -> contracts.Address -> option contracts.SwapFactorySwap ->
    list byte -> vjson.decoded message.RelayClaimRequest;
  SubmitClaimToRelayer :
    string -> message.RelayClaimRequest -> vjson.decoded message.RelayClaimResponse;
  ethclient : types.Hash -> xmrmaker.Client;
  ERC20Info : contracts.Address -> vjson.decoded (string * N);
  Balance_before : vjson.decoded Z;
  Balance_after : vjson.decoded Z;
  ERC20Balance_before : contracts.Address -> vjson.decoded Z;
  ERC20Balance_after : contracts.Address -> vjson.decoded Z;
  sender_Claim : option contracts.SwapFactorySwap -> list byte -> vjson.decoded types.Hash
}.

Definition answer (A : Type) : Type := option (A + errors.failure).

Definition failed {A : Type} (e : error) : answer A := Some (inr (errors.Failure e)).

Section Claiming.

Variable claimedTopic : types.Hash.
Variable b : Backend.

(** The [for] loop of [discoverRelayersAndClaim] over the relayers; a
    relayer whose submission or receipt fails is logged and passed
    over. *)
Fixpoint submit_to (relayers : list string) (req : message.RelayClaimRequest)
         (s : xmrmaker.swapState) : answer types.Hash :=
  match relayers with
  | [] => Some (inr (errors.New "failed to submit transaction to any relayer"))
  | relayer :: relayers' =>
      match SubmitClaimToRelayer b relayer req with
      | inl _ => submit_to relayers' req s
      | inr resp =>
          match xmrmaker.getSecret s with
          | Err e => failed e
          | Ok secret =>
              match xmrmaker.waitForClaimReceipt claimedTopic
                      (ethclient b (message.RespTxHash resp))
                      (xmrmaker.contractAddr s) (xmrmaker.contractSwapID s) secret with
              | None => None
              | Some (Some _) => submit_to relayers' req s
              | Some None => Some (inl (message.RespTxHash resp))
              end
          end
      end
  end.

(** [swapState.discoverRelayersAndClaim]. *)
Definition discoverRelayersAndClaim (s : xmrmaker.swapState) : answer types.Hash :=
  match DiscoverRelayers b with
  | inl msg => failed (ErrRPC msg)
  | inr relayers =>
      match relayers with
      | [] => Some (inr (errors.New "no relayers found to submit claim to"))
      | _ =>
          match TrustedForwarder b with
          | inl msg => failed (ErrRPC msg)
          | inr forwarderAddress =>
              match xmrmaker.getSecret s with
              | Err e => failed e
              | Ok secret =>
                  match CreateRelayClaimRequest b (xmrmaker.contractAddr s)
                          forwarderAddress (xmrmaker.contractSwap s) secret with
                  | inl msg => failed (ErrRPC msg)
                  | inr req => submit_to relayers req s
                  end
              end
          end
      end
  end.

(** [swapState.claimFunds]. *)
Definition claimFunds (s : xmrmaker.swapState) : answer types.Hash :=
  match xmrmaker.contractSwap s with
  | None => failed (Panic "nil pointer dereference")
  | Some swap =>
      let asset := contracts.Asset swap in
      let isETH := types.EthAsset_eqb asset types.EthAssetETH in
      match (if isETH then inr ("", 0%N) else ERC20Info b asset) with
      | inl msg => failed (Wrap "failed to get ERC20 info" (ErrRPC msg))
      | inr _ =>
          match Balance_before b with
          | inl msg => failed (ErrRPC msg)
          | inr weiBalance =>
              match (if isETH then inr 0%Z else ERC20Balance_before b asset) with
              | inl msg => failed (ErrRPC msg)
              | inr _ =>
                  let sent :=
                    if xmrmaker.UseRelayer (xmrmaker.offerExtra s) || (weiBalance =? 0)%Z
                    then discoverRelayersAndClaim s
                    else
                      match xmrmaker.getSecret s with
                      | Err e => failed e
                      | Ok sc =>
                          match sender_Claim b (xmrmaker.contractSwap s) sc with
                          | inl msg => failed (ErrRPC msg)
                          | inr txHash => Some (inl txHash)
                          end
                      end in
                  match sent with
                  | Some (inl txHash) =>
                      match (if isETH then Balance_after b
                             else ERC20Balance_after b asset) with
                      | inl msg => failed (ErrRPC msg)
                      | inr _ => Some (inl txHash)
                      end
                  | other => other
                  end
              end
          end
      end
  end.


End Claiming.

(** The backend with another direct claim. *)
Definition with_sender_Claim (b : Backend)
           (c : option contracts.SwapFactorySwap -> list byte -> vjson.decoded types.Hash)
  : Backend :=
  mkBackend (DiscoverRelayers b) (TrustedForwarder b) (CreateRelayClaimRequest b)
            (SubmitClaimToRelayer b) (ethclient b) (ERC20Info b) (Balance_before b)
            (Balance_after b) (ERC20Balance_before b) (ERC20Balance_after b) c.

End claim.

(** ** net/message: encoding (message.go, relay_message.go) *)

Module encode.

(** [json.Marshal] on the five message structs. *)
Class Encoders : Type := {
  json_Marshal_QueryResponse : message.QueryResponse -> vjson.decoded (list byte);
  json_Marshal_RelayClaimRequest : message.RelayClaimRequest -> vjson.decoded (list byte);
  json_Marshal_RelayClaimResponse : message.RelayClaimResponse -> vjson.decoded (list byte);
  json_Marshal_SendKeysMessage : message.SendKeysMessage -> vjson.decoded (list byte);
  json_Marshal_NotifyETHLocked : message.NotifyETHLocked -> vjson.decoded (list byte)
}.

(** The violated tags of a message, by its struct. *)
Definition violations (m : message.Message) : list (string * string) :=
  match m with
  | message.MsgQueryResponse q => message.QueryResponse_violations q
  | message.MsgRelayClaimRequest q => message.RelayClaimRequest_violations q
  | message.MsgRelayClaimResponse q => message.RelayClaimResponse_violations q
  | message.MsgSendKeys q => message.SendKeys_violations q
  | message.MsgNotifyETHLocked q => message.NotifyETHLocked_violations q
  end.

Section Encode.

Context {enc : Encoders}.

(** [vjson.MarshalStruct(m)] followed by
    [append([]byte{messageType}, b...)]. *)
Definition prepend {A : Type} (messageType : byte)
           (tags : A -> list (string * string))
           (json_Marshal : A -> vjson.decoded (list byte)) (m : A) : result (list byte) :=
  (b <- vjson.MarshalStruct tags (fun v => vjson.lift (json_Marshal v)) m ;;
   Ok (messageType :: b))%go.

(** The [Encode] method of each message. *)
Definition Encode (m : message.Message) : result (list byte) :=
  match m with
  | message.MsgQueryResponse q =>
      prepend message.QueryResponseType message.QueryResponse_violations
              json_Marshal_QueryResponse q
  | message.MsgRelayClaimRequest q =>
      prepend message.RelayClaimRequestType message.RelayClaimRequest_violations
              json_Marshal_RelayClaimRequest q
  | message.MsgRelayClaimResponse q =>
      prepend message.RelayClaimResponseType message.RelayClaimResponse_violations
              json_Marshal_RelayClaimResponse q
  | message.MsgSendKeys q =>
      prepend message.SendKeysType message.SendKeys_violations
              json_Marshal_SendKeysMessage q
  | message.MsgNotifyETHLocked q =>
      prepend message.NotifyETHLockedType message.NotifyETHLocked_violations
              json_Marshal_NotifyETHLocked q
  end.

(** The JSON text that [encoding/json] writes for a message. *)
Definition json_Marshal (m : message.Message) : vjson.decoded (list byte) :=
  match m with
  | message.MsgQueryResponse q => json_Marshal_QueryResponse q
  | message.MsgRelayClaimRequest q => json_Marshal_RelayClaimRequest q
  | message.MsgRelayClaimResponse q => json_Marshal_RelayClaimResponse q
  | message.MsgSendKeys q => json_Marshal_SendKeysMessage q
  | message.MsgNotifyETHLocked q => json_Marshal_NotifyETHLocked q
  end.

End Encode.

(** What [encoding/json] reads from a text as the struct of a message of
    the same type as [m]. *)
Definition json_Unmarshal_like {dec : message.Decoders} (m : message.Message)
           (data : list byte) : vjson.decoded message.Message :=
  match m with
  | message.MsgQueryResponse _ =>
      match message.json_Unmarshal_QueryResponse data with
      | inl e => inl e | inr q => inr (message.MsgQueryResponse q) end
  | message.MsgRelayClaimRequest _ =>
      match message.json_Unmarshal_RelayClaimRequest data with
      | inl e => inl e | inr q => inr (message.MsgRelayClaimRequest q) end
  | message.MsgRelayClaimResponse _ =>
      match message.json_Unmarshal_RelayClaimResponse data with
      | inl e => inl e | inr q => inr (message.MsgRelayClaimResponse q) end
  | message.MsgSendKeys _ =>
      match message.json_Unmarshal_SendKeysMessage data with
      | inl e => inl e | inr q => inr (message.MsgSendKeys q) end
  | message.MsgNotifyETHLocked _ =>
      match message.json_Unmarshal_NotifyETHLocked data with
      | inl e => inl e | inr q => inr (message.MsgNotifyETHLocked q) end
  end.

End encode.

(** ** relayer: forward requests and their signatures
       (forwarder.go, validate.go) *)

Module forwarder.

(** [gsnforwarder.IForwarderForwardRequest]. *)
Record ForwardRequest : Type := mkForwardRequest {
  From : contracts.Address;
  To : contracts.Address;
  Value : Z;
  Gas : Z;
  Nonce : Z;
  Data : list byte;
  ValidUntilTime : Z
}.

(** The chain and the libraries behind the relayer code, by the outcome
    of each call: the chain ID, the bindings of a forwarder and of a swap
    factory, the EIP-712 domain separator of a forwarder on a chain, the
    forwarder's nonce of an address as read with given call options, the
    factory's trusted forwarder, the ABI packing of a [claimRelayer]
    call, the digest of a forward request, a key's signature and address,
    and the forwarder's on-chain [Verify]. *)
Record Chain : Type := mkChain {
  ChainID : vjson.decoded Z;
  NewForwarder : contracts.Address -> vjson.decoded contracts.Address;
  GetEIP712DomainSeparator : Z -> contracts.Address -> vjson.decoded (list byte);
  GetNonce : contracts.Address -> option contracts.Address -> contracts.Address ->
             vjson.decoded Z;
  NewSwapFactory : contracts.Address -> vjson.decoded contracts.Address;
  TrustedForwarder : contracts.Address -> vjson.decoded contracts.Address;
  Pack_claimRelayer : contracts.SwapFactorySwap -> list byte -> Z ->
                      vjson.decoded (list byte);
  GetForwardRequestDigestToSign : ForwardRequest -> list byte -> vjson.decoded (list byte);
  Sign : list byte -> list byte -> vjson.decoded (list byte);
  PubkeyToAddress : list byte -> contracts.Address;
  Verify : contracts.Address -> option contracts.Address -> ForwardRequest ->
           list byte -> list byte -> option string
}.

Section Forwarder.

(** [FeeWei] and [relayedClaimGas], package constants declared outside
    the sources. *)
Variables FeeWei relayedClaimGas : Z.
Variable CheckSwapFactoryContractCode : contracts.Address -> option string.
Variable ec : Chain.

(** [getClaimRelayerTxCalldata]. *)
Definition getClaimRelayerTxCalldata (feeWei : Z) (swap : contracts.SwapFactorySwap)
           (secret : list byte) : result (list byte) :=
  xmrmaker.rpc (Pack_claimRelayer ec swap secret feeWei).

(** [createForwarderRequest]. *)
Definition createForwarderRequest (nonce : Z) (swapFactoryAddress : contracts.Address)
           (swap : contracts.SwapFactorySwap) (secret : list byte)
  : result ForwardRequest :=
  (calldata <- getClaimRelayerTxCalldata FeeWei swap secret ;;
   Ok (mkForwardRequest (contracts.Claimer swap) swapFactoryAddress 0 relayedClaimGas
                        nonce calldata 0))%go.

(** [getForwarderAndDomainSeparator]. *)
Definition getForwarderAndDomainSeparator (forwarderAddress : contracts.Address)
  : result (contracts.Address * list byte) :=
  (chainID <- xmrmaker.rpc (ChainID ec) ;;
   forwarder <- xmrmaker.rpc (NewForwarder ec forwarderAddress) ;;
   match GetEIP712DomainSeparator ec chainID forwarderAddress with
   | inl msg => Err (Wrap "failed to get EIP712 domain separator" (ErrRPC msg))
   | inr domainSeparator => Ok (forwarder, domainSeparator)
   end)%go.

(** [createForwarderSignature]. *)
Definition createForwarderSignature (claimerEthKey : list byte)
           (swapFactoryAddress forwarderAddress : contracts.Address)
           (swap : contracts.SwapFactorySwap) (secret : list byte)
  : list byte + errors.failure :=
  if negb (bytes_eqb (contracts.Claimer swap) (PubkeyToAddress ec claimerEthKey))
  then inr (errors.New "signing key does not match claimer")
  else
    let r :=
      (fd <- getForwarderAndDomainSeparator forwarderAddress ;;
       let '(forwarder, domainSeparator) := fd in
       nonce <- xmrmaker.rpc (GetNonce ec forwarder None (contracts.Claimer swap)) ;;
       forwarderReq <- createForwarderRequest nonce swapFactoryAddress swap secret ;;
       match GetForwardRequestDigestToSign ec forwarderReq domainSeparator with
       | inl msg => Err (Wrap "failed to get forward request digest" (ErrRPC msg))
       | inr digest =>
           match Sign ec claimerEthKey digest with
           | inl msg => Err (Wrap "failed to sign forward request digest" (ErrRPC msg))
           | inr signature => Ok signature
           end
       end)%go in
    match r with
    | Ok signature => inl signature
    | Err e => inr (errors.Failure e)
    end.

(** The address [ethcommon.Address{0xFF}] that the relayer calls from. *)
Definition caller : contracts.Address := xff :: repeat x00 19.

(** [validateClaimSignature].  The conversion of the secret to a
    [*[32]byte] panics on a slice of fewer than 32 bytes and takes the
    first 32 of a longer one. *)
Definition validateClaimSignature (req : message.RelayClaimRequest) : option error :=
  let r :=
    (swapFactory <- xmrmaker.rpc (NewSwapFactory ec (message.SwapFactoryAddress req)) ;;
     forwarderAddr <- xmrmaker.rpc (TrustedForwarder ec swapFactory) ;;
     fd <- getForwarderAndDomainSeparator forwarderAddr ;;
     let '(forwarder, domainSeparator) := fd in
     match message.Swap req with
     | None => Err (Panic "nil pointer dereference")
     | Some swap =>
         nonce <- xmrmaker.rpc (GetNonce ec forwarder (Some caller) (contracts.Claimer swap)) ;;
         if (List.length (message.Secret req) <? 32)%nat
         then Err (Panic "cannot convert slice to array pointer")
         else
           forwarderRequest <-
             createForwarderRequest nonce (message.SwapFactoryAddress req) swap
               (firstn 32 (message.Secret req)) ;;
           match Verify ec forwarder (Some caller) forwarderRequest domainSeparator
                   (message.Signature req) with
           | Some msg => Err (Wrap "failed to verify signature" (ErrRPC msg))
           | None => Ok tt
           end
     end)%go in
  match r with
  | Ok _ => None
  | Err e => Some e
  end.

(** [validateClaimRequest]. *)
Definition validateClaimRequest (request : message.RelayClaimRequest)
           (ourSFContractAddr : contracts.Address) : option error :=
  match relayer.validateClaimValues FeeWei CheckSwapFactoryContractCode
          request ourSFContractAddr with
  | Some err => Some err
  | None => validateClaimSignature request
  end.

End Forwarder.

End forwarder.

(** * Sample values *)

Module samples.

Local Open Scope list_scope.


(** [encoding/json] on the blob [{}]: every field keeps its zero value;
    no other blob is tabulated. *)
Definition empty_object : list byte := list_byte_of_string "{}".

Definition only_empty_object {A : Type} (zero : A) (data : list byte)
  : vjson.decoded A :=
  if bytes_eqb data empty_object then inr zero
  else inl "blob not tabulated".

Definition decoders : message.Decoders :=
  {| message.json_Unmarshal_QueryResponse :=
       only_empty_object {| message.Offers := [] |};
     message.json_Unmarshal_RelayClaimRequest :=
       only_empty_object
         {| message.SwapFactoryAddress := message.zero_address;
            message.Swap := None;
            message.Secret := [];
            message.Signature := [] |};
     message.json_Unmarshal_RelayClaimResponse :=
       only_empty_object {| message.RespTxHash := types.EmptyHash |};
     message.json_Unmarshal_SendKeysMessage :=
       only_empty_object
         {| message.OfferID := types.EmptyHash;
            message.ProvidedAmount := None;
            message.PublicSpendKey := None;
            message.PrivateViewKey := None;
            message.DLEqProof := [];
            message.Secp256k1PublicKey := None;
            message.EthAddress := message.zero_address |};
     message.json_Unmarshal_NotifyETHLocked :=
       only_empty_object
         {| message.Address := message.zero_address;
            message.TxHash := types.EmptyHash;
            message.ContractSwapID := types.EmptyHash;
            message.ContractSwap := None |} |}.

(** Relayer scenario of the specification: [FeeWei = 10^14], a swap of
    [10^17] wei, and the same swap for a token with a value equal to
    the fee. *)
Definition FeeWei : Z := 100000000000000.

Definition factory : contracts.Address := repeat x00 19 ++ [xfa].
Definition token : contracts.Address := repeat x00 19 ++ [x01].
Definition peer (b : byte) : contracts.Address := repeat x00 19 ++ [b].

Definition code_unknown : contracts.Address -> option string :=
  fun _ => Some "unknown SwapFactory bytecode".

Definition eth_swap : contracts.SwapFactorySwap :=
  contracts.mkSwap (peer xaa) (peer xbb) (repeat x11 32) (repeat x22 32)
                   1700000000 1700003600 types.EthAssetETH
                   100000000000000000 42.

Definition token_swap : contracts.SwapFactorySwap :=
  contracts.mkSwap (peer xaa) (peer xbb) (repeat x11 32) (repeat x22 32)
                   1700000000 1700003600 token FeeWei 42.

Definition claim_request (swap : contracts.SwapFactorySwap) : message.RelayClaimRequest :=
  {| message.SwapFactoryAddress := factory;
     message.Swap := Some swap;
     message.Secret := repeat x33 32;
     message.Signature := repeat x44 65 |}.

(** *** Offers *)

Definition hash_of_hex (s : string) : types.Hash := fst (types.HexToHash s).

(** 1 XMR at most, rate 0.05, for native ETH. *)
Definition offer_with (minAmount : apd.Decimal) (nonce : N) (id : types.Hash)
  : types.Offer :=
  types.mkOffer types.CurOfferVersion id "XMR" (Some minAmount)
                (Some (apd.New 1 0)) (Some (apd.New 5 (-2)))
                types.EthAssetETH nonce.

(** SHA3-256 of "1.0.0XMR,0.1,1,0.05,ETH,1234". *)
Definition good_id : string :=
  "0xc25f7bd84afe957c0b540628be14dfb229f06eea3531cce9d1068c013b6ccefc".
(** SHA3-256 of "1.0.0XMR,0.1,1,0.05,ETH,0". *)
Definition nonce0_id : string :=
  "0xba5ffc6a2bb38acbee82b29dc4db16b6e83be69c152a6cd4ea55fc2cbe710548".
(** SHA3-256 of "1.0.0XMR,0.10,1,0.05,ETH,1234". *)
Definition unreduced_id : string :=
  "0xaba67428757100b98fcb5bf068517f67e59cea1ab79a518aa0246f040ec54162".

Definition good_offer : types.Offer :=
  offer_with (apd.New 1 (-1)) 1234 (hash_of_hex good_id).
(** The same offer with nonce 0. *)
Definition nonce0_offer : types.Offer :=
  offer_with (apd.New 1 (-1)) 0 (hash_of_hex nonce0_id).
(** The same offer with the minimum stored as [apd.New(10, -2)]. *)
Definition unreduced_offer : types.Offer :=
  offer_with (apd.New 10 (-2)) 1234 (hash_of_hex unreduced_id).

(** JSON text, written with ['] where JSON has the double quote. *)
Definition json_text (s : string) : list byte :=
  map (fun b => if Byte.eqb b x27 then x22 else b) (list_byte_of_string s).

Definition offer_text (id minAmount nonce : string) : list byte :=
  json_text ("{'version':'1.0.0','offerID':'" ++ id ++ "','provides':'XMR','minAmount':'"
               ++ minAmount ++ "','maxAmount':'1','exchangeRate':'0.05','ethAsset':'ETH','nonce':"
               ++ nonce ++ "}")%string.

Definition good_blob : list byte := offer_text good_id "0.1" "1234".
Definition nonce0_blob : list byte := offer_text nonce0_id "0.1" "0".
Definition unreduced_blob : list byte := offer_text unreduced_id "0.10" "1234".
(** An offer of a later version, one without a version, and one whose
    nonce is a JSON string. *)
Definition future_blob : list byte := json_text "{'version':'2.0.0','provides':'XMR'}".
Definition unversioned_blob : list byte := json_text "{'provides':'XMR'}".
Definition mistyped_blob : list byte := json_text "{'version':'1.0.0','nonce':'x'}".

Fixpoint lookup {A : Type} (table : list (list byte * vjson.decoded A))
         (data : list byte) : vjson.decoded A :=
  match table with
  | [] => inl "blob not tabulated"%string
  | (k, v) :: table' => if bytes_eqb data k then v else lookup table' data
  end.

Definition decimal_eqb (a b : apd.Decimal) : bool :=
  Bool.eqb (apd.Negative a) (apd.Negative b)
  && (apd.Coeff a =? apd.Coeff b)%N && (apd.Exponent a =? apd.Exponent b)%Z.

Definition option_eqb {A : Type} (eqb : A -> A -> bool) (a b : option A) : bool :=
  match a, b with
  | Some x, Some y => eqb x y
  | None, None => true
  | _, _ => false
  end.

Definition version_eqb (a b : semver.Version) : bool :=
  (semver.Major a =? semver.Major b)%N && (semver.Minor a =? semver.Minor b)%N
  && (semver.Patch a =? semver.Patch b)%N
  && String.eqb (semver.Pre a) (semver.Pre b)
  && String.eqb (semver.Metadata a) (semver.Metadata b).

Definition offer_eqb (a b : types.Offer) : bool :=
  version_eqb (types.Version a) (types.Version b)
  && bytes_eqb (types.ID a) (types.ID b)
  && String.eqb (types.Provides a) (types.Provides b)
  && option_eqb decimal_eqb (types.MinAmount a) (types.MinAmount b)
  && option_eqb decimal_eqb (types.MaxAmount a) (types.MaxAmount b)
  && option_eqb decimal_eqb (types.ExchangeRate_ a) (types.ExchangeRate_ b)
  && bytes_eqb (types.EthAsset_ a) (types.EthAsset_ b)
  && (types.Nonce a =? types.Nonce b)%N.


Definition v1 : semver.Version := semver.mkVersion 1 0 0 "" "".
Definition v2 : semver.Version := semver.mkVersion 2 0 0 "" "".

(** The packages around the offer code, on the sample blobs: what
    [encoding/json] reads from each text, amounts that must be set,
    positive and of at most 12 decimals, rates printed like amounts,
    and ETH printed as "ETH". *)
Definition externals : types.Externals :=
  {| types.json_Unmarshal_version :=
       lookup [ (good_blob, inr (Some v1)); (nonce0_blob, inr (Some v1));
                (unreduced_blob, inr (Some v1)); (future_blob, inr (Some v2));
                (unversioned_blob, inr None); (mistyped_blob, inr (Some v1)) ];
     types.json_Unmarshal__Offer :=
       lookup [ (good_blob, inr good_offer); (nonce0_blob, inr nonce0_offer);
                (unreduced_blob, inr unreduced_offer);
                (future_blob,
                 inr (types.mkOffer v2 types.EmptyHash "XMR" None None None
                                    types.EthAssetETH 0));
                (unversioned_blob,
                 inr (types.mkOffer (semver.mkVersion 0 0 0 "" "") types.EmptyHash
                                    "XMR" None None None types.EthAssetETH 0));
                (mistyped_blob,
                 inl "json: cannot unmarshal string into Go struct field _Offer.nonce of type uint64"%string) ];
     types.json_Marshal__Offer := fun o =>
       if offer_eqb o good_offer then inr good_blob
       else if offer_eqb o unreduced_offer then inr unreduced_blob
       else if offer_eqb o nonce0_offer then inr nonce0_blob
       else inl "offer not tabulated"%string;
     types.coins_ValidatePositive := fun fieldName maxDecimals value =>
       match value with
       | None => Some (fieldName ++ " is not set")%string
       | Some d =>
           if apd.Negative d || (apd.Coeff d =? 0)%N
           then Some (fieldName ++ " must be positive")%string
           else if (apd.Exponent d <? - Z.of_N maxDecimals)%Z
           then Some (fieldName ++ " has too many decimals")%string
           else None
       end;
     types.coins_NumMoneroDecimals := 12;
     types.ExchangeRate_String := apd.Text_f;
     types.EthAsset_String := fun a =>
       if types.EthAsset_eqb a types.EthAssetETH then "ETH"%string
       else "0x"%string;
     types.semver_comparePrerelease := fun a b =>
       match String.compare a b with Lt => (-1)%Z | Eq => 0%Z | Gt => 1%Z end |}.

(** *** A swap *)

Definition readyTopic : types.Hash := repeat xa1 32.
Definition refundedTopic : types.Hash := repeat xa2 32.
Definition claimedTopic : types.Hash := repeat xa3 32.
Definition swap_id : types.Hash := repeat x55 32.

Definition next_event (st : xmrmaker.Status) : xmrmaker.EventType :=
  match st with
  | xmrmaker.Ongoing | xmrmaker.KeysExchanged => xmrmaker.EventETHLockedType
  | xmrmaker.XMRLocked => xmrmaker.EventContractReadyType
  | _ => xmrmaker.EventNoneType
  end.

(** The spend key bytes 1, 2, ..., 32. *)
Definition spend_key : list byte := map (fun n => byte_of_N (N.of_nat n)) (seq 1 32).
Definition keys : xmrmaker.PrivateKeyPair :=
  xmrmaker.mkPrivateKeyPair spend_key (repeat x07 32).

(** Stand-in for the curve points of a key pair. *)
Definition public_half (k : xmrmaker.PrivateKeyPair) : xmrmaker.PublicKeyPair :=
  xmrmaker.mkPublicKeyPair (repeat x08 32) (repeat x09 32).

(** A backend on which every call succeeds. *)
Definition backend : xmrmaker.Backend :=
  xmrmaker.mkBackend (fun a => inr a)
                     (fun a tok => inr (xmrmaker.mkSender tok message.zero_address None))
                     factory (fun _ => None) (fun a => inr a).

Definition info (st : xmrmaker.Status) : xmrmaker.Info :=
  xmrmaker.mkInfo (types.ID good_offer) (apd.New 1 0) (apd.New 5 (-2))
                  (apd.New 5 (-2)) types.EthAssetETH st 3000000.

Definition extra : xmrmaker.OfferExtra := xmrmaker.mkOfferExtra (Some []) true.

Definition eth_swap_info : xmrmaker.EthereumSwapInfo :=
  xmrmaker.mkEthereumSwapInfo 100 swap_id (Some eth_swap) factory.

Definition resume (st : xmrmaker.Status) : result xmrmaker.swapState :=
  xmrmaker.newSwapStateFromOngoing readyTopic refundedTopic next_event public_half
    backend good_offer extra eth_swap_info (info st) keys.

(** The state resumed at [XMRLocked], and that state expecting another
    event. *)
Definition resumed : xmrmaker.swapState :=
  match resume xmrmaker.XMRLocked with
  | Ok s => s
  | Err _ =>
      xmrmaker.mkSwapState backend (xmrmaker.mkSender None [] None) false
        (info xmrmaker.XMRLocked) good_offer extra None None None None None [] []
        None 0%Z 0%Z None None None 0 xmrmaker.EventNoneType false [] false
  end.

Definition expecting (e : xmrmaker.EventType) : xmrmaker.swapState :=
  xmrmaker.set_nextExpectedEvent e resumed.

(** Collaborators that never fail and keep a journal of the calls. *)
Definition journal : xmrmaker.Collaborators (list string) :=
  {| xmrmaker.CompleteOngoingSwap := fun _ w => (w ++ ["CompleteOngoingSwap"%string], None);
     xmrmaker.AddOffer := fun _ _ w => (w ++ ["AddOffer"%string], None);
     xmrmaker.DeleteOffer := fun _ w => (w ++ ["DeleteOffer"%string], None);
     xmrmaker.RecoveryDB_DeleteSwap := fun _ w => (w ++ ["DeleteSwap"%string], None);
     xmrmaker.handleEventETHRefunded := fun _ s w =>
       (None, xmrmaker.clearNextExpectedEvent xmrmaker.CompletedRefund s,
        w ++ ["reclaimMonero"%string]);
     xmrmaker.handleEventContractReady := fun s w =>
       (None, xmrmaker.clearNextExpectedEvent xmrmaker.CompletedSuccess s,
        w ++ ["claimFunds"%string]) |}.

(** *** A relayed claim *)

Definition secret : list byte := rev spend_key.

Definition claimed_log (topics : list types.Hash) : xmrmaker.Log :=
  xmrmaker.mkLog factory topics.

Definition receipt_with (topics : list types.Hash) : xmrmaker.Receipt :=
  xmrmaker.mkReceipt 1 [claimed_log topics] 90000 120.

Definition second : Z := 1000000000.

Definition found (n : Z) : xmrmaker.Poll :=
  xmrmaker.mkPoll None (Ok false) (n * second).
Definition not_found (n : Z) : xmrmaker.Poll :=
  xmrmaker.mkPoll None (Err ethereum_NotFound) (n * second).

(** A node that finds the mined transaction at once, and one that
    answers [NotFound] once before it does. *)
Definition client_prompt (topics : list types.Hash) : xmrmaker.Client :=
  xmrmaker.mkClient [found 1] (Ok (receipt_with topics)) (ErrRPC "execution reverted").

Definition client_not_found_once : xmrmaker.Client :=
  xmrmaker.mkClient [not_found 1; found 2]
                    (Ok (receipt_with [claimedTopic; swap_id; secret]))
                    (ErrRPC "execution reverted").

End samples.

(** * Sample values for the rest of the code *)

Module samples2.

Local Open Scope list_scope.


(** The resumed swap with an exit request on its event channel. *)
Definition waiting : xmrmaker.swapState :=
  xmrmaker.set_eventCh [xmrmaker.EventExit]
    (samples.expecting xmrmaker.EventContractReadyType).


(** *** The start of a swap *)

Definition generated : swap.KeysAndProof :=
  swap.mkKeysAndProof (xmrmaker.mkProof samples.secret (repeat x0d 48))
                      (repeat x0c 33) samples.keys (samples.public_half samples.keys).

(** A backend on which every call succeeds; the wallet is at height
    3000010 and [monero.MinSpendConfirmations] is 10. *)
Definition start_backend : swap.StartBackend :=
  swap.mkStartBackend samples.backend (fun _ _ => None) (inr 3000010%N) (inr 100%Z)
    (fun _ => None) (inr generated) (fun _ _ => None)
    (fun id provided expected rate asset st height =>
       xmrmaker.mkInfo id provided expected
         (match rate with Some r => r | None => apd.New 0 0 end) asset st height).

Definition MinSpendConfirmations : N := 10.

Definition start : result xmrmaker.swapState :=
  swap.newSwapStateFromStart samples.readyTopic samples.refundedTopic samples.next_event
    MinSpendConfirmations start_backend samples.good_offer
    (xmrmaker.mkOfferExtra None true) (apd.New 1 0) (apd.New 5 (-2)).

Definition started : xmrmaker.swapState :=
  match start with
  | Ok s => s
  | Err _ => samples.resumed
  end.

(** The started swap before its keys were generated. *)
Definition keyless : xmrmaker.swapState :=
  xmrmaker.set_pubkeys None
    (xmrmaker.set_privkeys None
       (swap.set_secp256k1Pub None (swap.set_dleqProof None started))).

(** *** Locking *)

Definition taker_spend : list byte := repeat x0a 32.
Definition taker_view : list byte := repeat x0b 32.

(** A wallet of 5 XMR. *)
Definition wallet : swap.XMRClient :=
  swap.mkXMRClient
    (fun _ => inr (5000000000000, 5000000000000)%N)
    (fun dest account amount confirmations =>
       if (amount <=? 5000000000000)%N then inr ("txid"%string, 3000011%N)
       else inl "not enough money"%string).

(** Stand-in for the address of the summed keys. *)
Definition dest_addr (takerSpend takerView : list byte) (p : xmrmaker.PublicKeyPair)
  : string :=
  hexenc.EncodeToString (takerSpend ++ takerView ++ xmrmaker.PublicSpendKey p).

(** The started swap with the taker's keys, the recovery database
    refusing the write. *)
Definition with_taker_keys : xmrmaker.swapState :=
  fst (swap.setXMRTakerKeys (fun _ _ _ => Some "database closed"%string)
         (Some taker_spend) (Some taker_view) (Some (repeat x0e 33)) started).

(** *** Relayers *)

Definition tx_hash : types.Hash := repeat x77 32.
Definition forwarder_addr : contracts.Address := repeat x00 19 ++ [xfd].

(** Two relayers: the first refuses the request, the second relays it
    in a transaction that the node reports as mined with the log of the
    claim. *)
Definition relay_backend : claim.Backend :=
  claim.mkBackend
    (inr ["relayer-1"%string; "relayer-2"%string])
    (inr forwarder_addr)
    (fun addr fwd sw sc =>
       match sw with
       | Some _ => inr {| message.SwapFactoryAddress := addr;
                          message.Swap := sw;
                          message.Secret := sc;
                          message.Signature := repeat x44 65 |}
       | None => inl "swap is not set"%string
       end)
    (fun relayer req =>
       if String.eqb relayer "relayer-2"
       then inr {| message.RespTxHash := tx_hash |}
       else inl "stream reset"%string)
    (fun _ => samples.client_prompt [samples.claimedTopic; samples.swap_id; samples.secret])
    (fun _ => inr ("TOK"%string, 18%N))
    (inr 0%Z) (inr 99900000000000000%Z)
    (fun _ => inr 0%Z) (fun _ => inr 0%Z)
    (fun _ _ => inl "insufficient funds for gas"%string).

(** The request that the sample backend creates for the resumed swap. *)
Definition relay_request : message.RelayClaimRequest :=
  {| message.SwapFactoryAddress := samples.factory;
     message.Swap := Some samples.eth_swap;
     message.Secret := samples.secret;
     message.Signature := repeat x44 65 |}.

(** *** Messages *)

Definition response : message.RelayClaimResponse := {| message.RespTxHash := tx_hash |}.

Definition response_text : list byte :=
  samples.json_text
    "{'transactionHash':'0x7777777777777777777777777777777777777777777777777777777777777777'}".

Definition encoders : encode.Encoders :=
  {| encode.json_Marshal_QueryResponse := fun _ => inl "message not tabulated"%string;
     encode.json_Marshal_RelayClaimRequest := fun _ => inl "message not tabulated"%string;
     encode.json_Marshal_RelayClaimResponse := fun m =>
       if bytes_eqb (message.RespTxHash m) tx_hash then inr response_text
       else inl "message not tabulated"%string;
     encode.json_Marshal_SendKeysMessage := fun _ => inl "message not tabulated"%string;
     encode.json_Marshal_NotifyETHLocked := fun _ => inl "message not tabulated"%string |}.

Definition decoders : message.Decoders :=
  {| message.json_Unmarshal_QueryResponse := fun _ => inl "blob not tabulated"%string;
     message.json_Unmarshal_RelayClaimRequest := fun d =>
       if bytes_eqb d (list_byte_of_string "{]")
       then inl "invalid character ']' looking for beginning of object key string"%string
       else inl "blob not tabulated"%string;
     message.json_Unmarshal_RelayClaimResponse := fun d =>
       if bytes_eqb d response_text then inr response
       else inl "blob not tabulated"%string;
     message.json_Unmarshal_SendKeysMessage := fun _ => inl "blob not tabulated"%string;
     message.json_Unmarshal_NotifyETHLocked := fun _ => inl "blob not tabulated"%string |}.

(** *** The forwarder *)

Definition claimer_key : list byte := repeat x5a 32.

Definition request_bytes (r : forwarder.ForwardRequest) : list byte :=
  forwarder.From r ++ forwarder.To r ++ forwarder.Data r.

(** A chain of ID 1 with the forwarder at [forwarder_addr]; stand-ins
    for the cryptography: the digest of a request is the SHA3-256 of its
    addresses, call data and domain separator, a signature is the key
    followed by the digest, the address of the sample key is the claimer
    of the sample swap, and the forwarder verifies a signature by
    recomputing it. *)
Definition chain : forwarder.Chain :=
  forwarder.mkChain
    (inr 1%Z)
    (fun a => inr a)
    (fun chainID a => inr (sha3.Sum256 a))
    (fun fwd opts a => inr 7%Z)
    (fun a => inr a)
    (fun sf => inr forwarder_addr)
    (fun sw sc fee => inr (contracts.Claimer sw ++ sc))
    (fun r ds => inr (sha3.Sum256 (request_bytes r ++ ds)))
    (fun key digest => inr (key ++ digest))
    (fun key => contracts.Claimer samples.eth_swap)
    (fun fwd opts r ds sig =>
       if bytes_eqb sig (claimer_key ++ sha3.Sum256 (request_bytes r ++ ds))
       then None else Some "FWD: signature mismatch"%string).

Definition signed : list byte + errors.failure :=
  forwarder.createForwarderSignature samples.FeeWei 200000 chain claimer_key
    samples.factory forwarder_addr samples.eth_swap samples.secret.

Definition signature : list byte :=
  match signed with
  | inl sig => sig
  | inr _ => []
  end.

Definition signed_request : message.RelayClaimRequest :=
  {| message.SwapFactoryAddress := samples.factory;
     message.Swap := Some samples.eth_swap;
     message.Secret := samples.secret;
     message.Signature := signature |}.

(** *** An offer that is written and not read back *)






End samples2.

(** * Properties *)

(** ** Bytes and errors *)

Lemma bytes_eqb_eq (a b : list byte) : bytes_eqb a b = true <-> a = b.
Proof.
  unfold bytes_eqb. split.
  - revert b. induction a as [|x a IH]; intros [|y b] H; simpl in H;
      try reflexivity; try discriminate.
    apply andb_true_iff in H as [Hl H]. apply andb_true_iff in H as [Hx H].
    apply Byte.byte_dec_bl in Hx. subst y. f_equal.
    apply IH. simpl. rewrite Hl. exact H.
  - intros <-. induction a as [|x a IH]; simpl; [reflexivity|].
    apply andb_true_iff in IH as [Hl H]. simpl.
    rewrite Hl. simpl. rewrite (Byte.byte_dec_lb (eq_refl x)). exact H.
Qed.

Lemma bytes_eqb_neq (a b : list byte) : bytes_eqb a b = false <-> a <> b.
Proof.
  split.
  - intros H E. apply bytes_eqb_eq in E. congruence.
  - intros H. destruct (bytes_eqb a b) eqn:E; [|reflexivity].
    apply bytes_eqb_eq in E. contradiction.
Qed.

Lemma byte_of_N_small (n : N) : (n < 256)%N -> Byte.to_N (byte_of_N n) = n.
Proof.
  intros H. unfold byte_of_N. rewrite N.mod_small by exact H.
  destruct (Byte.of_N n) eqn:E.
  - apply Byte.to_of_N. exact E.
  - apply Byte.of_N_None_iff in E. lia.
Qed.

Lemma list_pair_ind {A : Type} (P : list A -> Prop) :
  P [] -> (forall a, P [a]) -> (forall a b l, P l -> P (a :: b :: l)) ->
  forall l, P l.
Proof.
  intros H0 H1 H2.
  assert (H : forall l, P l /\ forall a, P (a :: l)).
  { induction l as [|x l [IH1 IH2]]; split; auto. }
  intros l. apply H.
Qed.

(** ** encoding/hex *)

Lemma fromHexChar_digit_value (c : byte) : hex.fromHexChar c = hex.digit_value c.
Proof. destruct c; reflexivity. Qed.

Lemma digit_value_lt (c : byte) (v : N) : hex.digit_value c = Some v -> (v < 16)%N.
Proof. destruct c; vm_compute; intros H; inversion H; reflexivity. Qed.

Lemma nibbles_value (a b : N) :
  (a < 16)%N -> (b < 16)%N ->
  Byte.to_N (byte_of_N (N.lor (N.shiftl a 4) b)) = (16 * a + b)%N.
Proof.
  intros Ha Hb.
  assert (E : N.lor (N.shiftl a 4) b = (16 * a + b)%N).
  { assert (Ea : In a (map N.of_nat (seq 0 16))).
    { apply in_map_iff. exists (N.to_nat a). split; [lia|]. apply in_seq. lia. }
    assert (Eb : In b (map N.of_nat (seq 0 16))).
    { apply in_map_iff. exists (N.to_nat b). split; [lia|]. apply in_seq. lia. }
    simpl in Ea, Eb.
    repeat (destruct Ea as [<-|Ea]; [repeat (destruct Eb as [<-|Eb]; [reflexivity|]); contradiction|]).
    contradiction. }
  rewrite E. apply byte_of_N_small. lia.
Qed.



Lemma Decode_value (src : list byte) :
  snd (hex.Decode src) = None ->
  List.length src = 2 * List.length (fst (hex.Decode src)) /\
  forall i, i < List.length (fst (hex.Decode src)) ->
    Byte.to_N (nth i (fst (hex.Decode src)) x00) =
    (16 * hex.digit_or_zero (nth (2 * i) src x00)
     + hex.digit_or_zero (nth (2 * i + 1) src x00))%N.
Proof.
  induction src as [|p|p q rest IH] using list_pair_ind.
  - intros _. split; [reflexivity|]. intros i Hi. inversion Hi.
  - cbn [hex.Decode]. destruct (hex.fromHexChar p); discriminate.
  - cbn [hex.Decode]. rewrite !fromHexChar_digit_value.
    destruct (hex.digit_value p) as [a|] eqn:Ep; [|discriminate].
    destruct (hex.digit_value q) as [b|] eqn:Eq; [|discriminate].
    destruct (hex.Decode rest) as [out e] eqn:Er. cbn [fst snd] in IH |- *.
    intros He. destruct (IH He) as [Hl Hv]. split.
    + cbn [List.length]. lia.
    + intros [|i] Hi.
      * cbn [nth Nat.mul Nat.add]. unfold hex.digit_or_zero. rewrite Ep, Eq.
        apply nibbles_value; eapply digit_value_lt; eassumption.
      * replace (2 * S i) with (S (S (2 * i))) by lia.
        replace (S (S (2 * i)) + 1) with (S (S (2 * i + 1))) by lia.
        cbn [nth]. apply Hv. cbn [List.length] in Hi. lia.
Qed.

(** ** SHA3-256 *)

(** The digests of the empty message and of "abc" (FIPS 202 test
    vectors), and of 200 times "a", which takes two blocks. *)
Example Sum256_vectors :
  sha3.Sum256 [] =
    samples.hash_of_hex "0xa7ffc6f8bf1ed76651c14756a061d662f580ff4de43b49fa82d80a4b80f8434a" /\
  sha3.Sum256 (list_byte_of_string "abc") =
    samples.hash_of_hex "0x3a985da74fe225b2045c172d6bd390bd855f086e3e9d525b46bfe24511431532" /\
  sha3.Sum256 (repeat x61 200) =
    samples.hash_of_hex "0xcce34485baf2bf2aca99b94833892a4f52896d3d153f7b840cc4f9fe695f1387".
Proof. repeat split; vm_compute; reflexivity. Qed.

(** ** C10 *)



(** ** C3 *)

Section MessageCodec.

Context {dec : message.Decoders}.

Lemma decode_failure_Type (t : byte) (r : result message.Message) (m : message.Message) :
  (forall m', r = Ok m' -> message.Type_ m' = t) ->
  message.decode_failure t r = Ok m -> message.Type_ m = t.
Proof.
  intros H. destruct r as [m'|e]; simpl; intros E; [|discriminate].
  inversion E; subst. apply H. reflexivity.
Qed.

Lemma unmarshal_as_Type {A : Type} (v : A -> list (string * string))
      (u : list byte -> vjson.decoded A) (wrap : A -> message.Message)
      (t : byte) (js : list byte) (m : message.Message) :
  (forall a, message.Type_ (wrap a) = t) ->
  message.unmarshal_as v u wrap js = Ok m -> message.Type_ m = t.
Proof.
  intros Hw. unfold message.unmarshal_as, vjson.UnmarshalStruct, bind, check.
  destruct (vjson.lift (u js)) as [a|e]; [|discriminate].
  destruct (vjson.validate_Struct v a); [discriminate|].
  intros E. inversion E; subst. apply Hw.
Qed.

(** The outcome of decoding [js] as the struct of a type code: what
    [encoding/json] reads, checked against the struct's tags, any error
    wrapped with the name of the type. *)
Lemma decoded_as {A : Type} (tags : A -> list (string * string))
      (u : list byte -> vjson.decoded A) (wrap : A -> message.Message)
      (t : byte) (js : list byte) :
  message.decode_failure t (message.unmarshal_as tags u wrap js) =
    match u js with
    | inl msg => Err (Wrap ("failed to decode " ++ message.TypeToString t ++ " message")
                           (ErrJSON msg))
    | inr q =>
        match tags q with
        | [] => Ok (wrap q)
        | (f, tag) :: _ =>
            Err (Wrap ("failed to decode " ++ message.TypeToString t ++ " message")
                      (ErrFieldValidation f tag))
        end
    end.
Proof.
  unfold message.decode_failure, message.unmarshal_as, vjson.UnmarshalStruct,
    vjson.validate_Struct, vjson.lift, bind, check.
  destruct (u js) as [msg|q]; [reflexivity|].
  destruct (tags q) as [|[f tag] rest]; reflexivity.
Qed.


(** C3.  [DecodeMessage b] fails with the invalid-bytes error when [b]
    has fewer than 3 bytes; a [b] of exactly 3 bytes passes that check.
    With 3 bytes or more, it fails with the invalid-message-type error
    naming [b[0]] when [b[0]] is none of the codes 1..5, and otherwise
    hands [b[1:]], and nothing else, to the JSON decoder of the struct
    the code numbers: 1 QueryResponse, 2 RelayClaimRequest,
    3 RelayClaimResponse, 4 SendKeysMessage, 5 NotifyETHLocked.  What
    that decoder reads from [b[1:]] is returned as a message of that
    type when it violates none of the struct's tags; an error of the
    decoder and the first violated tag are returned as errors that name
    the type.  A message that is returned has the type of the code. *)
Theorem DecodeMessage_spec (b : list byte) :
  (List.length b < 3 -> message.DecodeMessage b = Err ErrInvalidMessageBytes) /\
  (forall (t : byte) (js : list byte), b = t :: js -> 3 <= List.length b ->
     (~ In t [x01; x02; x03; x04; x05] ->
      message.DecodeMessage b = Err (ErrInvalidMessageType t)) /\
     (t = x01 ->
      message.DecodeMessage b =
        match message.json_Unmarshal_QueryResponse js with
        | inl msg => Err (Wrap "failed to decode QueryResponse message" (ErrJSON msg))
        | inr q =>
            match message.QueryResponse_violations q with
            | [] => Ok (message.MsgQueryResponse q)
            | (f, tag) :: _ =>
                Err (Wrap "failed to decode QueryResponse message"
                          (ErrFieldValidation f tag))
            end
        end) /\
     (t = x02 ->
      message.DecodeMessage b =
        match message.json_Unmarshal_RelayClaimRequest js with
        | inl msg => Err (Wrap "failed to decode RelayClaimRequestType message" (ErrJSON msg))
        | inr q =>
            match message.RelayClaimRequest_violations q with
            | [] => Ok (message.MsgRelayClaimRequest q)
            | (f, tag) :: _ =>
                Err (Wrap "failed to decode RelayClaimRequestType message"
                          (ErrFieldValidation f tag))
            end
        end) /\
     (t = x03 ->
      message.DecodeMessage b =
        match message.json_Unmarshal_RelayClaimResponse js with
        | inl msg => Err (Wrap "failed to decode RelayClaimResponse message" (ErrJSON msg))
        | inr q =>
            match message.RelayClaimResponse_violations q with
            | [] => Ok (message.MsgRelayClaimResponse q)
            | (f, tag) :: _ =>
                Err (Wrap "failed to decode RelayClaimResponse message"
                          (ErrFieldValidation f tag))
            end
        end) /\
     (t = x04 ->
      message.DecodeMessage b =
        match message.json_Unmarshal_SendKeysMessage js with
        | inl msg => Err (Wrap "failed to decode SendKeysMessage message" (ErrJSON msg))
        | inr q =>
            match message.SendKeys_violations q with
            | [] => Ok (message.MsgSendKeys q)
            | (f, tag) :: _ =>
                Err (Wrap "failed to decode SendKeysMessage message"
                          (ErrFieldValidation f tag))
            end
        end) /\
     (t = x05 ->
      message.DecodeMessage b =
        match message.json_Unmarshal_NotifyETHLocked js with
        | inl msg => Err (Wrap "failed to decode NotifyETHLocked message" (ErrJSON msg))
        | inr q =>
            match message.NotifyETHLocked_violations q with
            | [] => Ok (message.MsgNotifyETHLocked q)
            | (f, tag) :: _ =>
                Err (Wrap "failed to decode NotifyETHLocked message"
                          (ErrFieldValidation f tag))
            end
        end) /\
     (forall m, message.DecodeMessage b = Ok m ->
                message.Type_ m = t /\ In t [x01; x02; x03; x04; x05])).
Proof.
  split.
  - intros H. unfold message.DecodeMessage.
    apply Nat.ltb_lt in H. rewrite H. reflexivity.
  - intros t js -> Hlen. unfold message.DecodeMessage.
    assert (E : (List.length (t :: js) <? 3)%nat = false) by (apply Nat.ltb_ge; exact Hlen).
    rewrite E. clear E Hlen.
    unfold message.QueryResponseType, message.RelayClaimRequestType,
      message.RelayClaimResponseType, message.SendKeysType,
      message.NotifyETHLockedType.
    repeat split.
    + intros Hn.
      destruct (Byte.eqb t x01) eqn:E1; [apply Byte.byte_dec_bl in E1; subst; simpl in Hn; tauto|].
      destruct (Byte.eqb t x02) eqn:E2; [apply Byte.byte_dec_bl in E2; subst; simpl in Hn; tauto|].
      destruct (Byte.eqb t x03) eqn:E3; [apply Byte.byte_dec_bl in E3; subst; simpl in Hn; tauto|].
      destruct (Byte.eqb t x04) eqn:E4; [apply Byte.byte_dec_bl in E4; subst; simpl in Hn; tauto|].
      destruct (Byte.eqb t x05) eqn:E5; [apply Byte.byte_dec_bl in E5; subst; simpl in Hn; tauto|].
      reflexivity.
    + intros ->. cbn [Byte.eqb]. apply decoded_as.
    + intros ->. cbn [Byte.eqb]. apply decoded_as.
    + intros ->. cbn [Byte.eqb]. apply decoded_as.
    + intros ->. cbn [Byte.eqb]. apply decoded_as.
    + intros ->. cbn [Byte.eqb]. apply decoded_as.
    + destruct (Byte.eqb t x01) eqn:E1.
      { apply Byte.byte_dec_bl in E1; subst. revert H.
        apply decode_failure_Type. intros m'. apply unmarshal_as_Type. reflexivity. }
      destruct (Byte.eqb t x02) eqn:E2.
      { apply Byte.byte_dec_bl in E2; subst. revert H.
        apply decode_failure_Type. intros m'. apply unmarshal_as_Type. reflexivity. }
      destruct (Byte.eqb t x03) eqn:E3.
      { apply Byte.byte_dec_bl in E3; subst. revert H.
        apply decode_failure_Type. intros m'. apply unmarshal_as_Type. reflexivity. }
      destruct (Byte.eqb t x04) eqn:E4.
      { apply Byte.byte_dec_bl in E4; subst. revert H.
        apply decode_failure_Type. intros m'. apply unmarshal_as_Type. reflexivity. }
      destruct (Byte.eqb t x05) eqn:E5.
      { apply Byte.byte_dec_bl in E5; subst. revert H.
        apply decode_failure_Type. intros m'. apply unmarshal_as_Type. reflexivity. }
      discriminate.
    + destruct (Byte.eqb t x01) eqn:E1; [apply Byte.byte_dec_bl in E1; subst; simpl; tauto|].
      destruct (Byte.eqb t x02) eqn:E2; [apply Byte.byte_dec_bl in E2; subst; simpl; tauto|].
      destruct (Byte.eqb t x03) eqn:E3; [apply Byte.byte_dec_bl in E3; subst; simpl; tauto|].
      destruct (Byte.eqb t x04) eqn:E4; [apply Byte.byte_dec_bl in E4; subst; simpl; tauto|].
      destruct (Byte.eqb t x05) eqn:E5; [apply Byte.byte_dec_bl in E5; subst; simpl; tauto|].
      discriminate.
Qed.

End MessageCodec.

(** A 2-byte message; a 3-byte message with code 9; the relay claim
    response [0x03 {'transactionHash':'0x77..77'}]; the 3-byte message
    [0x03 {}], whose transaction hash is not set; and a relay claim
    request that is no JSON. *)
Lemma DecodeMessage_spec_witness :
  message.DecodeMessage (dec := samples.decoders) (x01 :: list_byte_of_string "{")
    = Err ErrInvalidMessageBytes /\
  message.DecodeMessage (dec := samples.decoders) (x09 :: samples.empty_object)
    = Err (ErrInvalidMessageType x09) /\
  message.DecodeMessage (dec := samples2.decoders) (x03 :: samples2.response_text)
    = Ok (message.MsgRelayClaimResponse samples2.response) /\
  message.DecodeMessage (dec := samples.decoders) (x03 :: samples.empty_object)
    = Err (Wrap "failed to decode RelayClaimResponse message"
                (ErrFieldValidation "TxHash" "required")) /\
  message.DecodeMessage (dec := samples2.decoders) (x02 :: list_byte_of_string "{]")
    = Err (Wrap "failed to decode RelayClaimRequestType message"
                (ErrJSON "invalid character ']' looking for beginning of object key string")).
Proof.
  split; [|split; [|split; [|split]]].
  - apply (proj1 (DecodeMessage_spec (dec := samples.decoders) _)). simpl. lia.
  - apply (proj2 (DecodeMessage_spec (dec := samples.decoders) _) x09 samples.empty_object eq_refl).
    + simpl. lia.
    + simpl. intros H. repeat (destruct H as [H|H]; [discriminate|]). exact H.
  - destruct (proj2 (DecodeMessage_spec (dec := samples2.decoders)
                       (x03 :: samples2.response_text))
                    x03 samples2.response_text eq_refl)
      as (_ & _ & _ & H & _); [vm_compute; lia|].
    rewrite (H eq_refl). vm_compute. reflexivity.
  - destruct (proj2 (DecodeMessage_spec (dec := samples.decoders)
                       (x03 :: samples.empty_object))
                    x03 samples.empty_object eq_refl)
      as (_ & _ & _ & H & _); [vm_compute; lia|].
    rewrite (H eq_refl). vm_compute. reflexivity.
  - destruct (proj2 (DecodeMessage_spec (dec := samples2.decoders)
                       (x02 :: list_byte_of_string "{]"))
                    x02 (list_byte_of_string "{]") eq_refl)
      as (_ & _ & H & _); [vm_compute; lia|].
    rewrite (H eq_refl). vm_compute. reflexivity.
Defined.

(** ** C5 *)

Section RelayerValidation.

Variable FeeWei : Z.
Variable CheckSwapFactoryContractCode : contracts.Address -> option string.


(** C5, amended.  For a relay claim request whose bytecode check passes,
    [validateClaimValues] fails with the unsupported-asset error iff the
    swap's asset is not native ETH, fails with the value-below-fee error
    iff the asset is ETH and the value is at most [FeeWei], and succeeds
    iff the asset is ETH and the value is strictly greater than
    [FeeWei]. *)
Theorem validateClaimValues_spec (req : message.RelayClaimRequest)
        (ourSwapFactoryAddr : contracts.Address) (swap : contracts.SwapFactorySwap) :
  relayer.code_check_passes CheckSwapFactoryContractCode req ourSwapFactoryAddr ->
  message.Swap req = Some swap ->
  let r := relayer.validateClaimValues FeeWei CheckSwapFactoryContractCode
             req ourSwapFactoryAddr in
  (r = Some ErrAssetNotSupported <-> contracts.Asset swap <> types.EthAssetETH) /\
  (r = Some ErrSwapValueTooLow <->
     contracts.Asset swap = types.EthAssetETH /\ (contracts.Value swap <= FeeWei)%Z) /\
  (r = None <->
     contracts.Asset swap = types.EthAssetETH /\ (FeeWei < contracts.Value swap)%Z).
Proof.
  intros Hcode Hswap r. subst r. unfold relayer.validateClaimValues.
  assert (Hc : (if negb (bytes_eqb (message.SwapFactoryAddress req) ourSwapFactoryAddr)
                then option_map ErrRPC
                       (CheckSwapFactoryContractCode (message.SwapFactoryAddress req))
                else None) = None).
  { destruct Hcode as [E|E].
    - apply bytes_eqb_eq in E. rewrite E. reflexivity.
    - rewrite E. destruct (negb _); reflexivity. }
  rewrite Hc, Hswap. unfold types.EthAsset_eqb.
  destruct (bytes_eqb (contracts.Asset swap) types.EthAssetETH) eqn:Ea; simpl.
  - apply bytes_eqb_eq in Ea.
    destruct (FeeWei >=? contracts.Value swap)%Z eqn:Ev.
    + apply Z.geb_le in Ev. split; [|split]; split.
      * discriminate.
      * intros Hn. contradiction.
      * intros _. split; assumption.
      * reflexivity.
      * discriminate.
      * intros [_ Hv]. lia.
    + rewrite Z.geb_leb in Ev. apply Z.leb_gt in Ev. split; [|split]; split.
      * discriminate.
      * intros Hn. contradiction.
      * discriminate.
      * intros [_ Hv]. lia.
      * intros _. split; assumption.
      * reflexivity.
  - apply bytes_eqb_neq in Ea. split; [|split]; split.
    + intros _. exact Ea.
    + reflexivity.
    + discriminate.
    + intros [He _]. contradiction.
    + discriminate.
    + intros [He _]. contradiction.
Qed.

End RelayerValidation.

(** The ETH swap of the relayer scenario is accepted, by a relayer whose
    own factory is another contract and whose code check accepts. *)
Lemma validateClaimValues_spec_witness :
  relayer.validateClaimValues samples.FeeWei (fun _ => None)
    (samples.claim_request samples.eth_swap) (samples.peer xfb) = None.
Proof.
  apply (validateClaimValues_spec samples.FeeWei (fun _ => None)
           (samples.claim_request samples.eth_swap) (samples.peer xfb) samples.eth_swap).
  - right. reflexivity.
  - reflexivity.
  - split; [reflexivity|]. vm_compute. reflexivity.
Defined.

(** C5 as stated fails: a token swap whose value equals the fee passes the
    bytecode check and has a value at most [FeeWei], yet the error is the
    unsupported-asset one, not the value-below-fee one. *)
Lemma validateClaimValues_counterexample :
  let req := samples.claim_request samples.token_swap in
  let r := relayer.validateClaimValues samples.FeeWei samples.code_unknown
             req samples.factory in
  relayer.code_check_passes samples.code_unknown req samples.factory /\
  r = Some ErrAssetNotSupported /\
  ~ (r = Some ErrSwapValueTooLow <->
     (contracts.Value samples.token_swap <= samples.FeeWei)%Z).
Proof.
  split; [left; reflexivity|]. split; [reflexivity|].
  intros [_ H]. assert (E : (contracts.Value samples.token_swap <= samples.FeeWei)%Z).
  { vm_compute. discriminate. }
  specialize (H E). discriminate.
Qed.

(** ** C4 *)

Lemma copy_same_length (dst src : list byte) :
  List.length src = List.length dst -> copy dst src = src.
Proof.
  intros H. unfold copy. rewrite <- H, firstn_all, H, skipn_all. apply app_nil_r.
Qed.

(** The test of [common.Reverse] in common/utils_test.go. *)
Example TestReverse : xmrmaker.Reverse [x0a; x0b; x0c] = [x0c; x0b; x0a].
Proof. reflexivity. Qed.

(** C4.  In a swap state whose DLEq proof is not set, the secret that
    [getSecret] produces for the Ethereum contract is the byte-reversal of
    the 32 spend-key scalar bytes of the state's private key pair: it has
    32 bytes and its byte [i] is byte [31 - i] of the scalar. *)
Theorem getSecret_reverses_spend_key (s : xmrmaker.swapState)
        (keys : xmrmaker.PrivateKeyPair) :
  xmrmaker.dleqProof s = None ->
  xmrmaker.privkeys s = Some keys ->
  List.length (xmrmaker.SpendKeyBytes keys) = 32 ->
  exists secret,
    xmrmaker.getSecret s = Ok secret /\
    secret = rev (xmrmaker.SpendKeyBytes keys) /\
    List.length secret = 32 /\
    forall i, i < 32 ->
      nth i secret x00 = nth (31 - i) (xmrmaker.SpendKeyBytes keys) x00.
Proof.
  intros Hp Hk Hl. exists (rev (xmrmaker.SpendKeyBytes keys)).
  unfold xmrmaker.getSecret. rewrite Hp, Hk. unfold xmrmaker.Reverse.
  rewrite copy_same_length by (rewrite length_rev, Hl; reflexivity).
  repeat split.
  - rewrite length_rev. exact Hl.
  - intros i Hi. rewrite rev_nth by lia. rewrite Hl. f_equal; lia.
Qed.

Lemma getSecret_reverses_spend_key_witness :
  exists secret,
    xmrmaker.getSecret samples.resumed = Ok secret /\
    secret = rev samples.spend_key /\
    List.length secret = 32 /\
    forall i, i < 32 -> nth i secret x00 = nth (31 - i) samples.spend_key x00.
Proof.
  apply (getSecret_reverses_spend_key samples.resumed samples.keys);
    reflexivity.
Defined.

(** ** C6 and C1 *)

Section ClaimReceipt.

Variable claimedTopic : types.Hash.

Lemma three_topics (topics : list types.Hash) (a b c : types.Hash) :
  List.length topics = 3 -> nth 0 topics [] = a -> nth 1 topics [] = b ->
  nth 2 topics [] = c -> topics = [a; b; c].
Proof.
  destruct topics as [|x [|y [|z [|? ?]]]]; simpl; intros Hl; try discriminate.
  intros -> -> ->. reflexivity.
Qed.

Lemma checkClaimedLog_ok (log : xmrmaker.Log) (contractAddr : contracts.Address)
      (contractSwapID secret : list byte) :
  xmrmaker.checkClaimedLog claimedTopic log contractAddr contractSwapID secret = None <->
  xmrmaker.LogAddress log = contractAddr /\
  xmrmaker.Topics log = [claimedTopic; contractSwapID; secret].
Proof.
  unfold xmrmaker.checkClaimedLog.
  destruct (bytes_eqb (xmrmaker.LogAddress log) contractAddr) eqn:Ea; simpl.
  2:{ apply bytes_eqb_neq in Ea. split; [discriminate|]. intros [H _]. contradiction. }
  apply bytes_eqb_eq in Ea.
  destruct (List.length (xmrmaker.Topics log) =? 3)%nat eqn:El; simpl.
  2:{ apply Nat.eqb_neq in El. split; [discriminate|]. intros [_ H].
      rewrite H in El. contradiction El. reflexivity. }
  apply Nat.eqb_eq in El.
  destruct (bytes_eqb (nth 0 (xmrmaker.Topics log) []) claimedTopic) eqn:E0; simpl.
  2:{ apply bytes_eqb_neq in E0. split; [discriminate|]. intros [_ H].
      rewrite H in E0. contradiction E0. reflexivity. }
  destruct (bytes_eqb (nth 1 (xmrmaker.Topics log) []) contractSwapID) eqn:E1; simpl.
  2:{ apply bytes_eqb_neq in E1. split; [discriminate|]. intros [_ H].
      rewrite H in E1. contradiction E1. reflexivity. }
  destruct (bytes_eqb (nth 2 (xmrmaker.Topics log) []) secret) eqn:E2; simpl.
  2:{ apply bytes_eqb_neq in E2. split; [discriminate|]. intros [_ H].
      rewrite H in E2. contradiction E2. reflexivity. }
  apply bytes_eqb_eq in E0, E1, E2.
  split; [|reflexivity]. intros _. split; [exact Ea|].
  apply three_topics; assumption.
Qed.

(** C6.  For a relayed claim transaction that was mined and whose
    receipt the node returns, [waitForClaimReceipt] succeeds iff the
    receipt status is Success, the receipt has at least one log, and
    the first log was emitted at the expected contract address with
    exactly the 3 topics [claimedTopic, contractSwapID, secret]; a
    first log at that address with another number of topics, 2 or 4 in
    particular, is rejected with the wrong-topic-length error. *)
Theorem waitForClaimReceipt_validation (ec : xmrmaker.Client)
        (receipt : xmrmaker.Receipt) (contractAddr : contracts.Address)
        (contractSwapID secret : list byte) :
  xmrmaker.wait_for_inclusion (xmrmaker.polls ec) 0 = xmrmaker.Included ->
  xmrmaker.TransactionReceipt ec = Ok receipt ->
  let r := xmrmaker.waitForClaimReceipt claimedTopic ec contractAddr contractSwapID secret in
  (r = Some None <->
     xmrmaker.ReceiptStatus receipt = xmrmaker.ReceiptStatusSuccessful /\
     exists log0 rest,
       xmrmaker.Logs receipt = log0 :: rest /\
       xmrmaker.LogAddress log0 = contractAddr /\
       xmrmaker.Topics log0 = [claimedTopic; contractSwapID; secret]) /\
  (forall log0 rest,
     xmrmaker.ReceiptStatus receipt = xmrmaker.ReceiptStatusSuccessful ->
     xmrmaker.Logs receipt = log0 :: rest ->
     xmrmaker.LogAddress log0 = contractAddr ->
     List.length (xmrmaker.Topics log0) <> 3 ->
     r = Some (Some (Wrap "relayer's claim had logs error" errClaimedLogWrongTopicLength))).
Proof.
  intros Hinc Hrec r. subst r. unfold xmrmaker.waitForClaimReceipt.
  rewrite Hinc, Hrec. split.
  - destruct (xmrmaker.ReceiptStatus receipt =? xmrmaker.ReceiptStatusSuccessful)%N eqn:Es; simpl.
    2:{ apply N.eqb_neq in Es. split; [discriminate|]. intros [H _]. contradiction. }
    apply N.eqb_eq in Es.
    destruct (xmrmaker.Logs receipt) as [|log0 rest] eqn:Elogs.
    { split; [discriminate|]. intros [_ (l & r & H & _)]. discriminate. }
    pose proof (checkClaimedLog_ok log0 contractAddr contractSwapID secret) as Hc.
    destruct (xmrmaker.checkClaimedLog claimedTopic log0 contractAddr contractSwapID secret).
    + split; [discriminate|]. intros [_ (l & r & H & Ha & Ht)].
      inversion H; subst l r. assert (Some e = None) by (apply Hc; split; assumption).
      discriminate.
    + split; [|reflexivity]. intros _. split; [exact Es|].
      exists log0, rest. split; [reflexivity|]. apply Hc. reflexivity.
  - intros log0 rest Hs Hl Ha Hn.
    apply N.eqb_eq in Hs. rewrite Hs, Hl. simpl.
    unfold xmrmaker.checkClaimedLog.
    apply bytes_eqb_eq in Ha. rewrite Ha. simpl.
    apply Nat.eqb_neq in Hn. rewrite Hn. reflexivity.
Qed.

End ClaimReceipt.

(** A prompt node and a receipt whose first log has the three expected
    topics: the claim is validated. *)
Lemma waitForClaimReceipt_validation_witness :
  xmrmaker.waitForClaimReceipt samples.claimedTopic
    (samples.client_prompt [samples.claimedTopic; samples.swap_id; samples.secret])
    samples.factory samples.swap_id samples.secret = Some None.
Proof.
  apply (proj1 (waitForClaimReceipt_validation samples.claimedTopic
                  (samples.client_prompt [samples.claimedTopic; samples.swap_id; samples.secret])
                  (samples.receipt_with [samples.claimedTopic; samples.swap_id; samples.secret])
                  samples.factory samples.swap_id samples.secret eq_refl eq_refl)).
  split; [reflexivity|].
  exists (samples.claimed_log [samples.claimedTopic; samples.swap_id; samples.secret]), [].
  repeat split.
Defined.

(** Receipts whose [Claimed] log has 2 and 4 topics are rejected. *)
Example Claimed_log_with_2_or_4_topics :
  xmrmaker.waitForClaimReceipt samples.claimedTopic
    (samples.client_prompt [samples.claimedTopic; samples.swap_id])
    samples.factory samples.swap_id samples.secret
  = Some (Some (Wrap "relayer's claim had logs error" errClaimedLogWrongTopicLength)) /\
  xmrmaker.waitForClaimReceipt samples.claimedTopic
    (samples.client_prompt [samples.claimedTopic; samples.swap_id; samples.secret; samples.secret])
    samples.factory samples.swap_id samples.secret
  = Some (Some (Wrap "relayer's claim had logs error" errClaimedLogWrongTopicLength)).
Proof. split; reflexivity. Qed.

(** The polling loop returns the first [NotFound] answer as its error:
    the count it compares with [maxNotFound] starts at 0 and is only
    incremented in the branch that requires it to have reached 10. *)
Lemma wait_for_inclusion_first_NotFound (p : xmrmaker.Poll) (rest : list xmrmaker.Poll)
      (err : error) (n : Z) :
  xmrmaker.sleep p = None ->
  xmrmaker.TransactionByHash p = Err err ->
  (n < xmrmaker.maxNotFound)%Z ->
  xmrmaker.wait_for_inclusion (p :: rest) n = xmrmaker.Returned err.
Proof.
  intros Hs Ht Hn. simpl. rewrite Hs, Ht.
  assert (E : (n >=? xmrmaker.maxNotFound)%Z = false).
  { rewrite Z.geb_leb. apply Z.leb_gt. exact Hn. }
  rewrite E, andb_false_r. reflexivity.
Qed.

(** C1, on the code.  The node answers [NotFound] once and then reports
    the transaction as mined, with a valid receipt: [waitForClaimReceipt]
    returns the [NotFound] error after the first answer, although one
    [NotFound] is within the 10 to be tolerated; the same node without
    the [NotFound] answer is accepted. *)
Theorem waitForClaimReceipt_NotFound_once :
  xmrmaker.waitForClaimReceipt samples.claimedTopic samples.client_not_found_once
    samples.factory samples.swap_id samples.secret = Some (Some ethereum_NotFound) /\
  xmrmaker.waitForClaimReceipt samples.claimedTopic
    (xmrmaker.mkClient (tl (xmrmaker.polls samples.client_not_found_once))
       (xmrmaker.TransactionReceipt samples.client_not_found_once)
       (xmrmaker.ErrorFromBlock samples.client_not_found_once))
    samples.factory samples.swap_id samples.secret = Some None.
Proof. split; reflexivity. Qed.

(** ** C7 *)

Lemma Status_eqb_eq (a b : xmrmaker.Status) : xmrmaker.Status_eqb a b = true <-> a = b.
Proof. destruct a, b; simpl; split; intros H; try reflexivity; discriminate. Qed.

Section Recovery.

Variables readyTopic refundedTopic : types.Hash.
Variable nextExpectedEventFromStatus : xmrmaker.Status -> xmrmaker.EventType.
Variable PublicKeyPair_of : xmrmaker.PrivateKeyPair -> xmrmaker.PublicKeyPair.

Local Abbreviation newSwapState :=
  (xmrmaker.newSwapState readyTopic refundedTopic nextExpectedEventFromStatus).
Local Abbreviation newSwapStateFromOngoing :=
  (xmrmaker.newSwapStateFromOngoing readyTopic refundedTopic
     nextExpectedEventFromStatus PublicKeyPair_of).

Lemma rpc_not_stage {A : Type} (r : vjson.decoded A) :
  xmrmaker.rpc r <> Err errInvalidStageForRecovery.
Proof. destruct r; discriminate. Qed.

Lemma newSwapState_not_stage b offer offerExtra n m info :
  newSwapState b offer offerExtra n m info <> Err errInvalidStageForRecovery.
Proof.
  unfold xmrmaker.newSwapState, bind, check.
  destruct (negb _).
  - destruct (xmrmaker.NewIERC20 b (types.EthAsset_ offer)); simpl; [discriminate|].
    destruct (xmrmaker.NewTxSender b (types.EthAsset_ offer) (Some a)); simpl; [discriminate|].
    destruct (xmrmaker.EventFilter_Start b readyTopic); simpl; [discriminate|].
    destruct (xmrmaker.EventFilter_Start b refundedTopic); simpl; discriminate.
  - destruct (xmrmaker.NewTxSender b (types.EthAsset_ offer) None); simpl; [discriminate|].
    destruct (xmrmaker.EventFilter_Start b readyTopic); simpl; [discriminate|].
    destruct (xmrmaker.EventFilter_Start b refundedTopic); simpl; discriminate.
Qed.

Lemma setContract_not_stage address s :
  xmrmaker.setContract address s <> Err errInvalidStageForRecovery.
Proof.
  unfold xmrmaker.setContract, bind.
  destruct (xmrmaker.NewSwapFactory _ address); simpl; discriminate.
Qed.

Lemma setContract_keeps address s s' :
  xmrmaker.setContract address s = Ok s' ->
  xmrmaker.info s' = xmrmaker.info s /\
  xmrmaker.nextExpectedEvent s' = xmrmaker.nextExpectedEvent s /\
  xmrmaker.contractAddr s' = address.
Proof.
  unfold xmrmaker.setContract, bind.
  destruct (xmrmaker.NewSwapFactory _ address); simpl; [discriminate|].
  intros H. inversion H. repeat split.
Qed.

Lemma newSwapState_fields b offer offerExtra n m info s :
  newSwapState b offer offerExtra n m info = Ok s ->
  xmrmaker.info s = info /\
  xmrmaker.nextExpectedEvent s = nextExpectedEventFromStatus (xmrmaker.Status_ info) /\
  xmrmaker.dleqProof s = None.
Proof.
  unfold xmrmaker.newSwapState, bind, check.
  destruct (if negb _ then _ else _) as [snd|e]; [|discriminate].
  destruct (xmrmaker.EventFilter_Start b readyTopic); simpl; [discriminate|].
  destruct (xmrmaker.EventFilter_Start b refundedTopic); simpl; [discriminate|].
  intros H. inversion H. repeat split.
Qed.

(** C7, amended.  [newSwapStateFromOngoing] fails with the invalid-stage
    error exactly when the persisted status is not [XMRLocked]: for every
    earlier status and also for [ContractReady] and the terminal ones.
    With the status [XMRLocked], and the backend calls of [newSwapState]
    and [setContract] succeeding, it builds the resumed state: the given
    key pair, the persisted contract swap, its ID, address and timeouts,
    the status still [XMRLocked] and no DLEq proof. *)
Theorem newSwapStateFromOngoing_stage (b : xmrmaker.Backend) (offer : types.Offer)
        (offerExtra : xmrmaker.OfferExtra) (ethSwapInfo : xmrmaker.EthereumSwapInfo)
        (info : xmrmaker.Info) (sk : xmrmaker.PrivateKeyPair) :
  let r := newSwapStateFromOngoing b offer offerExtra ethSwapInfo info sk in
  (r = Err errInvalidStageForRecovery <-> xmrmaker.Status_ info <> xmrmaker.XMRLocked) /\
  (forall s0 s1 swap,
     xmrmaker.Status_ info = xmrmaker.XMRLocked ->
     newSwapState b offer offerExtra (xmrmaker.StartNumber ethSwapInfo)
                  (xmrmaker.MoneroStartHeight info) info = Ok s0 ->
     xmrmaker.setContract (xmrmaker.ContractAddress ethSwapInfo) s0 = Ok s1 ->
     xmrmaker.Swap ethSwapInfo = Some swap ->
     exists s,
       r = Ok s /\
       xmrmaker.privkeys s = Some sk /\
       xmrmaker.pubkeys s = Some (PublicKeyPair_of sk) /\
       xmrmaker.dleqProof s = None /\
       xmrmaker.contractSwap s = Some swap /\
       xmrmaker.contractSwapID s = xmrmaker.SwapID ethSwapInfo /\
       xmrmaker.contractAddr s = xmrmaker.ContractAddress ethSwapInfo /\
       xmrmaker.t0 s = contracts.Timeout0 swap /\
       xmrmaker.t1 s = contracts.Timeout1 swap /\
       xmrmaker.Status_ (xmrmaker.info s) = xmrmaker.XMRLocked /\
       xmrmaker.nextExpectedEvent s = nextExpectedEventFromStatus xmrmaker.XMRLocked).
Proof.
  intros r. subst r. unfold xmrmaker.newSwapStateFromOngoing.
  split.
  - destruct (xmrmaker.Status_eqb (xmrmaker.Status_ info) xmrmaker.XMRLocked) eqn:Es; simpl.
    + apply Status_eqb_eq in Es. split; [|intros H; contradiction].
      intros H. exfalso. revert H. unfold bind.
      pose proof (newSwapState_not_stage b offer offerExtra
                    (xmrmaker.StartNumber ethSwapInfo)
                    (xmrmaker.MoneroStartHeight info) info) as H0.
      destruct (newSwapState _ _ _ _ _ _) as [s0|e0]; [|exact H0].
      pose proof (setContract_not_stage (xmrmaker.ContractAddress ethSwapInfo) s0) as H1.
      destruct (xmrmaker.setContract _ s0) as [s1|e1]; [|exact H1].
      destruct (xmrmaker.Swap ethSwapInfo); discriminate.
    + split; [|reflexivity]. intros _ E. apply Status_eqb_eq in E. congruence.
  - intros s0 s1 swap Hst H0 H1 Hsw.
    apply Status_eqb_eq in Hst as Hb. rewrite Hb. simpl.
    rewrite H0. simpl. rewrite H1. simpl. rewrite Hsw.
    eexists. split; [reflexivity|].
    destruct (newSwapState_fields _ _ _ _ _ _ _ H0) as (Hi & Hn & Hd).
    destruct (setContract_keeps _ _ _ H1) as (Hi' & Hn' & Ha).
    assert (Hd' : xmrmaker.dleqProof s1 = None).
    { revert H1. unfold xmrmaker.setContract, bind.
      destruct (xmrmaker.NewSwapFactory _ _); simpl; [discriminate|].
      intros H. inversion H. exact Hd. }
    cbn. rewrite Hi', Hn', Hi, Hn, Hst. repeat split; assumption.
Qed.

End Recovery.

(** The swap persisted at [XMRLocked] is resumed on a backend whose calls
    all succeed. *)
Lemma newSwapStateFromOngoing_stage_witness :
  exists s, samples.resume xmrmaker.XMRLocked = Ok s /\
            xmrmaker.privkeys s = Some samples.keys.
Proof.
  destruct (proj2 (newSwapStateFromOngoing_stage samples.readyTopic samples.refundedTopic
                     samples.next_event samples.public_half samples.backend
                     samples.good_offer samples.extra samples.eth_swap_info
                     (samples.info xmrmaker.XMRLocked) samples.keys)
                  _ _ samples.eth_swap eq_refl eq_refl eq_refl eq_refl)
    as (s & Hr & Hk & _).
  exists s. split; assumption.
Defined.

(** C7 as stated fails: [ContractReady] is a non-terminal status later
    than [XMRLocked], and on a backend on which the resumption from
    [XMRLocked] succeeds the constructor rejects it with the invalid-stage
    error. *)
Lemma newSwapStateFromOngoing_counterexample :
  xmrmaker.stage xmrmaker.XMRLocked <= xmrmaker.stage xmrmaker.ContractReady /\
  xmrmaker.terminal xmrmaker.ContractReady = false /\
  is_ok (samples.resume xmrmaker.XMRLocked) = true /\
  samples.resume xmrmaker.ContractReady = Err errInvalidStageForRecovery.
Proof. repeat split. simpl. lia. Qed.

(** ** C8 *)

Section ExitProperties.

Context {W : Type} {col : xmrmaker.Collaborators W}.


Lemma exit_deferred_protocol (s : xmrmaker.swapState) (w : W) :
  xmrmaker.same_protocol_state s (fst (xmrmaker.exit_deferred s w)).
Proof.
  unfold xmrmaker.exit_deferred.
  destruct (xmrmaker.CompleteOngoingSwap (xmrmaker.info s) w) as [w1 [e|]]; simpl.
  - left. reflexivity.
  - right. reflexivity.
Qed.

Lemma same_protocol_state_fields (s s' : xmrmaker.swapState) :
  xmrmaker.same_protocol_state s s' ->
  xmrmaker.info s' = xmrmaker.info s /\
  xmrmaker.nextExpectedEvent s' = xmrmaker.nextExpectedEvent s.
Proof. intros [->| ->]; split; reflexivity. Qed.

Lemma clearNextExpectedEvent_fields (st : xmrmaker.Status) (s : xmrmaker.swapState) :
  xmrmaker.Status_ (xmrmaker.info (xmrmaker.clearNextExpectedEvent st s)) = st /\
  xmrmaker.nextExpectedEvent (xmrmaker.clearNextExpectedEvent st s) = xmrmaker.EventNoneType.
Proof.
  unfold xmrmaker.clearNextExpectedEvent.
  destruct (xmrmaker.StatusCh _); split; reflexivity.
Qed.

Lemma returning_shape (err : option error) (s : xmrmaker.swapState) (w : W) :
  exists s' w', xmrmaker.returning (err, s, w) = (err, s', w') /\ xmrmaker.same_protocol_state s s'.
Proof.
  unfold xmrmaker.returning.
  pose proof (exit_deferred_protocol s w) as H.
  destruct (xmrmaker.exit_deferred s w) as [s' w']. simpl in H.
  exists s', w'. split; [reflexivity|exact H].
Qed.

(** C8.  On [exit]: if [nextExpectedEvent] is [ETHLocked], the swap's
    status becomes [CompletedAbort] and [exit] returns no error; if it
    is [None], [exit] returns no error and the protocol state is as
    before (only the cleanup's cancel and done marks may differ); for
    any [nextExpectedEvent] other than [ETHLocked], [ContractReady] and
    [None], the status becomes [CompletedAbort] and [exit] returns the
    unexpected-event error. *)
Theorem exit_spec (s : xmrmaker.swapState) (w : W) :
  (xmrmaker.nextExpectedEvent s = xmrmaker.EventETHLockedType ->
   exists s' w',
     xmrmaker.exit s w = Some (None, s', w') /\
     xmrmaker.Status_ (xmrmaker.info s') = xmrmaker.CompletedAbort) /\
  (xmrmaker.nextExpectedEvent s = xmrmaker.EventNoneType ->
   exists s' w',
     xmrmaker.exit s w = Some (None, s', w') /\
     xmrmaker.same_protocol_state s s') /\
  (xmrmaker.nextExpectedEvent s <> xmrmaker.EventETHLockedType ->
   xmrmaker.nextExpectedEvent s <> xmrmaker.EventContractReadyType ->
   xmrmaker.nextExpectedEvent s <> xmrmaker.EventNoneType ->
   exists s' w',
     xmrmaker.exit s w = Some (Some errUnexpectedMessageType, s', w') /\
     xmrmaker.Status_ (xmrmaker.info s') = xmrmaker.CompletedAbort).
Proof.
  assert (Habort : forall err,
    exists s' w',
      Some (xmrmaker.returning
              (err, xmrmaker.clearNextExpectedEvent xmrmaker.CompletedAbort s, w))
      = Some (err, s', w') /\
      xmrmaker.Status_ (xmrmaker.info s') = xmrmaker.CompletedAbort).
  { intros err.
    destruct (returning_shape err
                (xmrmaker.clearNextExpectedEvent xmrmaker.CompletedAbort s) w)
      as (s' & w' & Hr & Hp).
    exists s', w'. rewrite Hr. split; [reflexivity|].
    apply same_protocol_state_fields in Hp as [Hi _]. rewrite Hi.
    apply clearNextExpectedEvent_fields. }
  unfold xmrmaker.exit. split; [|split].
  - intros ->. apply Habort.
  - intros ->. destruct (returning_shape None s w) as (s' & w' & Hr & Hp).
    exists s', w'. rewrite Hr. split; [reflexivity|exact Hp].
  - intros H1 H2 H3.
    destruct (xmrmaker.nextExpectedEvent s); try contradiction; apply Habort.
Qed.

End ExitProperties.

(** The resumed sample swap leaving while it expects the ETH lock, while
    it expects nothing, and while it expects a refund event. *)
Lemma exit_spec_witness :
  (exists s' w',
     xmrmaker.exit (col := samples.journal)
       (samples.expecting xmrmaker.EventETHLockedType) [] = Some (None, s', w') /\
     xmrmaker.Status_ (xmrmaker.info s') = xmrmaker.CompletedAbort) /\
  (exists s' w',
     xmrmaker.exit (col := samples.journal)
       (samples.expecting xmrmaker.EventNoneType) [] = Some (None, s', w') /\
     xmrmaker.same_protocol_state (samples.expecting xmrmaker.EventNoneType) s') /\
  (exists s' w',
     xmrmaker.exit (col := samples.journal)
       (samples.expecting xmrmaker.EventETHRefundedType) []
     = Some (Some errUnexpectedMessageType, s', w') /\
     xmrmaker.Status_ (xmrmaker.info s') = xmrmaker.CompletedAbort).
Proof.
  split; [|split].
  - apply (proj1 (exit_spec (col := samples.journal)
                    (samples.expecting xmrmaker.EventETHLockedType) [])).
    reflexivity.
  - apply (proj1 (proj2 (exit_spec (col := samples.journal)
                           (samples.expecting xmrmaker.EventNoneType) []))).
    reflexivity.
  - apply (proj2 (proj2 (exit_spec (col := samples.journal)
                           (samples.expecting xmrmaker.EventETHRefundedType) [])));
      discriminate.
Defined.

(** ** Offers: C9 and C2 *)

Section OfferProperties.

Context {ext : types.Externals}.


Lemma Offer_violations_required (o : types.Offer) (f t : string) :
  In (f, t) (types.Offer_violations o) -> t = "required" /\ In f types.required_fields.
Proof.
  unfold types.Offer_violations, vjson.required_bytes, vjson.required_string,
    vjson.required_ptr, vjson.required_uint, types.required_fields.
  intros H. repeat (apply in_app_or in H as [H|H]);
    repeat match type of H with
           | In _ (if ?c then _ else _) => destruct c
           | In _ (match ?c with Some _ => _ | None => _ end) => destruct c
           end;
    simpl in H; try contradiction;
    destruct H as [H|[]]; inversion H; subst; simpl; tauto.
Qed.

Lemma Offer_no_violations (o : types.Offer) :
  types.Offer_violations o = [] ->
  types.IsHashZero (types.ID o) = false /\
  types.Provides o <> "" /\
  types.Nonce o <> 0%N /\
  exists mn mx r,
    types.MinAmount o = Some mn /\ types.MaxAmount o = Some mx /\
    types.ExchangeRate_ o = Some r.
Proof.
  unfold types.Offer_violations, vjson.required_bytes, vjson.required_string,
    vjson.required_ptr, vjson.required_uint, types.IsHashZero.
  destruct (bytes_eqb (types.ID o) types.EmptyHash); [discriminate|].
  destruct (String.eqb (types.Provides o) "") eqn:Ep; [discriminate|].
  destruct (types.MinAmount o) as [mn|]; [|discriminate].
  destruct (types.MaxAmount o) as [mx|]; [|discriminate].
  destruct (types.ExchangeRate_ o) as [r|]; [|discriminate].
  destruct (types.Nonce o =? 0)%N eqn:En; [discriminate|].
  intros _. split; [reflexivity|]. split; [apply String.eqb_neq; exact Ep|].
  split; [apply N.eqb_neq; exact En|]. exists mn, mx, r. repeat split.
Qed.

(** Outcomes of [Offer.validate] on an offer whose required fields are
    all set. *)
Lemma validate_cases (o : types.Offer) (mn mx : apd.Decimal) (r : types.ExchangeRate) :
  types.IsHashZero (types.ID o) = false ->
  types.MinAmount o = Some mn -> types.MaxAmount o = Some mx ->
  types.ExchangeRate_ o = Some r ->
  (types.validate o = None /\
   types.ValidatePositive "minAmount" (Some mn) = None /\
   types.ValidatePositive "maxAmount" (Some mx) = None /\
   (apd.Cmp mn mx <= 0)%Z /\
   types.hash o = Ok (types.ID o)) \/
  (exists msg, types.validate o = Some (ErrCoins msg)) \/
  types.validate o = Some errMinGreaterThanMax \/
  types.validate o = Some ErrOfferHashMismatch.
Proof.
  intros Hz Hmn Hmx Hr. unfold types.validate. rewrite Hz, Hmn, Hmx, Hr.
  destruct (types.ValidatePositive "minAmount" (Some mn)) as [e|] eqn:E1.
  { right; left. unfold types.ValidatePositive in E1.
    destruct (types.coins_ValidatePositive _ _ _) as [msg|]; [|discriminate].
    inversion E1. exists msg. reflexivity. }
  destruct (types.ValidatePositive "maxAmount" (Some mx)) as [e|] eqn:E2.
  { right; left. unfold types.ValidatePositive in E2.
    destruct (types.coins_ValidatePositive _ _ _) as [msg|]; [|discriminate].
    inversion E2. exists msg. reflexivity. }
  destruct (apd.Cmp mn mx >? 0)%Z eqn:Ec; [right; right; left; reflexivity|].
  unfold types.hash. rewrite Hmn, Hmx, Hr.
  match goal with
  | |- context [bytes_eqb (types.ID o) ?h] => destruct (bytes_eqb (types.ID o) h) eqn:Eh
  end; simpl.
  - left. apply bytes_eqb_eq in Eh. repeat split.
    + rewrite Z.gtb_ltb in Ec. apply Z.ltb_ge in Ec. exact Ec.
    + rewrite <- Eh. reflexivity.
  - right; right; right. reflexivity.
Qed.

Lemma UnmarshalJSON_cases (data : list byte) :
  match types.json_Unmarshal__Offer data with
  | inl msg => types.UnmarshalJSON data = Err (ErrJSON msg)
  | inr o =>
      match types.Offer_violations o with
      | (f, t) :: _ => types.UnmarshalJSON data = Err (ErrFieldValidation f t)
      | [] =>
          match types.validate o with
          | Some e => types.UnmarshalJSON data = Err e
          | None => types.UnmarshalJSON data = Ok o
          end
      end
  end.
Proof.
  unfold types.UnmarshalJSON, vjson.UnmarshalStruct, vjson.validate_Struct, bind, check.
  destruct (types.json_Unmarshal__Offer data) as [msg|o]; simpl; [reflexivity|].
  destruct (types.Offer_violations o) as [|[f t] ?]; [|reflexivity].
  destruct (types.validate o); reflexivity.
Qed.

(** After a version that is accepted, [UnmarshalOffer] is
    [Offer.UnmarshalJSON]: the second validation of the tags repeats
    the first. *)
Lemma UnmarshalStruct_UnmarshalJSON (data : list byte) :
  vjson.UnmarshalStruct types.Offer_violations types.UnmarshalJSON data
  = types.UnmarshalJSON data.
Proof.
  pose proof (UnmarshalJSON_cases data) as H.
  unfold vjson.UnmarshalStruct, bind.
  destruct (types.json_Unmarshal__Offer data) as [msg|o]; [rewrite H; reflexivity|].
  destruct (types.Offer_violations o) as [|[f t] ?] eqn:Ev; [|rewrite H; reflexivity].
  destruct (types.validate o); rewrite H; [reflexivity|].
  unfold check, vjson.validate_Struct. rewrite Ev. reflexivity.
Qed.

Lemma UnmarshalOffer_accepted (data : list byte) (v : semver.Version) :
  types.json_Unmarshal_version data = inr (Some v) ->
  semver.GreaterThan types.semver_comparePrerelease v types.CurOfferVersion = false ->
  types.UnmarshalOffer data = types.UnmarshalJSON data.
Proof.
  intros Hv Hg. unfold types.UnmarshalOffer. rewrite Hv. simpl. rewrite Hg.
  rewrite UnmarshalStruct_UnmarshalJSON.
  destruct (types.UnmarshalJSON data); reflexivity.
Qed.

(** Failures of [Offer.UnmarshalJSON]. *)
Lemma UnmarshalJSON_failures (data : list byte) (e : error) :
  types.UnmarshalJSON data = Err e ->
  (exists msg, types.json_Unmarshal__Offer data = inl msg /\ e = ErrJSON msg) \/
  (exists o f, types.json_Unmarshal__Offer data = inr o /\
               e = ErrFieldValidation f "required" /\ In f types.required_fields) \/
  (exists o, types.json_Unmarshal__Offer data = inr o /\
             types.Offer_violations o = [] /\ types.validate o = Some e /\
             ((exists msg, e = ErrCoins msg) \/ e = errMinGreaterThanMax \/
              e = ErrOfferHashMismatch)).
Proof.
  pose proof (UnmarshalJSON_cases data) as H.
  destruct (types.json_Unmarshal__Offer data) as [msg|o].
  { rewrite H. intros E. inversion E. left. exists msg. split; reflexivity. }
  destruct (types.Offer_violations o) as [|[f t] rest] eqn:Ev.
  - destruct (types.validate o) as [e'|] eqn:Eval; rewrite H; [|discriminate].
    intros E. inversion E; subst e'. right; right. exists o.
    split; [reflexivity|]. split; [exact Ev|]. split; [exact Eval|].
    destruct (Offer_no_violations o Ev) as (Hz & _ & _ & mn & mx & r & Hmn & Hmx & Hr).
    destruct (validate_cases o mn mx r Hz Hmn Hmx Hr) as [[Hn _]|[[msg Hc]|[Hm|Hh]]].
    + congruence.
    + left. exists msg. congruence.
    + right; left. congruence.
    + right; right. congruence.
  - rewrite H. intros E. inversion E; subst e. right; left.
    destruct (Offer_violations_required o f t) as [-> Hf]; [rewrite Ev; left; reflexivity|].
    exists o, f. repeat split. exact Hf.
Qed.

(** "Strictly greater than the current version", read on the numbers:
    the pre-release ordering plays no part against 1.0.0. *)
Lemma GreaterThan_current (v : semver.Version) :
  semver.GreaterThan types.semver_comparePrerelease v types.CurOfferVersion = true <->
  (1 < semver.Major v \/
   (semver.Major v = 1 /\ (0 < semver.Minor v \/ 0 < semver.Patch v)))%N.
Proof.
  unfold semver.GreaterThan, semver.Compare, semver.compareSegment, types.CurOfferVersion.
  cbn [semver.Major semver.Minor semver.Patch semver.Pre].
  destruct (semver.Major v <? 1)%N eqn:E1.
  { apply N.ltb_lt in E1. simpl. split; [discriminate|]. lia. }
  apply N.ltb_ge in E1.
  destruct (1 <? semver.Major v)%N eqn:E2.
  { apply N.ltb_lt in E2. simpl. split; [intros _; left; exact E2|reflexivity]. }
  apply N.ltb_ge in E2. simpl.
  assert (Hm0 : (semver.Minor v <? 0)%N = false) by (apply N.ltb_ge; lia).
  assert (Hp0 : (semver.Patch v <? 0)%N = false) by (apply N.ltb_ge; lia).
  rewrite Hm0.
  destruct (0 <? semver.Minor v)%N eqn:E3.
  { apply N.ltb_lt in E3. simpl. split; [intros _; right; split; [lia|left; exact E3]|reflexivity]. }
  apply N.ltb_ge in E3. simpl. rewrite Hp0.
  destruct (0 <? semver.Patch v)%N eqn:E4.
  { apply N.ltb_lt in E4. simpl. split; [intros _; right; split; [lia|right; exact E4]|reflexivity]. }
  apply N.ltb_ge in E4. simpl.
  destruct (String.eqb (semver.Pre v) ""); simpl; split; try discriminate; lia.
Qed.

(** C9, amended.  For a JSON blob whose version [encoding/json] can
    read: [UnmarshalOffer] fails with the version-missing error when the
    version is absent; with a version present it fails with the
    version-unsupported error exactly when the version is strictly
    greater than the current 1.0.0 (the current version is accepted);
    and otherwise it fails only when the JSON decoding of the offer's
    fields fails, when one of the fields tagged required (ID, Provides,
    MinAmount, MaxAmount, ExchangeRate, Nonce) has its zero value -- an
    ID not set and a nil exchange rate are failures of this kind --, or
    when [Offer.validate] rejects the decoded offer for a non-positive or
    out-of-range amount, a minAmount greater than maxAmount, or an ID
    differing from the hash of the fields. *)
Theorem UnmarshalOffer_failures (jsonData : list byte) :
  (types.json_Unmarshal_version jsonData = inr None ->
   types.UnmarshalOffer jsonData = Err errOfferVersionMissing) /\
  (forall v, types.json_Unmarshal_version jsonData = inr (Some v) ->
     let newer :=
       (1 < semver.Major v \/
        (semver.Major v = 1 /\ (0 < semver.Minor v \/ 0 < semver.Patch v)))%N in
     (types.UnmarshalOffer jsonData = Err ErrOfferVersionUnsupported <-> newer) /\
     (v = types.CurOfferVersion -> ~ newer) /\
     (~ newer -> forall e, types.UnmarshalOffer jsonData = Err e ->
        (exists msg, types.json_Unmarshal__Offer jsonData = inl msg /\ e = ErrJSON msg) \/
        (exists o f, types.json_Unmarshal__Offer jsonData = inr o /\
                     e = ErrFieldValidation f "required" /\ In f types.required_fields) \/
        (exists o, types.json_Unmarshal__Offer jsonData = inr o /\
                   types.Offer_violations o = [] /\ types.validate o = Some e /\
                   ((exists msg, e = ErrCoins msg) \/ e = errMinGreaterThanMax \/
                    e = ErrOfferHashMismatch)))).
Proof.
  split.
  - intros Hv. unfold types.UnmarshalOffer. rewrite Hv. reflexivity.
  - intros v Hv newer. pose proof (GreaterThan_current v) as Hg. fold newer in Hg.
    destruct (semver.GreaterThan types.semver_comparePrerelease v types.CurOfferVersion) eqn:Eg.
    + assert (Hn : newer) by (apply Hg; reflexivity).
      split; [|split].
      * unfold types.UnmarshalOffer. rewrite Hv. simpl. rewrite Eg. tauto.
      * intros ->. subst newer. simpl. lia.
      * intros Hnn. contradiction.
    + assert (Hn : ~ newer) by (intros H; apply Hg in H; discriminate).
      rewrite (UnmarshalOffer_accepted jsonData v Hv Eg).
      split; [|split].
      * split; [|intros H; contradiction].
        intros E. apply UnmarshalJSON_failures in E.
        destruct E as [(msg & _ & E)|[(o & f & _ & E & _)|(o & _ & _ & _ & [[msg E]|[E|E]])]];
          discriminate.
      * intros ->. subst newer. simpl. lia.
      * intros _ e. apply UnmarshalJSON_failures.
Qed.

End OfferProperties.

(** The sample blobs: without a version, of version 2.0.0, and the good
    offer of the current version. *)
Lemma UnmarshalOffer_failures_witness :
  types.UnmarshalOffer (ext := samples.externals) samples.unversioned_blob
    = Err errOfferVersionMissing /\
  types.UnmarshalOffer (ext := samples.externals) samples.future_blob
    = Err ErrOfferVersionUnsupported /\
  types.UnmarshalOffer (ext := samples.externals) samples.good_blob
    <> Err ErrOfferVersionUnsupported.
Proof.
  split; [|split].
  - apply (proj1 (UnmarshalOffer_failures (ext := samples.externals) samples.unversioned_blob)).
    reflexivity.
  - apply (proj1 (proj2 (UnmarshalOffer_failures (ext := samples.externals) samples.future_blob)
                        samples.v2 eq_refl)).
    left. reflexivity.
  - intros H.
    apply (proj1 (proj2 (UnmarshalOffer_failures (ext := samples.externals) samples.good_blob)
                        samples.v1 eq_refl)) in H.
    simpl in H. lia.
Defined.

(** C9 as stated fails.  The blob of the offer with nonce 0 has the
    current version, and [Offer.validate] accepts the decoded offer: its ID
    is set, its amounts are positive and in range, minAmount is at most
    maxAmount, the exchange rate is set and the ID is the hash of the
    fields.  [UnmarshalOffer] fails all the same, on the required tag of
    the nonce; and on the blob whose nonce is a JSON string it fails with
    the decoder's error. *)
Lemma UnmarshalOffer_counterexample :
  types.json_Unmarshal_version (Externals := samples.externals) samples.nonce0_blob
    = inr (Some types.CurOfferVersion) /\
  types.json_Unmarshal__Offer (Externals := samples.externals) samples.nonce0_blob
    = inr samples.nonce0_offer /\
  types.validate (ext := samples.externals) samples.nonce0_offer = None /\
  types.UnmarshalOffer (ext := samples.externals) samples.nonce0_blob
    = Err (ErrFieldValidation "Nonce" "required") /\
  types.UnmarshalOffer (ext := samples.externals) samples.mistyped_blob
    = Err (ErrJSON "json: cannot unmarshal string into Go struct field _Offer.nonce of type uint64").
Proof. repeat split; vm_compute; reflexivity. Qed.

Section OfferRoundTrip.

Context {ext : types.Externals}.







End OfferRoundTrip.




(** * Further properties *)

(** ** HexToHash and encoding/hex *)

Lemma substring_all (t : string) : String.substring 0 (String.length t) t = t.
Proof. induction t as [|c t IH]; simpl; [reflexivity|]. f_equal. exact IH. Qed.

Lemma TrimPrefix_0x (t : string) : strings.TrimPrefix ("0x" ++ t) "0x" = t.
Proof.
  unfold strings.TrimPrefix, strings.HasPrefix. simpl.
  destruct t as [|c t]; simpl; [reflexivity|].
  f_equal. apply substring_all.
Qed.

Lemma TrimPrefix_none (t : string) :
  strings.HasPrefix t "0x" = false -> strings.TrimPrefix t "0x" = t.
Proof. unfold strings.TrimPrefix. intros ->. reflexivity. Qed.

(** The error of [hex.Decode]: the first character that is no hex digit,
    wherever it stands, and only then an odd length. *)
Lemma Decode_error (t : list byte) :
  snd (hex.Decode t) =
  match hexenc.first_invalid t with
  | Some c => Some (InvalidByteError c)
  | None => if Nat.odd (List.length t) then Some ErrLength else None
  end.
Proof.
  unfold hexenc.first_invalid.
  induction t as [|p|p q rest IH] using list_pair_ind.
  - reflexivity.
  - cbn [hex.Decode find]. rewrite fromHexChar_digit_value. unfold hex.is_digit.
    destruct (hex.digit_value p); reflexivity.
  - cbn [hex.Decode find]. rewrite !fromHexChar_digit_value. unfold hex.is_digit at 1 2.
    destruct (hex.digit_value p); cbn [negb]; [|reflexivity].
    destruct (hex.digit_value q); cbn [negb]; [|reflexivity].
    destruct (hex.Decode rest) as [out e]. cbn [fst snd] in IH |- *.
    rewrite IH. cbn [List.length]. rewrite Nat.odd_succ, Nat.even_succ. reflexivity.
Qed.

Lemma Decode_length (t : list byte) :
  snd (hex.Decode t) = None -> List.length (fst (hex.Decode t)) = List.length t / 2.
Proof.
  intros H. destruct (Decode_value t H) as [Hl _]. rewrite Hl.
  rewrite Nat.mul_comm, Nat.div_mul; [reflexivity|discriminate].
Qed.

Lemma HexToHash_with_prefix (t : string) :
  t <> "" -> strings.HasPrefix t "0x" = false ->
  types.HexToHash ("0x" ++ t) = types.HexToHash t.
Proof.
  intros Ht Hp. unfold types.HexToHash.
  rewrite TrimPrefix_0x, (TrimPrefix_none t Hp).
  destruct (String.eqb t "") eqn:Et; [apply String.eqb_eq in Et; contradiction|].
  reflexivity.
Qed.

Lemma HexToHash_error_of (s : string) :
  s <> "" ->
  snd (types.HexToHash s) =
    (let t := list_byte_of_string (strings.TrimPrefix s "0x") in
     match hexenc.first_invalid t with
     | Some c => Some (InvalidByteError c)
     | None =>
         if Nat.odd (List.length t) then Some ErrLength
         else if (List.length t =? 64)%nat then None
         else Some (ErrInvalidHashLen (List.length t / 2))
     end) /\
  (snd (types.HexToHash s) <> None -> fst (types.HexToHash s) = types.EmptyHash).
Proof.
  intros Hs. cbv zeta. set (t := list_byte_of_string (strings.TrimPrefix s "0x")).
  unfold types.HexToHash.
  destruct (String.eqb s "") eqn:Es; [apply String.eqb_eq in Es; contradiction|].
  unfold hex.DecodeString. fold t.
  pose proof (Decode_error t) as He. pose proof (Decode_length t) as Hl.
  pose proof (Decode_value t) as Hv.
  destruct (hex.Decode t) as [h err]. cbn [fst snd] in He, Hl, Hv.
  destruct err as [e|].
  - cbn [fst snd]. split; [|reflexivity].
    destruct (hexenc.first_invalid t); [exact He|].
    destruct (Nat.odd (List.length t)); [exact He|discriminate].
  - specialize (Hl eq_refl). destruct (Hv eq_refl) as [Hlen _].
    destruct (hexenc.first_invalid t); [discriminate|].
    destruct (Nat.odd (List.length t)); [discriminate|].
    replace (List.length types.EmptyHash) with 32 by reflexivity.
    destruct (List.length h =? 32)%nat eqn:E32; cbn [negb fst snd].
    + apply Nat.eqb_eq in E32.
      assert (E64 : (List.length t =? 64)%nat = true) by (apply Nat.eqb_eq; lia).
      rewrite E64. split; [reflexivity|]. intros H. contradiction.
    + apply Nat.eqb_neq in E32.
      assert (E64 : (List.length t =? 64)%nat = false) by (apply Nat.eqb_neq; lia).
      rewrite E64, Hl. split; reflexivity.
Qed.

(** X1.  The errors of [HexToHash] on a non-empty input, [t] being the
    input without an optional "0x": the first character of [t] that is
    no hex digit is reported as an invalid byte, wherever it stands;
    failing that an odd length is reported; failing that a decoded
    length other than 32 bytes is reported with that length; and with
    any error the hash returned is the zero hash. *)
Theorem HexToHash_errors (s : string) :
  s <> "" ->
  let t := list_byte_of_string (strings.TrimPrefix s "0x") in
  snd (types.HexToHash s) =
    match hexenc.first_invalid t with
    | Some c => Some (InvalidByteError c)
    | None =>
        if Nat.odd (List.length t) then Some ErrLength
        else if (List.length t =? 64)%nat then None
        else Some (ErrInvalidHashLen (List.length t / 2))
    end /\
  (snd (types.HexToHash s) <> None -> fst (types.HexToHash s) = types.EmptyHash).
Proof.
  intros Hs t. exact (HexToHash_error_of s Hs).
Qed.

Lemma HexToHash_errors_witness :
  snd (types.HexToHash "0x12zz") = Some (InvalidByteError "z"%byte) /\
  snd (types.HexToHash "abc") = Some ErrLength /\
  snd (types.HexToHash "0x") = Some (ErrInvalidHashLen 0).
Proof.
  split; [|split].
  - rewrite (proj1 (HexToHash_errors "0x12zz" ltac:(discriminate))). reflexivity.
  - rewrite (proj1 (HexToHash_errors "abc" ltac:(discriminate))). reflexivity.
  - rewrite (proj1 (HexToHash_errors "0x" ltac:(discriminate))). reflexivity.
Defined.

(** X2.  The "0x" prefix is optional and removed once: a non-empty input
    that does not start with "0x" gives the same result with the prefix
    in front of it, and an input with the prefix twice is rejected for
    its character "x". *)
Theorem HexToHash_prefix (t : string) :
  (t <> "" -> strings.HasPrefix t "0x" = false ->
   types.HexToHash ("0x" ++ t) = types.HexToHash t) /\
  snd (types.HexToHash ("0x0x" ++ t)) = Some (InvalidByteError "x"%byte).
Proof.
  split.
  - apply HexToHash_with_prefix.
  - rewrite (proj1 (HexToHash_error_of ("0x0x" ++ t) ltac:(discriminate))).
    change ("0x0x" ++ t) with ("0x" ++ ("0x" ++ t)). rewrite TrimPrefix_0x.
    reflexivity.
Qed.

Lemma HexToHash_prefix_witness :
  types.HexToHash ("0x" ++ "00ff") = types.HexToHash "00ff".
Proof.
  apply (proj1 (HexToHash_prefix "00ff")); [discriminate|reflexivity].
Defined.

Lemma Decode_Encode (h : list byte) : hex.Decode (hexenc.Encode h) = (h, None).
Proof.
  induction h as [|v h IH]; [reflexivity|].
  cbn [hexenc.Encode hex.Decode]. rewrite IH.
  destruct v; reflexivity.
Qed.

Lemma Encode_no_prefix (h : list byte) :
  strings.HasPrefix (hexenc.EncodeToString h) "0x" = false.
Proof.
  unfold hexenc.EncodeToString, strings.HasPrefix.
  destruct h as [|v h]; [reflexivity|].
  cbn [hexenc.Encode string_of_list_byte].
  destruct v; reflexivity.
Qed.

(** X3.  [HexToHash] inverts the lower-case hex encoding of a hash: for
    every 32-byte value, decoding its 64 hex characters, with or without
    "0x" in front, returns that value and no error. *)
Theorem HexToHash_EncodeToString (h : list byte) :
  List.length h = 32 ->
  types.HexToHash (hexenc.EncodeToString h) = (h, None) /\
  types.HexToHash ("0x" ++ hexenc.EncodeToString h) = (h, None).
Proof.
  intros Hl.
  assert (Hne : hexenc.EncodeToString h <> "").
  { destruct h; [discriminate|]. unfold hexenc.EncodeToString. simpl. discriminate. }
  assert (H : types.HexToHash (hexenc.EncodeToString h) = (h, None)).
  { unfold types.HexToHash.
    destruct (String.eqb _ "") eqn:E; [apply String.eqb_eq in E; contradiction|].
    rewrite (TrimPrefix_none _ (Encode_no_prefix h)).
    unfold hex.DecodeString, hexenc.EncodeToString.
    rewrite list_byte_of_string_of_list_byte, Decode_Encode.
    replace (List.length types.EmptyHash) with 32 by reflexivity.
    rewrite Hl. cbn [Nat.eqb negb].
    rewrite copy_same_length by (rewrite Hl; reflexivity). reflexivity. }
  split; [exact H|].
  rewrite (HexToHash_with_prefix _ Hne (Encode_no_prefix h)). exact H.
Qed.

Lemma HexToHash_EncodeToString_witness :
  types.HexToHash (hexenc.EncodeToString samples.swap_id) = (samples.swap_id, None).
Proof.
  apply (proj1 (HexToHash_EncodeToString samples.swap_id eq_refl)).
Defined.

(** ** Relayed claims: the log check and the polling loop *)

Section ClaimedLogErrors.

Variable claimedTopic : types.Hash.

(** X4.  [checkClaimedLog] makes its five checks in a fixed order and
    reports the first that fails: the contract address, then the number
    of topics, then the event topic, the swap ID and the secret.  Each
    error is returned exactly when the earlier checks pass and its own
    fails. *)
Theorem checkClaimedLog_errors (log : xmrmaker.Log) (contractAddr : contracts.Address)
        (contractSwapID secret : list byte) :
  let r := xmrmaker.checkClaimedLog claimedTopic log contractAddr contractSwapID secret in
  let ts := xmrmaker.Topics log in
  (r = Some errClaimedLogInvalidContractAddr <-> xmrmaker.LogAddress log <> contractAddr) /\
  (r = Some errClaimedLogWrongTopicLength <->
     xmrmaker.LogAddress log = contractAddr /\ List.length ts <> 3) /\
  (r = Some errClaimedLogWrongEvent <->
     xmrmaker.LogAddress log = contractAddr /\ List.length ts = 3 /\
     nth 0 ts [] <> claimedTopic) /\
  (r = Some errClaimedLogWrongSwapID <->
     xmrmaker.LogAddress log = contractAddr /\ List.length ts = 3 /\
     nth 0 ts [] = claimedTopic /\ nth 1 ts [] <> contractSwapID) /\
  (r = Some errClaimedLogWrongSecret <->
     xmrmaker.LogAddress log = contractAddr /\ List.length ts = 3 /\
     nth 0 ts [] = claimedTopic /\ nth 1 ts [] = contractSwapID /\
     nth 2 ts [] <> secret).
Proof.
  intros r ts. subst r ts. unfold xmrmaker.checkClaimedLog.
  destruct (bytes_eqb (xmrmaker.LogAddress log) contractAddr) eqn:Ea;
    [apply bytes_eqb_eq in Ea|apply bytes_eqb_neq in Ea]; cbn [negb].
  2:{ intuition (try discriminate; try congruence). }
  destruct (List.length (xmrmaker.Topics log) =? 3)%nat eqn:El;
    [apply Nat.eqb_eq in El|apply Nat.eqb_neq in El]; cbn [negb].
  2:{ intuition (try discriminate; try congruence). }
  destruct (bytes_eqb (nth 0 (xmrmaker.Topics log) []) claimedTopic) eqn:E0;
    [apply bytes_eqb_eq in E0|apply bytes_eqb_neq in E0]; cbn [negb].
  2:{ intuition (try discriminate; try congruence). }
  destruct (bytes_eqb (nth 1 (xmrmaker.Topics log) []) contractSwapID) eqn:E1;
    [apply bytes_eqb_eq in E1|apply bytes_eqb_neq in E1]; cbn [negb].
  2:{ intuition (try discriminate; try congruence). }
  destruct (bytes_eqb (nth 2 (xmrmaker.Topics log) []) secret) eqn:E2;
    [apply bytes_eqb_eq in E2|apply bytes_eqb_neq in E2]; cbn [negb];
    intuition (try discriminate; try congruence).
Qed.

End ClaimedLogErrors.

Lemma wait_for_inclusion_pending (pending rest : list xmrmaker.Poll) (n : Z) :
  forallb polling.still_pending pending = true ->
  xmrmaker.wait_for_inclusion (pending ++ rest) n = xmrmaker.wait_for_inclusion rest n.
Proof.
  induction pending as [|q pending IH]; intros H; [reflexivity|].
  cbn [forallb] in H. apply andb_true_iff in H as [Hq Hp].
  cbn [app xmrmaker.wait_for_inclusion].
  unfold polling.still_pending in Hq.
  destruct (xmrmaker.sleep q); [discriminate|].
  destruct (xmrmaker.TransactionByHash q) as [[|]|]; try discriminate.
  assert (E : (xmrmaker.since q >? xmrmaker.maxWait)%Z = false).
  { rewrite Z.gtb_ltb. apply Z.ltb_ge. apply Z.leb_le. exact Hq. }
  rewrite E. cbn [negb]. apply IH. exact Hp.
Qed.

(** X5.  The polling loop of [waitForClaimReceipt] ends at the first
    answer that is not "pending, within the minute", and reads no answer
    after it: a context error ends it with that error; an error of
    [TransactionByHash] ends it with that error, [NotFound] included; an
    answer after more than a minute ends it with the timeout error, even
    when it reports the transaction as mined; otherwise the transaction
    is included.  While every answer is "pending" the loop goes on. *)
Theorem wait_for_inclusion_decided (pending : list xmrmaker.Poll) (p : xmrmaker.Poll)
        (rest : list xmrmaker.Poll) :
  forallb polling.still_pending pending = true ->
  polling.still_pending p = false ->
  xmrmaker.wait_for_inclusion (pending ++ p :: rest) 0 =
    match xmrmaker.sleep p with
    | Some err => xmrmaker.Returned err
    | None =>
        match xmrmaker.TransactionByHash p with
        | Err err => xmrmaker.Returned err
        | Ok _ =>
            if (xmrmaker.since p >? xmrmaker.maxWait)%Z
            then xmrmaker.Returned errRelayedTransactionTimeout
            else xmrmaker.Included
        end
    end /\
  xmrmaker.wait_for_inclusion pending 0 = xmrmaker.Unanswered.
Proof.
  intros Hp Hq. split.
  - rewrite (wait_for_inclusion_pending pending (p :: rest) 0 Hp).
    cbn [xmrmaker.wait_for_inclusion]. unfold polling.still_pending in Hq.
    destruct (xmrmaker.sleep p); [reflexivity|].
    destruct (xmrmaker.TransactionByHash p) as [isPending|err].
    + destruct (xmrmaker.since p >? xmrmaker.maxWait)%Z eqn:E; [reflexivity|].
      destruct isPending; [|reflexivity].
      rewrite Z.gtb_ltb in E. apply Z.ltb_ge in E. apply Z.leb_le in E.
      rewrite E in Hq. discriminate.
    + rewrite andb_false_r. reflexivity.
  - rewrite <- (app_nil_r pending).
    rewrite (wait_for_inclusion_pending pending [] 0 Hp). reflexivity.
Qed.

(** Two pending answers, then the transaction reported as mined after 61
    seconds. *)
Lemma wait_for_inclusion_decided_witness :
  xmrmaker.wait_for_inclusion
    ([xmrmaker.mkPoll None (Ok true) (1 * samples.second);
      xmrmaker.mkPoll None (Ok true) (2 * samples.second)]
       ++ samples.found 61 :: [samples.found 62]) 0
  = xmrmaker.Returned errRelayedTransactionTimeout.
Proof.
  rewrite (proj1 (wait_for_inclusion_decided
                    [xmrmaker.mkPoll None (Ok true) (1 * samples.second);
                     xmrmaker.mkPoll None (Ok true) (2 * samples.second)]
                    (samples.found 61) [samples.found 62] eq_refl eq_refl)).
  reflexivity.
Defined.

(** ** Leaving a swap: the cleanup and the wait for the contract *)

Section ExitCleanup.

Context {W : Type} {col : xmrmaker.Collaborators W}.

Lemma clearNextExpectedEvent_keeps (st : xmrmaker.Status) (s : xmrmaker.swapState) :
  let s1 := xmrmaker.clearNextExpectedEvent st s in
  xmrmaker.cancelled s1 = xmrmaker.cancelled s /\
  xmrmaker.done s1 = xmrmaker.done s /\
  xmrmaker.offer s1 = xmrmaker.offer s /\
  xmrmaker.UseRelayer (xmrmaker.offerExtra s1) = xmrmaker.UseRelayer (xmrmaker.offerExtra s) /\
  xmrmaker.fundsLocked s1 = xmrmaker.fundsLocked s.
Proof.
  unfold xmrmaker.clearNextExpectedEvent.
  destruct (xmrmaker.StatusCh _); repeat split.
Qed.

(** The state with which [exit] reaches its deferred cleanup when it
    does not wait for an event. *)
Lemma exit_not_waiting (s : xmrmaker.swapState) (w : W) :
  xmrmaker.nextExpectedEvent s <> xmrmaker.EventContractReadyType ->
  exists err s1,
    xmrmaker.exit s w = Some (xmrmaker.returning (err, s1, w)) /\
    (s1 = s \/ s1 = xmrmaker.clearNextExpectedEvent xmrmaker.CompletedAbort s) /\
    (xmrmaker.nextExpectedEvent s <> xmrmaker.EventNoneType ->
     s1 = xmrmaker.clearNextExpectedEvent xmrmaker.CompletedAbort s).
Proof.
  intros H. unfold xmrmaker.exit.
  destruct (xmrmaker.nextExpectedEvent s); try contradiction;
    eexists; eexists; (split; [reflexivity|]); split; auto; intros Hn;
    try reflexivity; contradiction.
Qed.



(** X7.  A swap that [exit] aborts (it expected anything but the
    contract's readiness or nothing) is cleaned up in this order: the
    swap manager marks it completed, its offer, if set, is added back to
    the offer manager and never deleted from it, its recovery record is
    deleted, its context is cancelled and its done channel closed. *)
Theorem exit_abort_cleanup (s : xmrmaker.swapState) (w : W) :
  xmrmaker.nextExpectedEvent s <> xmrmaker.EventContractReadyType ->
  xmrmaker.nextExpectedEvent s <> xmrmaker.EventNoneType ->
  (forall i, snd (xmrmaker.CompleteOngoingSwap i w) = None) ->
  let s1 := xmrmaker.clearNextExpectedEvent xmrmaker.CompletedAbort s in
  let w1 := fst (xmrmaker.CompleteOngoingSwap (xmrmaker.info s1) w) in
  let w2 := if types.IsSet (xmrmaker.offer s)
            then fst (xmrmaker.AddOffer (xmrmaker.offer s)
                        (xmrmaker.UseRelayer (xmrmaker.offerExtra s)) w1)
            else w1 in
  exists err,
    xmrmaker.exit s w =
      Some (err, xmrmaker.set_done true (xmrmaker.set_cancelled true s1),
            fst (xmrmaker.RecoveryDB_DeleteSwap (types.ID (xmrmaker.offer s)) w2)).
Proof.
  intros Hn Hz Hok s1 w1 w2.
  destruct (exit_not_waiting s w Hn) as (err & s1' & He & _ & Hs1).
  specialize (Hs1 Hz). subst s1'. fold s1 in He.
  exists err. rewrite He. unfold xmrmaker.returning, xmrmaker.exit_deferred.
  specialize (Hok (xmrmaker.info s1)). subst w2 w1.
  destruct (xmrmaker.CompleteOngoingSwap (xmrmaker.info s1) w) as [w1 e].
  cbn [fst snd] in Hok |- *. subst e.
  pose proof (clearNextExpectedEvent_keeps xmrmaker.CompletedAbort s)
    as (_ & _ & Ho & Hu & _).
  pose proof (clearNextExpectedEvent_fields xmrmaker.CompletedAbort s) as [Hst _].
  fold s1 in Ho, Hu, Hst. rewrite Hst, Ho, Hu. cbn [xmrmaker.Status_eqb negb andb].
  destruct (types.IsSet (xmrmaker.offer s)); reflexivity.
Qed.

(** X8.  While it expects the contract's readiness, [exit] waits for the
    next event of the swap: with none on the channel it does not return;
    it takes exactly one event; for a refund or a readiness event it
    returns what the event's handler returns; any other event (an exit
    request, an ETH-locked notice) is taken off the channel and dropped:
    [exit] returns no error and the swap keeps its status and still
    expects the contract's readiness. *)
Theorem exit_waits_for_event (s : xmrmaker.swapState) (w : W) :
  xmrmaker.nextExpectedEvent s = xmrmaker.EventContractReadyType ->
  (xmrmaker.eventCh s = [] -> xmrmaker.exit s w = None) /\
  (forall rest, xmrmaker.eventCh s = xmrmaker.EventContractReady :: rest ->
     exists s' w',
       xmrmaker.exit s w =
         Some (fst (fst (xmrmaker.handleEventContractReady
                           (xmrmaker.set_eventCh rest s) w)), s', w')) /\
  (forall sk rest, xmrmaker.eventCh s = xmrmaker.EventETHRefunded sk :: rest ->
     exists s' w',
       xmrmaker.exit s w =
         Some (fst (fst (xmrmaker.handleEventETHRefunded sk
                           (xmrmaker.set_eventCh rest s) w)), s', w')) /\
  (forall e rest, xmrmaker.eventCh s = e :: rest ->
     e = xmrmaker.EventExit \/ (exists m, e = xmrmaker.EventETHLocked m) ->
     exists s' w',
       xmrmaker.exit s w = Some (None, s', w') /\
       xmrmaker.eventCh s' = rest /\
       xmrmaker.Status_ (xmrmaker.info s') = xmrmaker.Status_ (xmrmaker.info s) /\
       xmrmaker.nextExpectedEvent s' = xmrmaker.EventContractReadyType).
Proof.
  intros Hn. unfold xmrmaker.exit. rewrite Hn. repeat split.
  - intros ->. reflexivity.
  - intros rest ->.
    destruct (xmrmaker.handleEventContractReady (xmrmaker.set_eventCh rest s) w)
      as [[err s1] w1].
    destruct (returning_shape err s1 w1) as (s' & w' & Hr & _).
    exists s', w'. rewrite Hr. reflexivity.
  - intros sk rest ->.
    destruct (xmrmaker.handleEventETHRefunded sk (xmrmaker.set_eventCh rest s) w)
      as [[err s1] w1].
    destruct (returning_shape err s1 w1) as (s' & w' & Hr & _).
    exists s', w'. rewrite Hr. reflexivity.
  - intros e rest -> He.
    destruct (returning_shape None (xmrmaker.set_eventCh rest s) w) as (s' & w' & Hr & Hp).
    exists s', w'.
    assert (Hs : xmrmaker.eventCh s' = rest /\
                 xmrmaker.Status_ (xmrmaker.info s') = xmrmaker.Status_ (xmrmaker.info s) /\
                 xmrmaker.nextExpectedEvent s' = xmrmaker.EventContractReadyType).
    { destruct Hp as [->| ->]; cbn; rewrite Hn; repeat split. }
    destruct He as [->|[m ->]]; rewrite Hr; split; auto.
Qed.

End ExitCleanup.

(** The journal of an aborted sample swap. *)
Lemma exit_abort_cleanup_witness :
  exists err s',
    xmrmaker.exit (col := samples.journal)
      (samples.expecting xmrmaker.EventETHLockedType) []
    = Some (err, s', ["CompleteOngoingSwap"; "AddOffer"; "DeleteSwap"]).
Proof.
  destruct (exit_abort_cleanup (col := samples.journal)
              (samples.expecting xmrmaker.EventETHLockedType) [])
    as [err H]; try discriminate; [reflexivity|].
  exists err. eexists. rewrite H. reflexivity.
Defined.

(** ** Keys, locking and the start of a swap *)

(** X9.  On a swap state without keys, [generateAndSetKeys] installs the
    generated key pairs and DLEq proof, whether or not the write to the
    recovery database succeeds, and returns the error of that write;
    from then on [getSecret] is the secret of the DLEq proof, and every
    further call of [generateAndSetKeys] panics and changes nothing. *)
Theorem generateAndSetKeys_once (generated : vjson.decoded swap.KeysAndProof)
        (put : types.Hash -> list byte -> option string)
        (s : xmrmaker.swapState) (kp : swap.KeysAndProof) :
  xmrmaker.privkeys s = None ->
  generated = inr kp ->
  let r := swap.generateAndSetKeys generated put s in
  xmrmaker.privkeys (fst r) = Some (swap.PrivateKeyPair kp) /\
  xmrmaker.pubkeys (fst r) = Some (swap.PublicKeyPair kp) /\
  xmrmaker.getSecret (fst r) = Ok (xmrmaker.Proof_Secret (swap.DLEqProof kp)) /\
  snd r = option_map ErrRPC
            (put (xmrmaker.ID (xmrmaker.info s))
                 (xmrmaker.SpendKeyBytes (swap.PrivateKeyPair kp))) /\
  forall generated' put',
    swap.generateAndSetKeys generated' put' (fst r)
    = (fst r, Some (Panic "generateAndSetKeys should only be called once")).
Proof.
  intros Hk -> r.
  assert (Hr : r = (xmrmaker.set_pubkeys (Some (swap.PublicKeyPair kp))
                      (xmrmaker.set_privkeys (Some (swap.PrivateKeyPair kp))
                         (swap.set_secp256k1Pub (Some (swap.Secp256k1PublicKey kp))
                            (swap.set_dleqProof (Some (swap.DLEqProof kp)) s))),
                    option_map ErrRPC
                      (put (xmrmaker.ID (xmrmaker.info s))
                           (xmrmaker.SpendKeyBytes (swap.PrivateKeyPair kp))))).
  { subst r. unfold swap.generateAndSetKeys. rewrite Hk. reflexivity. }
  rewrite Hr. cbn [fst snd]. repeat split.
Qed.

(** X10.  [lockFunds] marks the funds as locked only when the wallet
    accepted a transfer of exactly the amount, from account 0, with
    [MinSpendConfirmations] confirmations, to the address of the summed
    keys; in every other case -- keys missing, balance query or transfer
    failing -- it returns an error and leaves the swap state as it
    was. *)
Theorem lockFunds_only_after_transfer (xmr : swap.XMRClient) (MinSpendConfirmations : N)
        (swapDestAddr : list byte -> list byte -> xmrmaker.PublicKeyPair -> string)
        (amount : N) (s : xmrmaker.swapState) :
  let r := swap.lockFunds xmr MinSpendConfirmations swapDestAddr amount s in
  (snd r = None ->
   fst r = swap.set_fundsLocked true s /\
   exists takerSpend takerView pubkeys receipt,
     xmrmaker.xmrtakerPublicSpendKey s = Some takerSpend /\
     xmrmaker.xmrtakerPrivateViewKey s = Some takerView /\
     xmrmaker.pubkeys s = Some pubkeys /\
     swap.Transfer xmr (swapDestAddr takerSpend takerView pubkeys) 0 amount
                   MinSpendConfirmations = inr receipt) /\
  (snd r <> None -> fst r = s).
Proof.
  intros r. subst r. unfold swap.lockFunds.
  destruct (xmrmaker.xmrtakerPublicSpendKey s) as [ts|];
    [|split; [discriminate|reflexivity]].
  destruct (xmrmaker.xmrtakerPrivateViewKey s) as [tv|];
    [|split; [discriminate|reflexivity]].
  destruct (xmrmaker.pubkeys s) as [pk|]; [|split; [discriminate|reflexivity]].
  destruct (swap.GetBalance xmr 0); [split; [discriminate|reflexivity]|].
  destruct (swap.Transfer xmr (swapDestAddr ts tv pk) 0 amount MinSpendConfirmations)
    as [msg|receipt] eqn:Et; [split; [discriminate|reflexivity]|].
  cbn [fst snd]. split; [|intros H; contradiction].
  intros _. split; [reflexivity|]. exists ts, tv, pk, receipt. repeat split. exact Et.
Qed.

Section StartOfSwap.

Variables readyTopic refundedTopic : types.Hash.
Variable nextExpectedEventFromStatus : xmrmaker.Status -> xmrmaker.EventType.
Variable MinSpendConfirmations : N.

(** X11.  A swap state that [newSwapStateFromStart] returns scans Monero
    from [MinSpendConfirmations] blocks below the wallet's height, or
    from the height itself when that is lower than
    [MinSpendConfirmations]: the subtraction never wraps.  The state has
    its keys and proof, its record is the one registered with the swap
    manager, with status [KeysExchanged], and that status is the last
    sent on the status channel, which exists even if the caller gave
    none. *)
Theorem newSwapStateFromStart_result (b : swap.StartBackend) (offer : types.Offer)
        (offerExtra : xmrmaker.OfferExtra) (providesAmount desiredAmount : apd.Decimal)
        (s : xmrmaker.swapState) :
  swap.newSwapStateFromStart readyTopic refundedTopic nextExpectedEventFromStatus
    MinSpendConfirmations b offer offerExtra providesAmount desiredAmount = Ok s ->
  exists height kp,
    swap.GetHeight b = inr height /\
    (xmrmaker.moneroStartHeight s <= height)%N /\
    ((MinSpendConfirmations <= height)%N ->
     (xmrmaker.moneroStartHeight s + MinSpendConfirmations)%N = height) /\
    ((height < MinSpendConfirmations)%N -> xmrmaker.moneroStartHeight s = height) /\
    xmrmaker.info s =
      swap.NewInfo b (types.ID offer) providesAmount desiredAmount
        (types.ExchangeRate_ offer) (types.EthAsset_ offer) xmrmaker.KeysExchanged
        (xmrmaker.moneroStartHeight s) /\
    swap.AddSwap b (xmrmaker.info s) = None /\
    swap.generateKeys b = inr kp /\
    xmrmaker.privkeys s = Some (swap.PrivateKeyPair kp) /\
    xmrmaker.dleqProof s = Some (swap.DLEqProof kp) /\
    xmrmaker.StatusCh (xmrmaker.offerExtra s) =
      Some (match xmrmaker.StatusCh offerExtra with
            | Some ch => ch
            | None => []
            end ++ [xmrmaker.KeysExchanged])%list.
Proof.
  unfold swap.newSwapStateFromStart, bind, check.
  set (extra := match xmrmaker.StatusCh offerExtra with
                | Some _ => offerExtra
                | None => _
                end).
  destruct (if xmrmaker.UseRelayer extra then _ else None); [discriminate|].
  destruct (swap.GetHeight b) as [msg|height]; [discriminate|]. cbn [xmrmaker.rpc].
  destruct (swap.HeaderByNumber b) as [msg|number]; [discriminate|]. cbn [xmrmaker.rpc].
  set (start := if (MinSpendConfirmations <=? height)%N then _ else _).
  set (info := swap.NewInfo b _ _ _ _ _ _ start).
  destruct (swap.AddSwap b info) eqn:Eadd; [discriminate|]. cbn [option_map].
  destruct (xmrmaker.newSwapState _ _ _ _ _ _ _ _ _) as [s0|e0] eqn:Enew; [|discriminate].
  assert (H0 : xmrmaker.privkeys s0 = None /\ xmrmaker.info s0 = info /\
               xmrmaker.moneroStartHeight s0 = start /\
               xmrmaker.offerExtra s0 = extra).
  { revert Enew. unfold xmrmaker.newSwapState, bind, check.
    destruct (if negb _ then _ else _); [|discriminate].
    destruct (xmrmaker.EventFilter_Start _ readyTopic); [discriminate|].
    destruct (xmrmaker.EventFilter_Start _ refundedTopic); [discriminate|].
    cbn [option_map]. intros H. inversion H. repeat split. }
  destruct H0 as (Hk & Hi & Hh & Hx).
  unfold swap.generateAndSetKeys. rewrite Hk. cbn [not_nil].
  destruct (swap.generateKeys b) as [msg|kp]; [discriminate|].
  destruct (swap.PutSwapPrivateKey b _ _); [discriminate|]. cbn [option_map].
  intros H. inversion H. clear H. exists height, kp. cbn.
  rewrite Hi, Hh, Hx.
  assert (Hstart : (start <= height)%N /\
                   ((MinSpendConfirmations <= height)%N ->
                    (start + MinSpendConfirmations)%N = height) /\
                   ((height < MinSpendConfirmations)%N -> start = height)).
  { subst start. destruct (MinSpendConfirmations <=? height)%N eqn:E.
    - apply N.leb_le in E. repeat split; lia.
    - apply N.leb_gt in E. repeat split; lia. }
  destruct Hstart as (Ha & Hb & Hc).
  repeat split; try assumption.
  subst extra. unfold swap.send.
  destruct (xmrmaker.StatusCh offerExtra) as [ch|] eqn:Ech.
  - rewrite Ech. reflexivity.
  - reflexivity.
Qed.

End StartOfSwap.

(** ** Claiming through relayers *)

Section RelayerFailover.

Variable claimedTopic : types.Hash.
Variable b : claim.Backend.




(** X13.  When the offer asks for a relayer, or the wallet holds no wei,
    [claimFunds] never claims directly: whatever [sender.Claim] would
    answer, its result is the same -- so a failure of the relayers is the
    failure of the claim, with no fall-back to a direct claim.  With
    neither, it never asks a relayer. *)
Theorem claimFunds_path (s : xmrmaker.swapState) (weiBalance : Z) :
  claim.Balance_before b = inr weiBalance ->
  (xmrmaker.UseRelayer (xmrmaker.offerExtra s) = true \/ weiBalance = 0%Z ->
   forall c, claim.claimFunds claimedTopic (claim.with_sender_Claim b c) s
             = claim.claimFunds claimedTopic b s) /\
  (xmrmaker.UseRelayer (xmrmaker.offerExtra s) = false -> weiBalance <> 0%Z ->
   forall relayers submit,
     claim.claimFunds claimedTopic
       (claim.mkBackend relayers (claim.TrustedForwarder b)
          (claim.CreateRelayClaimRequest b) submit (claim.ethclient b)
          (claim.ERC20Info b) (claim.Balance_before b) (claim.Balance_after b)
          (claim.ERC20Balance_before b) (claim.ERC20Balance_after b)
          (claim.sender_Claim b)) s
     = claim.claimFunds claimedTopic b s).
Proof.
  intros Hb. split.
  - intros Hrel c. unfold claim.claimFunds.
    cbn [claim.with_sender_Claim claim.ERC20Info claim.Balance_before
         claim.Balance_after claim.ERC20Balance_before claim.ERC20Balance_after].
    rewrite Hb.
    assert (E : xmrmaker.UseRelayer (xmrmaker.offerExtra s) || (weiBalance =? 0)%Z = true).
    { destruct Hrel as [->| ->]; [reflexivity|apply orb_true_r]. }
    rewrite E.
    assert (Hd : claim.discoverRelayersAndClaim claimedTopic (claim.with_sender_Claim b c) s
                 = claim.discoverRelayersAndClaim claimedTopic b s).
    { unfold claim.discoverRelayersAndClaim.
      cbn [claim.with_sender_Claim claim.DiscoverRelayers claim.TrustedForwarder
           claim.CreateRelayClaimRequest].
      destruct (claim.DiscoverRelayers b) as [|[|r rs]]; reflexivity. }
    rewrite Hd. reflexivity.
  - intros Hu Hw relayers submit. unfold claim.claimFunds.
    cbn [claim.ERC20Info claim.Balance_before claim.Balance_after
         claim.ERC20Balance_before claim.ERC20Balance_after claim.sender_Claim].
    rewrite Hb, Hu.
    assert (E : (weiBalance =? 0)%Z = false) by (apply Z.eqb_neq; exact Hw).
    rewrite E. reflexivity.
Qed.

(** X14.  A transaction hash that [claimFunds] returns is the hash of a
    claim that was sent -- by the relayers when the offer asks for a
    relayer or the wallet holds no wei, by [sender.Claim] otherwise --
    and it is returned only when the balance could be read after the
    claim: if that query fails, the claim that was sent is reported as
    failed and its hash is not returned. *)
Theorem claimFunds_success (s : xmrmaker.swapState) (h : types.Hash) :
  claim.claimFunds claimedTopic b s = Some (inl h) ->
  exists swap weiBalance after,
    xmrmaker.contractSwap s = Some swap /\
    claim.Balance_before b = inr weiBalance /\
    (if types.EthAsset_eqb (contracts.Asset swap) types.EthAssetETH
     then claim.Balance_after b
     else claim.ERC20Balance_after b (contracts.Asset swap)) = inr after /\
    (if xmrmaker.UseRelayer (xmrmaker.offerExtra s) || (weiBalance =? 0)%Z
     then claim.discoverRelayersAndClaim claimedTopic b s = Some (inl h)
     else exists sc, xmrmaker.getSecret s = Ok sc /\
                     claim.sender_Claim b (xmrmaker.contractSwap s) sc = inr h).
Proof.
  unfold claim.claimFunds, claim.failed.
  destruct (xmrmaker.contractSwap s) as [swap|] eqn:Esw; [|discriminate].
  cbv zeta.
  destruct (types.EthAsset_eqb (contracts.Asset swap) types.EthAssetETH) eqn:Eeth.
  - destruct (claim.Balance_before b) as [msg|weiBalance]; [discriminate|].
    destruct (xmrmaker.UseRelayer (xmrmaker.offerExtra s) || (weiBalance =? 0)%Z) eqn:Ep.
    + destruct (claim.discoverRelayersAndClaim claimedTopic b s) as [[h'|f]|];
        try discriminate.
      destruct (claim.Balance_after b) as [msg|after] eqn:Ea; [discriminate|].
      intros H. inversion H. subst h'. exists swap, weiBalance, after.
      rewrite Eeth, Ep. repeat split.
    + destruct (xmrmaker.getSecret s) as [sc|e]; [|discriminate].
      destruct (claim.sender_Claim b (Some swap) sc) as [msg|h'] eqn:Ec; [discriminate|].
      destruct (claim.Balance_after b) as [msg|after] eqn:Ea; [discriminate|].
      intros H. inversion H. subst h'. exists swap, weiBalance, after.
      rewrite Eeth, Ep. repeat split.
      exists sc. split; [reflexivity|exact Ec].
  - destruct (claim.ERC20Info b (contracts.Asset swap)); [discriminate|].
    destruct (claim.Balance_before b) as [msg|weiBalance]; [discriminate|].
    destruct (claim.ERC20Balance_before b (contracts.Asset swap)); [discriminate|].
    destruct (xmrmaker.UseRelayer (xmrmaker.offerExtra s) || (weiBalance =? 0)%Z) eqn:Ep.
    + destruct (claim.discoverRelayersAndClaim claimedTopic b s) as [[h'|f]|];
        try discriminate.
      destruct (claim.ERC20Balance_after b (contracts.Asset swap)) as [msg|after] eqn:Ea;
        [discriminate|].
      intros H. inversion H. subst h'. exists swap, weiBalance, after.
      rewrite Eeth, Ep. repeat split. exact Ea.
    + destruct (xmrmaker.getSecret s) as [sc|e]; [|discriminate].
      destruct (claim.sender_Claim b (Some swap) sc) as [msg|h'] eqn:Ec; [discriminate|].
      destruct (claim.ERC20Balance_after b (contracts.Asset swap)) as [msg|after] eqn:Ea;
        [discriminate|].
      intros H. inversion H. subst h'. exists swap, weiBalance, after.
      rewrite Eeth, Ep. repeat split; [exact Ea|].
      exists sc. split; [reflexivity|exact Ec].
Qed.

End RelayerFailover.

(** ** The message codec: encoding and what decoding guarantees *)

Section CodecRoundTrip.

Context {dec : message.Decoders} {enc : encode.Encoders}.

Lemma unmarshal_as_ok {A : Type} (tags : A -> list (string * string))
      (u : list byte -> vjson.decoded A) (wrap : A -> message.Message)
      (js : list byte) (m : message.Message) :
  message.unmarshal_as tags u wrap js = Ok m <->
  exists a, u js = inr a /\ tags a = [] /\ m = wrap a.
Proof.
  unfold message.unmarshal_as, vjson.UnmarshalStruct, vjson.validate_Struct, bind, check.
  destruct (u js) as [msg|a]; simpl.
  - split; [discriminate|]. intros (a & H & _). discriminate.
  - destruct (tags a) as [|[f t] rest] eqn:Et.
    + split.
      * intros H. inversion H. exists a. repeat split. exact Et.
      * intros (a' & H & _ & ->). inversion H. reflexivity.
    + split; [discriminate|]. intros (a' & H & Ht & _). inversion H. subst a'.
      rewrite Et in Ht. discriminate.
Qed.

Lemma decode_failure_ok (t : byte) (r : result message.Message) (m : message.Message) :
  message.decode_failure t r = Ok m <-> r = Ok m.
Proof. destruct r; simpl; split; intros H; try discriminate; exact H. Qed.

(** The messages [DecodeMessage] returns, by type byte. *)
Lemma DecodeMessage_ok (b : list byte) (m : message.Message) :
  message.DecodeMessage b = Ok m <->
  exists js,
    b = message.Type_ m :: js /\ 2 <= List.length js /\
    encode.json_Unmarshal_like m js = inr m /\ encode.violations m = [].
Proof.
  unfold message.DecodeMessage. split.
  - destruct (List.length b <? 3)%nat eqn:El; [discriminate|].
    apply Nat.ltb_ge in El. destruct b as [|t js]; [discriminate|].
    cbn [List.length] in El.
    destruct (Byte.eqb t message.QueryResponseType) eqn:E1.
    { apply Byte.byte_dec_bl in E1. subst t. intros H.
      apply decode_failure_ok, unmarshal_as_ok in H as (a & Hu & Ht & ->).
      exists js. cbn. rewrite Hu. repeat split; [lia|exact Ht]. }
    destruct (Byte.eqb t message.RelayClaimRequestType) eqn:E2.
    { apply Byte.byte_dec_bl in E2. subst t. intros H.
      apply decode_failure_ok, unmarshal_as_ok in H as (a & Hu & Ht & ->).
      exists js. cbn. rewrite Hu. repeat split; [lia|exact Ht]. }
    destruct (Byte.eqb t message.RelayClaimResponseType) eqn:E3.
    { apply Byte.byte_dec_bl in E3. subst t. intros H.
      apply decode_failure_ok, unmarshal_as_ok in H as (a & Hu & Ht & ->).
      exists js. cbn. rewrite Hu. repeat split; [lia|exact Ht]. }
    destruct (Byte.eqb t message.SendKeysType) eqn:E4.
    { apply Byte.byte_dec_bl in E4. subst t. intros H.
      apply decode_failure_ok, unmarshal_as_ok in H as (a & Hu & Ht & ->).
      exists js. cbn. rewrite Hu. repeat split; [lia|exact Ht]. }
    destruct (Byte.eqb t message.NotifyETHLockedType) eqn:E5.
    { apply Byte.byte_dec_bl in E5. subst t. intros H.
      apply decode_failure_ok, unmarshal_as_ok in H as (a & Hu & Ht & ->).
      exists js. cbn. rewrite Hu. repeat split; [lia|exact Ht]. }
    discriminate.
  - intros (js & -> & Hl & Hu & Ht).
    assert (El : (List.length (message.Type_ m :: js) <? 3)%nat = false).
    { apply Nat.ltb_ge. cbn [List.length]. lia. }
    rewrite El.
    destruct m as [q|q|q|q|q]; cbn in Hu, Ht |- *;
      apply decode_failure_ok, unmarshal_as_ok;
      match type of Hu with
      | match ?u with inl _ => _ | inr _ => _ end = _ =>
          destruct u as [msg|a] eqn:Eu; [discriminate|];
          inversion Hu; subst a; exists q; repeat split; assumption
      end.
Qed.

(** X15.  [DecodeMessage] inverts [Encode]: when [encoding/json] reads
    back the message it wrote, and the text has at least the two bytes
    of an empty object, decoding the bytes that [Encode] returns gives
    the message again; these bytes start with the type byte of the
    message, which is one of 1..5. *)
Theorem DecodeMessage_Encode (m : message.Message) (b data : list byte) :
  encode.Encode m = Ok b ->
  encode.json_Marshal m = inr data ->
  encode.json_Unmarshal_like m data = inr m ->
  2 <= List.length data ->
  b = message.Type_ m :: data /\
  In (message.Type_ m) [x01; x02; x03; x04; x05] /\
  message.DecodeMessage b = Ok m.
Proof.
  intros He Hm Hu Hl.
  assert (Hb : b = message.Type_ m :: data /\ encode.violations m = []).
  { revert He Hm. destruct m as [q|q|q|q|q];
      cbn [encode.Encode encode.json_Marshal encode.violations message.Type_];
      unfold encode.prepend, vjson.MarshalStruct, vjson.validate_Struct, bind, check;
      intros He Hm; rewrite Hm in He;
      match type of He with
      | context [match ?v with [] => _ | _ :: _ => _ end] =>
          destruct v as [|[f t] rest]; [|discriminate]
      end; simpl in He; inversion He; split; reflexivity. }
  destruct Hb as [-> Hv]. split; [reflexivity|]. split.
  - destruct m; simpl; tauto.
  - apply DecodeMessage_ok. exists data. repeat split; assumption.
Qed.

(** X16.  A message that [DecodeMessage] returns violates none of the
    tags of its struct.  In particular a relay claim request it returns
    names a swap factory, carries a swap, a secret of exactly 32 bytes
    and a signature of exactly 65 bytes, so that [validateClaimValues]
    does not panic on it. *)
Theorem DecodeMessage_validated (b : list byte) (m : message.Message) :
  message.DecodeMessage b = Ok m ->
  encode.violations m = [] /\
  forall req, m = message.MsgRelayClaimRequest req ->
    message.SwapFactoryAddress req <> message.zero_address /\
    (exists swap, message.Swap req = Some swap) /\
    List.length (message.Secret req) = 32 /\
    List.length (message.Signature req) = 65 /\
    forall FeeWei check ours,
      relayer.validateClaimValues FeeWei check req ours
      <> Some (Panic "nil pointer dereference").
Proof.
  intros H. apply DecodeMessage_ok in H as (js & _ & _ & _ & Hv).
  split; [exact Hv|]. intros req ->. cbn [encode.violations] in Hv.
  unfold message.RelayClaimRequest_violations in Hv.
  apply app_eq_nil in Hv as [Ha Hv]. apply app_eq_nil in Hv as [Hs Hv].
  apply app_eq_nil in Hv as [Hsec Hsig].
  assert (Hlen : forall name n v, vjson.required_len name n v = [] -> List.length v = n).
  { intros name n v. unfold vjson.required_len. destruct v as [|x v]; [discriminate|].
    destruct (List.length (x :: v) =? n)%nat eqn:E; [|discriminate].
    intros _. apply Nat.eqb_eq. exact E. }
  assert (Hswap : exists swap, message.Swap req = Some swap).
  { unfold vjson.required_ptr in Hs. destruct (message.Swap req) as [swap|]; [|discriminate].
    exists swap. reflexivity. }
  repeat split.
  - unfold vjson.required_bytes in Ha.
    destruct (bytes_eqb (message.SwapFactoryAddress req) message.zero_address) eqn:E;
      [discriminate|]. apply bytes_eqb_neq. exact E.
  - exact Hswap.
  - apply (Hlen _ _ _ Hsec).
  - apply (Hlen _ _ _ Hsig).
  - intros FeeWei check ours. destruct Hswap as [swap Hswap].
    unfold relayer.validateClaimValues. rewrite Hswap.
    destruct (if negb _ then _ else None) as [e|] eqn:Ec.
    + destruct (negb (bytes_eqb (message.SwapFactoryAddress req) ours)); [|discriminate].
      destruct (check (message.SwapFactoryAddress req)); inversion Ec. discriminate.
    + destruct (negb (types.EthAsset_eqb (contracts.Asset swap) types.EthAssetETH));
        [discriminate|].
      destruct (FeeWei >=? contracts.Value swap)%Z; discriminate.
Qed.

End CodecRoundTrip.

(** ** The relayer: what it signs and what it verifies *)

Section ForwardRequests.

Variables FeeWei relayedClaimGas : Z.
Variable CheckSwapFactoryContractCode : contracts.Address -> option string.
Variable ec : forwarder.Chain.

Local Abbreviation createForwarderRequest :=
  (forwarder.createForwarderRequest FeeWei relayedClaimGas ec).
Local Abbreviation validateClaimSignature :=
  (forwarder.validateClaimSignature FeeWei relayedClaimGas ec).

(** What an accepted signature was verified for. *)
Lemma validateClaimSignature_accepts (req : message.RelayClaimRequest) :
  validateClaimSignature req = None ->
  exists swapFactory forwarderAddr chainID fwd domainSeparator swap nonce calldata,
    forwarder.NewSwapFactory ec (message.SwapFactoryAddress req) = inr swapFactory /\
    forwarder.TrustedForwarder ec swapFactory = inr forwarderAddr /\
    forwarder.ChainID ec = inr chainID /\
    forwarder.NewForwarder ec forwarderAddr = inr fwd /\
    forwarder.GetEIP712DomainSeparator ec chainID forwarderAddr = inr domainSeparator /\
    message.Swap req = Some swap /\
    forwarder.GetNonce ec fwd (Some forwarder.caller) (contracts.Claimer swap) = inr nonce /\
    32 <= List.length (message.Secret req) /\
    forwarder.Pack_claimRelayer ec swap (firstn 32 (message.Secret req)) FeeWei
      = inr calldata /\
    forwarder.Verify ec fwd (Some forwarder.caller)
      (forwarder.mkForwardRequest (contracts.Claimer swap)
         (message.SwapFactoryAddress req) 0 relayedClaimGas nonce calldata 0)
      domainSeparator (message.Signature req) = None.
Proof.
  unfold forwarder.validateClaimSignature, forwarder.getForwarderAndDomainSeparator,
    forwarder.createForwarderRequest, forwarder.getClaimRelayerTxCalldata, bind.
  destruct (forwarder.NewSwapFactory ec _) as [msg|sf] eqn:E1; [discriminate|].
  cbn [xmrmaker.rpc].
  destruct (forwarder.TrustedForwarder ec sf) as [msg|fa] eqn:E2; [discriminate|].
  cbn [xmrmaker.rpc].
  destruct (forwarder.ChainID ec) as [msg|cid] eqn:E3; [discriminate|]. cbn [xmrmaker.rpc].
  destruct (forwarder.NewForwarder ec fa) as [msg|fwd] eqn:E4; [discriminate|].
  cbn [xmrmaker.rpc].
  destruct (forwarder.GetEIP712DomainSeparator ec cid fa) as [msg|ds] eqn:E5;
    [discriminate|].
  destruct (message.Swap req) as [swap|] eqn:E6; [|discriminate].
  destruct (forwarder.GetNonce ec fwd _ _) as [msg|nonce] eqn:E7; [discriminate|].
  cbn [xmrmaker.rpc].
  destruct (List.length (message.Secret req) <? 32)%nat eqn:El; [discriminate|].
  apply Nat.ltb_ge in El.
  destruct (forwarder.Pack_claimRelayer ec swap _ FeeWei) as [msg|calldata] eqn:E9;
    [discriminate|]. cbn [xmrmaker.rpc].
  destruct (forwarder.Verify ec fwd _ _ ds _) as [msg|] eqn:Ev; [discriminate|].
  intros _. exists sf, fa, cid, fwd, ds, swap, nonce, calldata.
  repeat split; assumption.
Qed.

(** X17.  A claim request that [validateClaimRequest] accepts is for
    native ETH, has a value strictly above [FeeWei], comes with a
    contract whose bytecode was checked unless it is the relayer's own,
    and carries a signature that the trusted forwarder of that contract
    verified for exactly this forward request: from the swap's claimer
    to the request's swap factory, value 0, the forwarder's current
    nonce of the claimer, and the [claimRelayer] call data of the swap,
    the first 32 bytes of the secret and the relayer's own [FeeWei]. *)
Theorem validateClaimRequest_accepts (req : message.RelayClaimRequest)
        (ours : contracts.Address) :
  forwarder.validateClaimRequest FeeWei relayedClaimGas CheckSwapFactoryContractCode
    ec req ours = None ->
  exists swap swapFactory forwarderAddr chainID fwd domainSeparator nonce calldata,
    message.Swap req = Some swap /\
    contracts.Asset swap = types.EthAssetETH /\
    (FeeWei < contracts.Value swap)%Z /\
    relayer.code_check_passes CheckSwapFactoryContractCode req ours /\
    forwarder.NewSwapFactory ec (message.SwapFactoryAddress req) = inr swapFactory /\
    forwarder.TrustedForwarder ec swapFactory = inr forwarderAddr /\
    forwarder.ChainID ec = inr chainID /\
    forwarder.NewForwarder ec forwarderAddr = inr fwd /\
    forwarder.GetEIP712DomainSeparator ec chainID forwarderAddr = inr domainSeparator /\
    forwarder.GetNonce ec fwd (Some forwarder.caller) (contracts.Claimer swap) = inr nonce /\
    forwarder.Pack_claimRelayer ec swap (firstn 32 (message.Secret req)) FeeWei
      = inr calldata /\
    forwarder.Verify ec fwd (Some forwarder.caller)
      (forwarder.mkForwardRequest (contracts.Claimer swap)
         (message.SwapFactoryAddress req) 0 relayedClaimGas nonce calldata 0)
      domainSeparator (message.Signature req) = None.
Proof.
  unfold forwarder.validateClaimRequest.
  destruct (relayer.validateClaimValues FeeWei CheckSwapFactoryContractCode req ours)
    as [e|] eqn:Ev; [discriminate|].
  intros Hs.
  destruct (validateClaimSignature_accepts req Hs)
    as (sf & fa & cid & fwd & ds & swap & nonce & calldata &
        H1 & H2 & H3 & H4 & H5 & H6 & H7 & _ & H9 & H10).
  exists swap, sf, fa, cid, fwd, ds, nonce, calldata.
  assert (Hvals : contracts.Asset swap = types.EthAssetETH /\
                  (FeeWei < contracts.Value swap)%Z /\
                  relayer.code_check_passes CheckSwapFactoryContractCode req ours).
  { revert Ev. unfold relayer.validateClaimValues, relayer.code_check_passes.
    rewrite H6.
    destruct (bytes_eqb (message.SwapFactoryAddress req) ours) eqn:Ea; cbn [negb].
    - apply bytes_eqb_eq in Ea.
      unfold types.EthAsset_eqb.
      destruct (bytes_eqb (contracts.Asset swap) types.EthAssetETH) eqn:Ee; cbn [negb];
        [|discriminate].
      destruct (FeeWei >=? contracts.Value swap)%Z eqn:Ef; [discriminate|].
      intros _. apply bytes_eqb_eq in Ee. rewrite Z.geb_leb in Ef. apply Z.leb_gt in Ef.
      repeat split; [exact Ee|exact Ef|left; exact Ea].
    - destruct (CheckSwapFactoryContractCode (message.SwapFactoryAddress req)) eqn:Ec;
        [discriminate|]. cbn [option_map].
      unfold types.EthAsset_eqb.
      destruct (bytes_eqb (contracts.Asset swap) types.EthAssetETH) eqn:Ee; cbn [negb];
        [|discriminate].
      destruct (FeeWei >=? contracts.Value swap)%Z eqn:Ef; [discriminate|].
      intros _. apply bytes_eqb_eq in Ee. rewrite Z.geb_leb in Ef. apply Z.leb_gt in Ef.
      repeat split; [exact Ee|exact Ef|right; reflexivity]. }
  destruct Hvals as (Ha & Hf & Hc).
  repeat split; assumption.
Qed.

(** X18.  The request the claimer signs is the request the relayer
    verifies.  Let [createForwarderSignature] return a signature for a
    swap, a 32-byte secret, a swap factory and its trusted forwarder;
    let the forwarder's nonce of the claimer be read the same by both
    sides; and let the forwarder accept, for a request from the
    signer's address, the signer's signature of that request's digest.
    Then [validateClaimSignature] accepts the claim request made of that
    swap factory, swap, secret and signature. *)
Theorem signed_request_verifies (key : list byte)
        (swapFactoryAddress forwarderAddress : contracts.Address)
        (swap : contracts.SwapFactorySwap) (secret signature : list byte) :
  forwarder.createForwarderSignature FeeWei relayedClaimGas ec key swapFactoryAddress
    forwarderAddress swap secret = inl signature ->
  List.length secret = 32 ->
  (exists swapFactory,
     forwarder.NewSwapFactory ec swapFactoryAddress = inr swapFactory /\
     forwarder.TrustedForwarder ec swapFactory = inr forwarderAddress) ->
  (forall fwd, forwarder.GetNonce ec fwd (Some forwarder.caller) (contracts.Claimer swap)
               = forwarder.GetNonce ec fwd None (contracts.Claimer swap)) ->
  (forall fwd req domainSeparator digest,
     forwarder.From req = forwarder.PubkeyToAddress ec key ->
     forwarder.GetForwardRequestDigestToSign ec req domainSeparator = inr digest ->
     forwarder.Sign ec key digest = inr signature ->
     forwarder.Verify ec fwd (Some forwarder.caller) req domainSeparator signature = None) ->
  validateClaimSignature
    {| message.SwapFactoryAddress := swapFactoryAddress;
       message.Swap := Some swap;
       message.Secret := secret;
       message.Signature := signature |} = None.
Proof.
  intros Hsig Hlen (sf & Hsf & Htf) Hnonce Hverify.
  revert Hsig.
  unfold forwarder.createForwarderSignature, forwarder.validateClaimSignature.
  cbn [message.SwapFactoryAddress message.Swap message.Secret message.Signature].
  rewrite Hsf. cbn [xmrmaker.rpc bind]. rewrite Htf. cbn [xmrmaker.rpc bind].
  destruct (bytes_eqb (contracts.Claimer swap) (forwarder.PubkeyToAddress ec key)) eqn:Ek;
    cbn [negb]; [|discriminate].
  apply bytes_eqb_eq in Ek.
  destruct (forwarder.getForwarderAndDomainSeparator ec forwarderAddress)
    as [[fwd ds]|e]; cbn [bind]; [|discriminate].
  rewrite Hnonce.
  destruct (forwarder.GetNonce ec fwd None (contracts.Claimer swap)) as [msg|nonce];
    cbn [xmrmaker.rpc bind]; [discriminate|].
  assert (El : (List.length secret <? 32)%nat = false) by (apply Nat.ltb_ge; lia).
  rewrite El.
  assert (Ef : firstn 32 secret = secret) by (rewrite <- Hlen; apply firstn_all).
  rewrite Ef.
  destruct (forwarder.createForwarderRequest FeeWei relayedClaimGas ec nonce
              swapFactoryAddress swap secret) as [req|e] eqn:Er; cbn [bind]; [|discriminate].
  destruct (forwarder.GetForwardRequestDigestToSign ec req ds) as [msg|digest] eqn:Ed;
    [discriminate|].
  destruct (forwarder.Sign ec key digest) as [msg|sig] eqn:Es; [discriminate|].
  intros H. inversion H. subst sig.
  assert (Hfrom : forwarder.From req = forwarder.PubkeyToAddress ec key).
  { revert Er. unfold forwarder.createForwarderRequest, bind.
    destruct (forwarder.getClaimRelayerTxCalldata ec FeeWei swap secret); [|discriminate].
    intros Hr. inversion Hr. exact Ek. }
  rewrite (Hverify fwd req ds digest Hfrom Ed Es). reflexivity.
Qed.

End ForwardRequests.

(** ** Offers *)

Section OfferSoundness.

Context {ext : types.Externals}.

(** The hash of an offer does not read its ID. *)
Lemma hash_with_ID (o : types.Offer) (id : types.Hash) :
  types.hash (types.with_ID o id) = types.hash o.
Proof. reflexivity. Qed.

Lemma valid_IsSet (o : types.Offer) :
  types.Offer_violations o = [] -> types.IsSet o = true.
Proof.
  intros Hv.
  destruct (Offer_no_violations o Hv) as (Hz & Hp & _ & mn & mx & r & Hmn & Hmx & Hr).
  unfold types.IsSet. rewrite Hz, Hmn, Hmx, Hr.
  apply String.eqb_neq in Hp. rewrite Hp. reflexivity.
Qed.

(** X19.  An offer that [UnmarshalOffer] returns is the one
    [encoding/json] read from the blob, under a version that is present
    and not above 1.0.0; none of its required fields has its zero value,
    [validate] accepts it, its ID is the hash of its other fields, its
    amounts pass [coins.ValidatePositive] with minAmount at most
    maxAmount, and [IsSet] holds of it. *)
Theorem UnmarshalOffer_returns_valid (jsonData : list byte) (o : types.Offer) :
  types.UnmarshalOffer jsonData = Ok o ->
  (exists v, types.json_Unmarshal_version jsonData = inr (Some v) /\
             ((semver.Major v < 1)%N \/
              (semver.Major v = 1 /\ semver.Minor v = 0 /\ semver.Patch v = 0)%N)) /\
  types.json_Unmarshal__Offer jsonData = inr o /\
  types.valid o /\
  types.hash o = Ok (types.ID o) /\
  types.ValidatePositive "minAmount" (types.MinAmount o) = None /\
  types.ValidatePositive "maxAmount" (types.MaxAmount o) = None /\
  (exists mn mx, types.MinAmount o = Some mn /\ types.MaxAmount o = Some mx /\
                 (apd.Cmp mn mx <= 0)%Z) /\
  types.IsSet o = true.
Proof.
  intros H.
  assert (Hv : exists v, types.json_Unmarshal_version jsonData = inr (Some v) /\
                         semver.GreaterThan types.semver_comparePrerelease v
                           types.CurOfferVersion = false).
  { revert H. unfold types.UnmarshalOffer.
    destruct (types.json_Unmarshal_version jsonData) as [msg|[v|]]; cbn;
      try discriminate.
    destruct (semver.GreaterThan _ v _) eqn:Eg; [discriminate|].
    intros _. exists v. split; [reflexivity|exact Eg]. }
  destruct Hv as (v & Hv & Hg).
  rewrite (UnmarshalOffer_accepted jsonData v Hv Hg) in H.
  pose proof (UnmarshalJSON_cases jsonData) as Hc.
  destruct (types.json_Unmarshal__Offer jsonData) as [msg|o'] eqn:Eo; [congruence|].
  destruct (types.Offer_violations o') as [|[f t] rest] eqn:Evi; [|congruence].
  destruct (types.validate o') as [e|] eqn:Eval; [congruence|].
  assert (o' = o) by congruence. subst o'.
  destruct (Offer_no_violations o Evi) as (Hz & _ & _ & mn & mx & r & Hmn & Hmx & Hr).
  destruct (validate_cases o mn mx r Hz Hmn Hmx Hr)
    as [(_ & Hp1 & Hp2 & Hcmp & Hh)|[[msg Hx]|[Hx|Hx]]]; try congruence.
  split.
  { exists v. split; [exact Hv|].
    pose proof (GreaterThan_current v) as Hgc.
    destruct (N.lt_trichotomy (semver.Major v) 1) as [Hl|[He|Hgt]].
    - left. exact Hl.
    - right. split; [exact He|].
      destruct (N.eq_dec (semver.Minor v) 0) as [Hm|Hm];
        destruct (N.eq_dec (semver.Patch v) 0) as [Hpa|Hpa]; [split; assumption| | |];
        exfalso; assert (Ht : semver.GreaterThan types.semver_comparePrerelease v
                                types.CurOfferVersion = true)
          by (apply Hgc; right; split; [exact He|lia]); congruence.
    - exfalso.
      assert (Ht : semver.GreaterThan types.semver_comparePrerelease v
                     types.CurOfferVersion = true) by (apply Hgc; left; exact Hgt).
      congruence. }
  split; [reflexivity|]. split; [split; assumption|]. split; [exact Hh|].
  rewrite Hmn, Hmx. split; [exact Hp1|]. split; [exact Hp2|].
  split; [exists mn, mx; repeat split; exact Hcmp|].
  apply valid_IsSet. exact Evi.
Qed.

(** X20.  The ID that [NewOffer] gives an offer is the hash of the
    offer as returned, so [validate] never reports a hash mismatch for
    it.  [NewOffer] itself does not check the amounts: the offer it
    returns passes [validate] exactly when its ID is not the zero hash,
    both reduced amounts pass [coins.ValidatePositive] and the minimum
    is at most the maximum; and setting the ID again panics. *)
Theorem NewOffer_validates (coin : string) (minAmount maxAmount : apd.Decimal)
        (exRate : types.ExchangeRate) (ethAsset : types.EthAsset) (nonce : N)
        (o : types.Offer) :
  types.NewOffer coin minAmount maxAmount exRate ethAsset nonce = Ok o ->
  types.hash o = Ok (types.ID o) /\
  types.validate o <> Some ErrOfferHashMismatch /\
  (types.validate o = None <->
   types.IsHashZero (types.ID o) = false /\
   types.ValidatePositive "minAmount" (Some (apd.Reduce minAmount)) = None /\
   types.ValidatePositive "maxAmount" (Some (apd.Reduce maxAmount)) = None /\
   (apd.Cmp (apd.Reduce minAmount) (apd.Reduce maxAmount) <= 0)%Z) /\
  (types.IsHashZero (types.ID o) = false ->
   types.setID o = Err (Panic "offer ID is already set")).
Proof.
  unfold types.NewOffer, types.setID. cbn [types.ID].
  assert (Hz : types.IsHashZero types.EmptyHash = true) by reflexivity.
  rewrite Hz. cbn [negb].
  set (o0 := types.mkOffer types.CurOfferVersion types.EmptyHash coin
               (Some (apd.Reduce minAmount)) (Some (apd.Reduce maxAmount))
               (Some (apd.Reduce exRate)) ethAsset nonce).
  destruct (types.hash o0) as [h|e] eqn:Eh; cbn [bind]; [|discriminate].
  intros H. inversion H. clear H. subst o.
  assert (Hh : types.hash (types.with_ID o0 h) = Ok (types.ID (types.with_ID o0 h))).
  { rewrite hash_with_ID. exact Eh. }
  assert (Hb : bytes_eqb h h = true) by (apply bytes_eqb_eq; reflexivity).
  split; [exact Hh|].
  assert (Hval : forall (z : bool), types.IsHashZero h = z ->
            types.validate (types.with_ID o0 h) =
            if z then Some errOfferIDNotSet else
            match types.ValidatePositive "minAmount" (Some (apd.Reduce minAmount)) with
            | Some err => Some err
            | None =>
                match types.ValidatePositive "maxAmount" (Some (apd.Reduce maxAmount)) with
                | Some err => Some err
                | None =>
                    if (apd.Cmp (apd.Reduce minAmount) (apd.Reduce maxAmount) >? 0)%Z
                    then Some errMinGreaterThanMax else None
                end
            end).
  { intros z Ez. unfold types.validate. rewrite Hh.
    cbn [types.ID types.with_ID types.MinAmount types.MaxAmount types.ExchangeRate_ o0].
    rewrite Ez, Hb. cbn [negb]. reflexivity. }
  assert (Hcoins : forall f v e, types.ValidatePositive f v = Some e ->
                                 e <> ErrOfferHashMismatch).
  { intros f v e. unfold types.ValidatePositive.
    destruct (types.coins_ValidatePositive _ _ _); [|discriminate].
    intros E. inversion E. discriminate. }
  cbn [types.ID types.with_ID].
  rewrite (Hval _ eq_refl).
  destruct (types.IsHashZero h) eqn:Ez.
  { split; [discriminate|]. split; [|discriminate].
    split; [discriminate|]. intros (E & _). discriminate. }
  destruct (types.ValidatePositive "minAmount" _) as [e1|] eqn:E1.
  { split; [intros E; inversion E; eapply Hcoins; eassumption|].
    split; [|reflexivity]. split; [discriminate|]. intros (_ & E & _). discriminate. }
  destruct (types.ValidatePositive "maxAmount" _) as [e2|] eqn:E2.
  { split; [intros E; inversion E; eapply Hcoins; eassumption|].
    split; [|reflexivity]. split; [discriminate|]. intros (_ & _ & E & _). discriminate. }
  destruct (apd.Cmp (apd.Reduce minAmount) (apd.Reduce maxAmount) >? 0)%Z eqn:Ec.
  { split; [discriminate|]. split; [|reflexivity]. split; [discriminate|].
    intros (_ & _ & _ & E). rewrite Z.gtb_ltb in Ec. apply Z.ltb_lt in Ec. lia. }
  split; [discriminate|]. split; [|reflexivity]. split; [|reflexivity].
  intros _. rewrite Z.gtb_ltb in Ec. apply Z.ltb_ge in Ec. repeat split. exact Ec.
Qed.

End OfferSoundness.

(** ** The taker's keys and the lock *)

(** X21.  After [setXMRTakerKeys] has stored the taker's public spend
    key and private view key -- whether or not the write to the recovery
    database succeeded -- [lockFunds] on a state that has its own public
    keys succeeds exactly when the wallet answers the balance query and
    accepts the transfer of the amount to the address derived from those
    two keys and the state's own; and the funds are marked as locked
    exactly then, unless they were already. *)
Theorem lockFunds_after_setXMRTakerKeys
        (put : types.Hash -> option (list byte) -> option (list byte) -> option string)
        (sk vk : list byte) (secp256k1Pub : option (list byte))
        (xmr : swap.XMRClient) (MinSpendConfirmations : N)
        (swapDestAddr : list byte -> list byte -> xmrmaker.PublicKeyPair -> string)
        (amount : N) (s : xmrmaker.swapState) (pubkeys : xmrmaker.PublicKeyPair) :
  xmrmaker.pubkeys s = Some pubkeys ->
  let s1 := fst (swap.setXMRTakerKeys put (Some sk) (Some vk) secp256k1Pub s) in
  let r := swap.lockFunds xmr MinSpendConfirmations swapDestAddr amount s1 in
  (snd r = None <->
   (exists balance, swap.GetBalance xmr 0 = inr balance) /\
   (exists receipt,
      swap.Transfer xmr (swapDestAddr sk vk pubkeys) 0 amount MinSpendConfirmations
      = inr receipt)) /\
  (xmrmaker.fundsLocked (fst r) = true <->
   snd r = None \/ xmrmaker.fundsLocked s = true).
Proof.
  intros Hp s1 r. subst r s1.
  unfold swap.lockFunds, swap.setXMRTakerKeys.
  cbn [fst snd xmrmaker.xmrtakerPublicSpendKey xmrmaker.xmrtakerPrivateViewKey
       xmrmaker.pubkeys swap.set_xmrtakerPublicSpendKey swap.set_xmrtakerPrivateViewKey
       swap.set_xmrtakerSecp256K1PublicKey].
  rewrite Hp.
  destruct (swap.GetBalance xmr 0) as [msg|balance].
  { cbn. split.
    - split; [discriminate|]. intros [[b Hb] _]. discriminate.
    - split; [intros H; right; exact H|]. intros [H|H]; [discriminate|exact H]. }
  destruct (swap.Transfer xmr (swapDestAddr sk vk pubkeys) 0 amount MinSpendConfirmations)
    as [msg|receipt].
  { cbn. split.
    - split; [discriminate|]. intros [_ [rc Hrc]]. discriminate.
    - split; [intros H; right; exact H|]. intros [H|H]; [discriminate|exact H]. }
  cbn. split.
  - split; [|reflexivity]. intros _. split; [exists balance|exists receipt]; reflexivity.
  - split; [intros _; left; reflexivity|reflexivity].
Qed.

(** ** Names of the message types *)

Lemma all_bytes (t : byte) : In t (map byte_of_N (map N.of_nat (seq 0 256))).
Proof. destruct t; vm_compute; tauto. Qed.

(** X22.  [TypeToString] names every type byte differently, so the name
    in a decoding error identifies the type; and a byte is named
    [Unknown(n)] exactly when it is the type of none of the five
    messages. *)
Theorem TypeToString_injective :
  (forall t t' : byte, message.TypeToString t = message.TypeToString t' -> t = t') /\
  (forall t : byte,
     String.prefix "Unknown(" (message.TypeToString t) = false <->
     exists m, message.Type_ m = t).
Proof.
  split.
  - assert (H : forallb (fun t => forallb (fun t' =>
                  implb (String.eqb (message.TypeToString t) (message.TypeToString t'))
                        (Byte.eqb t t'))
                  (map byte_of_N (map N.of_nat (seq 0 256))))
                (map byte_of_N (map N.of_nat (seq 0 256))) = true)
      by (vm_compute; reflexivity).
    intros t t' E. rewrite forallb_forall in H.
    specialize (H t (all_bytes t)). rewrite forallb_forall in H.
    specialize (H t' (all_bytes t')).
    apply String.eqb_eq in E. rewrite E in H. cbn [implb] in H.
    apply Byte.byte_dec_bl in H. exact H.
  - intros t. split.
    + intros H.
      destruct t; try (vm_compute in H; discriminate).
      * exists (message.MsgQueryResponse {| message.Offers := [] |}). reflexivity.
      * exists (message.MsgRelayClaimRequest
                  {| message.SwapFactoryAddress := []; message.Swap := None;
                     message.Secret := []; message.Signature := [] |}). reflexivity.
      * exists (message.MsgRelayClaimResponse {| message.RespTxHash := [] |}). reflexivity.
      * exists (message.MsgSendKeys
                  {| message.OfferID := []; message.ProvidedAmount := None;
                     message.PublicSpendKey := None; message.PrivateViewKey := None;
                     message.DLEqProof := []; message.Secp256k1PublicKey := None;
                     message.EthAddress := [] |}). reflexivity.
      * exists (message.MsgNotifyETHLocked
                  {| message.Address := []; message.TxHash := [];
                     message.ContractSwapID := []; message.ContractSwap := None |}).
        reflexivity.
    + intros [m <-]. destruct m; reflexivity.
Qed.

(** * The properties on the sample values *)

(** A log of the contract with two topics only. *)
Lemma checkClaimedLog_errors_witness :
  xmrmaker.checkClaimedLog samples.claimedTopic
    (samples.claimed_log [samples.claimedTopic; samples.swap_id])
    samples.factory samples.swap_id samples.secret
  = Some errClaimedLogWrongTopicLength.
Proof.
  apply (proj1 (proj2 (checkClaimedLog_errors samples.claimedTopic
                         (samples.claimed_log [samples.claimedTopic; samples.swap_id])
                         samples.factory samples.swap_id samples.secret))).
  split; [reflexivity|]. intros H. vm_compute in H. discriminate.
Defined.


(** An exit request reaches the swap that waits for the contract. *)
Lemma exit_waits_for_event_witness :
  exists s' w',
    xmrmaker.exit (col := samples.journal) samples2.waiting [] = Some (None, s', w') /\
    xmrmaker.eventCh s' = [] /\
    xmrmaker.Status_ (xmrmaker.info s') = xmrmaker.XMRLocked /\
    xmrmaker.nextExpectedEvent s' = xmrmaker.EventContractReadyType.
Proof.
  destruct (exit_waits_for_event (col := samples.journal) samples2.waiting [] eq_refl)
    as (_ & _ & _ & H).
  apply (H xmrmaker.EventExit [] eq_refl). left. reflexivity.
Defined.

Lemma generateAndSetKeys_once_witness :
  xmrmaker.getSecret
    (fst (swap.generateAndSetKeys (inr samples2.generated)
            (fun _ _ => Some "database closed") samples2.keyless))
  = Ok samples.secret.
Proof.
  apply (generateAndSetKeys_once (inr samples2.generated)
           (fun _ _ => Some "database closed") samples2.keyless samples2.generated
           eq_refl eq_refl).
Defined.

Lemma lockFunds_only_after_transfer_witness :
  fst (swap.lockFunds samples2.wallet samples2.MinSpendConfirmations samples2.dest_addr
         1000000000000 samples2.with_taker_keys)
  = swap.set_fundsLocked true samples2.with_taker_keys.
Proof.
  apply (proj1 (lockFunds_only_after_transfer samples2.wallet
                  samples2.MinSpendConfirmations samples2.dest_addr 1000000000000
                  samples2.with_taker_keys)).
  reflexivity.
Defined.

(** The sample swap starts ten blocks below the wallet's height. *)
Lemma newSwapStateFromStart_result_witness :
  samples2.start = Ok samples2.started /\
  xmrmaker.moneroStartHeight samples2.started = 3000000%N /\
  xmrmaker.StatusCh (xmrmaker.offerExtra samples2.started)
  = Some [xmrmaker.KeysExchanged].
Proof.
  assert (H : samples2.start = Ok samples2.started) by (vm_compute; reflexivity).
  destruct (newSwapStateFromStart_result samples.readyTopic samples.refundedTopic
              samples.next_event samples2.MinSpendConfirmations samples2.start_backend
              samples.good_offer (xmrmaker.mkOfferExtra None true) (apd.New 1 0)
              (apd.New 5 (-2)) samples2.started H)
    as (height & kp & Hh & _ & Hsub & _ & _ & _ & _ & _ & _ & Hch).
  split; [exact H|]. split; [|exact Hch].
  injection Hh as <-. apply (N.add_cancel_r _ _ samples2.MinSpendConfirmations).
  apply Hsub. discriminate.
Defined.


(** The sample offer asks for a relayer: the direct claim plays no
    part. *)
Lemma claimFunds_path_witness :
  claim.claimFunds samples.claimedTopic
    (claim.with_sender_Claim samples2.relay_backend (fun _ _ => inr samples.swap_id))
    samples.resumed
  = claim.claimFunds samples.claimedTopic samples2.relay_backend samples.resumed.
Proof.
  apply (proj1 (claimFunds_path samples.claimedTopic samples2.relay_backend
                  samples.resumed 0 eq_refl)).
  left. reflexivity.
Defined.

Lemma claimFunds_success_witness :
  exists swap weiBalance after,
    xmrmaker.contractSwap samples.resumed = Some swap /\
    claim.Balance_before samples2.relay_backend = inr weiBalance /\
    (if types.EthAsset_eqb (contracts.Asset swap) types.EthAssetETH
     then claim.Balance_after samples2.relay_backend
     else claim.ERC20Balance_after samples2.relay_backend (contracts.Asset swap))
    = inr after /\
    (if xmrmaker.UseRelayer (xmrmaker.offerExtra samples.resumed) || (weiBalance =? 0)%Z
     then claim.discoverRelayersAndClaim samples.claimedTopic samples2.relay_backend
            samples.resumed = Some (inl samples2.tx_hash)
     else exists sc, xmrmaker.getSecret samples.resumed = Ok sc /\
                     claim.sender_Claim samples2.relay_backend
                       (xmrmaker.contractSwap samples.resumed) sc
                     = inr samples2.tx_hash).
Proof.
  apply (claimFunds_success samples.claimedTopic samples2.relay_backend samples.resumed
           samples2.tx_hash).
  vm_compute. reflexivity.
Defined.

(** A relay claim response and its bytes. *)
Lemma DecodeMessage_Encode_witness :
  message.DecodeMessage (dec := samples2.decoders)
    (x03 :: samples2.response_text)
  = Ok (message.MsgRelayClaimResponse samples2.response).
Proof.
  apply (DecodeMessage_Encode (dec := samples2.decoders) (enc := samples2.encoders)
           (message.MsgRelayClaimResponse samples2.response)
           (x03 :: samples2.response_text) samples2.response_text).
  - vm_compute. reflexivity.
  - vm_compute. reflexivity.
  - vm_compute. reflexivity.
  - vm_compute. lia.
Defined.

Lemma DecodeMessage_validated_witness :
  encode.violations (message.MsgRelayClaimResponse samples2.response) = [].
Proof.
  apply (DecodeMessage_validated (dec := samples2.decoders)
           (x03 :: samples2.response_text)
           (message.MsgRelayClaimResponse samples2.response)).
  vm_compute. reflexivity.
Defined.

(** The signed sample request is accepted by a relayer whose own
    contract it names. *)
Lemma validateClaimRequest_accepts_witness :
  exists swap,
    message.Swap samples2.signed_request = Some swap /\
    contracts.Asset swap = types.EthAssetETH /\
    (samples.FeeWei < contracts.Value swap)%Z.
Proof.
  destruct (validateClaimRequest_accepts samples.FeeWei 200000 samples.code_unknown
              samples2.chain samples2.signed_request samples.factory)
    as (swap & _ & _ & _ & _ & _ & _ & _ & Hs & Ha & Hf & _).
  - vm_compute. reflexivity.
  - exists swap. repeat split; assumption.
Defined.

Lemma signed_request_verifies_witness :
  forwarder.validateClaimSignature samples.FeeWei 200000 samples2.chain
    samples2.signed_request = None.
Proof.
  apply (signed_request_verifies samples.FeeWei 200000 samples2.chain
           samples2.claimer_key samples.factory samples2.forwarder_addr
           samples.eth_swap samples.secret samples2.signature).
  - vm_compute. reflexivity.
  - reflexivity.
  - exists samples.factory. split; reflexivity.
  - intros fwd. reflexivity.
  - intros fwd req ds digest _ Hd Hs.
    unfold samples2.chain in Hd, Hs |- *.
    cbn [forwarder.Verify forwarder.GetForwardRequestDigestToSign forwarder.Sign]
      in Hd, Hs |- *.
    assert (Hd' : sha3.Sum256 (samples2.request_bytes req ++ ds)%list = digest)
      by congruence.
    assert (Hs' : (samples2.claimer_key ++ digest)%list = samples2.signature)
      by congruence.
    rewrite <- Hs', <- Hd'.
    assert (E : forall x : list byte, bytes_eqb x x = true)
      by (intros x; apply bytes_eqb_eq; reflexivity).
    rewrite E. reflexivity.
Defined.

(** The good sample offer, read from its JSON text. *)
Lemma UnmarshalOffer_returns_valid_witness :
  types.valid (ext := samples.externals) samples.good_offer /\
  types.IsSet samples.good_offer = true.
Proof.
  destruct (UnmarshalOffer_returns_valid (ext := samples.externals)
              samples.good_blob samples.good_offer)
    as (_ & _ & Hv & _ & _ & _ & _ & Hs).
  - vm_compute. reflexivity.
  - split; assumption.
Defined.

(** [NewOffer] on a minimum written 0.10 gives the good sample offer. *)
Lemma NewOffer_validates_witness :
  types.validate (ext := samples.externals) samples.good_offer = None.
Proof.
  apply (proj1 (proj2 (proj2 (NewOffer_validates (ext := samples.externals)
           "XMR" (apd.New 10 (-2)) (apd.New 1 0) (apd.New 50 (-3)) types.EthAssetETH
           1234 samples.good_offer ltac:(vm_compute; reflexivity))))).
  vm_compute. repeat split. discriminate.
Defined.

Lemma lockFunds_after_setXMRTakerKeys_witness :
  xmrmaker.fundsLocked
    (fst (swap.lockFunds samples2.wallet samples2.MinSpendConfirmations samples2.dest_addr
            1000000000000 samples2.with_taker_keys)) = true.
Proof.
  apply (proj2 (lockFunds_after_setXMRTakerKeys
                  (fun _ _ _ => Some "database closed")
                  samples2.taker_spend samples2.taker_view (Some (repeat x0e 33))
                  samples2.wallet samples2.MinSpendConfirmations samples2.dest_addr
                  1000000000000 samples2.started (samples.public_half samples.keys)
                  eq_refl)).
  left. reflexivity.
Defined.

(** The type byte 2 is that of a message, and is not named unknown. *)
Lemma TypeToString_injective_witness :
  exists m, message.Type_ m = x02.
Proof.
  apply (proj2 TypeToString_injective x02). reflexivity.
Defined.
